(** * Placement portal ([app.py]): a shallow embedding and its properties

    [app.py] is a Streamlit script over a MySQL schema.  One run of the
    script is modelled as a computation in a small monad [M]: it reads
    the widgets' values from [Inputs], threads a [World] (the database,
    the open connections, the Streamlit session) and produces a trace of
    [event]s: what the driver was asked to do, what each of the three
    database helpers returned or raised, and what was put on the page.

    The schema ([portal.sql]) is not part of the sources.  The database is
    therefore a parameter, [Env]: it answers the statements whose meaning
    no property below depends on, runs the stored procedures, and decides
    at which driver call a [mysql.connector.Error] is raised.  The few
    statements whose effect on a table matters are given their SQL meaning
    on that table.

    Not modelled: the layout of the page ([st.columns], [st.expander],
    [st.form] as containers, [st.set_page_config]), placeholders and
    length limits of the input widgets, and the rounding of floats.  The
    events [EvOp] and [EvPage] are bookkeeping of the model: they record
    that a helper returned or raised, and that a page function was
    called, so that properties of a run can speak about them. *)

From Stdlib Require Import ZArith List String Ascii Bool Lia DecimalString.
From Stdlib Require DecimalPos.
Import ListNotations.
Local Open Scope string_scope.
Local Open Scope list_scope.
Local Open Scope Z_scope.

(* ================================================================= *)
(** ** Python values *)

Record date := mkDate { year : Z; month : Z; day : Z }.
Record time := mkTime { hour : Z; minute : Z; second : Z }.
Record datetime := mkDateTime
  { dt_year : Z; dt_month : Z; dt_day : Z;
    dt_hour : Z; dt_minute : Z; dt_second : Z }.

(** The values that travel between the widgets, the script and the
    driver.  [VFloat] keeps a float as the decimal text it was read from
    (rounding to binary64 is not modelled); [VOpaque] is a value the
    script only formats or passes on (a [Decimal], a [date] or a
    [datetime] handed over by the driver), kept as its [str()]. *)
Inductive value :=
| VNone
| VInt (n : Z)
| VStr (s : string)
| VFloat (lit : string)
| VDate (d : date)
| VDateTime (dt : datetime)
| VOpaque (repr : string).

(** f-string pieces are joined left to right. *)
Definition fstr (pieces : list string) : string := String.concat "" pieces.

Definition str_of_Z (n : Z) : string := NilZero.string_of_int (Z.to_int n).

Definition pad (width : nat) (n : Z) : string :=
  let s := str_of_Z n in
  fstr (repeat "0" (width - String.length s)) ++ s.

(** [str(v)], which is what an f-string field [{v}] renders. *)
Definition py_str (v : value) : string :=
  match v with
  | VNone => "None"
  | VInt n => str_of_Z n
  | VStr s => s
  | VFloat lit => lit
  | VDate d => fstr [pad 4 (year d); "-"; pad 2 (month d); "-"; pad 2 (day d)]
  | VDateTime t =>
      fstr [pad 4 (dt_year t); "-"; pad 2 (dt_month t); "-"; pad 2 (dt_day t); " ";
            pad 2 (dt_hour t); ":"; pad 2 (dt_minute t); ":"; pad 2 (dt_second t)]
  | VOpaque r => r
  end.

Definition is_nonzero_digit (c : ascii) : bool :=
  let n := nat_of_ascii c in (49 <=? n)%nat && (n <=? 57)%nat.

(** Truth value of a Python object: [None], [0], [0.0] and [""] are false. *)
Definition py_truthy (v : value) : bool :=
  match v with
  | VNone => false
  | VInt n => negb (n =? 0)
  | VStr s => negb (String.eqb s "")
  | VFloat lit => existsb is_nonzero_digit (list_ascii_of_string lit)
  | VDate _ | VDateTime _ | VOpaque _ => true
  end.

(** [v == "literal"]: only a [str] equals a [str]. *)
Definition py_eq_str (v : value) (s : string) : bool :=
  match v with
  | VStr t => String.eqb t s
  | _ => false
  end.

Definition date_eqb (a b : date) : bool :=
  (year a =? year b) && (month a =? month b) && (day a =? day b).

Definition datetime_eqb (a b : datetime) : bool :=
  (dt_year a =? dt_year b) && (dt_month a =? dt_month b) && (dt_day a =? dt_day b)
  && (dt_hour a =? dt_hour b) && (dt_minute a =? dt_minute b)
  && (dt_second a =? dt_second b).

Definition value_eqb (a b : value) : bool :=
  match a, b with
  | VNone, VNone => true
  | VInt x, VInt y => x =? y
  | VStr x, VStr y => String.eqb x y
  | VFloat x, VFloat y => String.eqb x y
  | VDate x, VDate y => date_eqb x y
  | VDateTime x, VDateTime y => datetime_eqb x y
  | VOpaque x, VOpaque y => String.eqb x y
  | _, _ => false
  end.

(** [a or b] on values. *)
Definition py_or (a b : value) : value := if py_truthy a then a else b.

Definition combine_date_time (d : date) (t : time) : datetime :=
  mkDateTime (year d) (month d) (day d) (hour t) (minute t) (second t).

(* ----------------------------------------------------------------- *)
(** *** [str.isdigit], [int(str)] and [float(str)]

    Text is a string of bytes; these follow the Python reference on
    ASCII text (a character outside ASCII counts as no digit). *)

Definition is_digit (c : ascii) : bool :=
  let n := nat_of_ascii c in (48 <=? n)%nat && (n <=? 57)%nat.

Definition is_space (c : ascii) : bool :=
  let n := nat_of_ascii c in ((9 <=? n)%nat && (n <=? 13)%nat) || (n =? 32)%nat.

Definition isdigit (s : string) : bool :=
  match list_ascii_of_string s with
  | [] => false
  | cs => forallb is_digit cs
  end.

Definition py_len (s : string) : Z := Z.of_nat (String.length s).

Fixpoint lstrip (cs : list ascii) : list ascii :=
  match cs with
  | c :: rest => if is_space c then lstrip rest else cs
  | [] => []
  end.

Definition strip (cs : list ascii) : list ascii :=
  rev (lstrip (rev (lstrip cs))).

(** A [digitpart]: digits, with single underscores between digits.
    Returns the digits read and what follows them. *)
Fixpoint digitpart_more (cs : list ascii) : list ascii * list ascii :=
  match cs with
  | c :: rest =>
      if is_digit c then
        let '(ds, tl) := digitpart_more rest in (c :: ds, tl)
      else if Ascii.eqb c "_" then
        match rest with
        | d :: rest' =>
            if is_digit d then
              let '(ds, tl) := digitpart_more rest' in (d :: ds, tl)
            else ([], cs)
        | [] => ([], cs)
        end
      else ([], cs)
  | [] => ([], [])
  end.

Definition digitpart (cs : list ascii) : option (list ascii * list ascii) :=
  match cs with
  | c :: rest =>
      if is_digit c then
        let '(ds, tl) := digitpart_more rest in Some (c :: ds, tl)
      else None
  | [] => None
  end.

Definition digit_val (c : ascii) : Z := Z.of_nat (nat_of_ascii c) - 48.

Definition digits_val (ds : list ascii) : Z :=
  fold_left (fun acc c => 10 * acc + digit_val c) ds 0.

Definition split_sign (cs : list ascii) : bool * list ascii :=
  match cs with
  | c :: rest =>
      if Ascii.eqb c "-" then (true, rest)
      else if Ascii.eqb c "+" then (false, rest)
      else (false, cs)
  | [] => (false, [])
  end.

(** [int(s)] in base ten; [None] stands for [ValueError]. *)
Definition py_int (s : string) : option Z :=
  let '(neg, body) := split_sign (strip (list_ascii_of_string s)) in
  match digitpart body with
  | Some (ds, []) => Some (if neg then - digits_val ds else digits_val ds)
  | _ => None
  end.

Definition lower (c : ascii) : ascii :=
  let n := nat_of_ascii c in
  if (65 <=? n)%nat && (n <=? 90)%nat then ascii_of_nat (n + 32) else c.

Definition is_exp_mark (c : ascii) : bool := Ascii.eqb (lower c) "e".

(** An optional exponent, then the end of the text. *)
Definition float_exponent_end (cs : list ascii) : bool :=
  match cs with
  | [] => true
  | c :: rest =>
      if is_exp_mark c then
        match digitpart (snd (split_sign rest)) with
        | Some (_, []) => true
        | _ => false
        end
      else false
  end.

Definition float_number (cs : list ascii) : bool :=
  match cs with
  | "."%char :: rest =>
      match digitpart rest with
      | Some (_, tl) => float_exponent_end tl
      | None => false
      end
  | _ =>
      match digitpart cs with
      | Some (_, "."%char :: tl) =>
          match digitpart tl with
          | Some (_, tl') => float_exponent_end tl'
          | None => float_exponent_end tl
          end
      | Some (_, tl) => float_exponent_end tl
      | None => false
      end
  end.

Definition float_word (cs : list ascii) : bool :=
  let w := string_of_list_ascii (map lower cs) in
  String.eqb w "inf" || String.eqb w "infinity" || String.eqb w "nan".

(** [float(s)]: the float read from [s], kept as the stripped text;
    [None] stands for [ValueError]. *)
Definition py_float (s : string) : option value :=
  let cs := strip (list_ascii_of_string s) in
  let body := snd (split_sign cs) in
  if float_word body || float_number body
  then Some (VFloat (string_of_list_ascii cs))
  else None.

(* ================================================================= *)
(** ** Dictionaries and result rows *)

(** A Python [dict] with [str] keys, in insertion order. *)
Definition dict (V : Type) := list (string * V).

Fixpoint dict_get {V} (d : dict V) (k : string) : option V :=
  match d with
  | [] => None
  | (k', v) :: rest => if String.eqb k' k then Some v else dict_get rest k
  end.

(** [d[k] = v]: an existing key keeps its place. *)
Fixpoint dict_set {V} (d : dict V) (k : string) (v : V) : dict V :=
  match d with
  | [] => [(k, v)]
  | (k', v') :: rest =>
      if String.eqb k' k then (k', v) :: rest else (k', v') :: dict_set rest k v
  end.

Definition dict_keys {V} (d : dict V) : list string := map fst d.

(** [{label(o): val(o) for o in rows}] *)
Definition dict_of {A V} (label : A -> string) (val : A -> V) (xs : list A) : dict V :=
  fold_left (fun d x => dict_set d (label x) (val x)) xs [].

(** A row of a [cursor(dictionary=True)] result.  The driver gives every
    selected column a key, so reading a column is total here: [col r k]
    is [r[k]], and a column the row does not carry reads as [None]
    (which is also how [auth.get(k)] reads a missing key). *)
Definition row := dict value.

Definition col (r : row) (k : string) : value :=
  match dict_get r k with
  | Some v => v
  | None => VNone
  end.

Definition set_col (r : row) (k : string) (v : value) : row := dict_set r k v.

(* ================================================================= *)
(** ** The database *)

(** The four tables whose contents a property below speaks about. *)
Record Db := mkDb
  { users : list row;
    student : list row;
    application : list row;
    application_audit : list row }.

(** What a cursor holds after a statement: [fetchall()] and [rowcount]. *)
Record cursor := mkCursor { cur_rows : list row; cur_rowcount : Z }.

(** SQL [column = %s]: a comparison with NULL is never true.  Strings
    compare exactly (the collation of [portal.sql] is not known). *)
Definition sql_eq (column param : value) : bool :=
  match column, param with
  | VNone, _ | _, VNone => false
  | _, _ => value_eqb column param
  end.

Definition project (columns : list string) (r : row) : row :=
  map (fun k => (k, col r k)) columns.

Definition sql_update (t : list row) (key : string) (id : value)
    (assign : row -> row) : list row :=
  map (fun r => if sql_eq (col r key) id then assign r else r) t.

Definition sql_delete (t : list row) (key : string) (id : value) : list row :=
  filter (fun r => negb (sql_eq (col r key) id)) t.

Definition sql_matched (t : list row) (key : string) (id : value) : Z :=
  Z.of_nat (List.length (filter (fun r => sql_eq (col r key) id) t)).

(** The statements given a meaning of their own, as [app.py] writes them
    (runs of white space in the multi-line literals are written as one
    space). *)
Definition SELECT_USER : string :=
  "SELECT user_id, username, password_hash, role, student_id FROM users WHERE username=%s".
Definition UPDATE_CONTACT : string :=
  "UPDATE student SET email=%s, phone=%s WHERE student_id=%s".
Definition UPDATE_STATUS : string :=
  "UPDATE application SET status=%s WHERE application_id=%s".
Definition UPDATE_WITHDRAWN : string :=
  "UPDATE application SET status='WITHDRAWN' WHERE application_id=%s".
Definition INSERT_AUDIT_STATUS : string :=
  "INSERT INTO application_audit(application_id, action, details) VALUES (%s,'STATUS_CHANGE',%s)".
Definition INSERT_AUDIT_WITHDRAW : string :=
  "INSERT INTO application_audit(application_id, action, details) VALUES (%s,'WITHDRAW','User action')".
Definition DELETE_APPLICATION : string :=
  "DELETE FROM application WHERE application_id=%s".
Definition DELETE_USER : string :=
  "DELETE FROM users WHERE user_id=%s".

Definition modelled_statements : list string :=
  [SELECT_USER; UPDATE_CONTACT; UPDATE_STATUS; UPDATE_WITHDRAWN;
   INSERT_AUDIT_STATUS; INSERT_AUDIT_WITHDRAW; DELETE_APPLICATION; DELETE_USER].

Definition set_users (d : Db) (t : list row) : Db :=
  mkDb t (student d) (application d) (application_audit d).
Definition set_student (d : Db) (t : list row) : Db :=
  mkDb (users d) t (application d) (application_audit d).
Definition set_application (d : Db) (t : list row) : Db :=
  mkDb (users d) (student d) t (application_audit d).
Definition set_application_audit (d : Db) (t : list row) : Db :=
  mkDb (users d) (student d) (application d) t.

(** The SQL meaning of the modelled statements on the tables; [None] when
    the parameters do not fit the statement (the driver then raises). *)
Definition run_modelled (sql : string) (params : list value) (d : Db)
    : option (Db * cursor) :=
  if String.eqb sql SELECT_USER then
    match params with
    | [name] =>
        let rs := map (project ["user_id"; "username"; "password_hash"; "role"; "student_id"])
                      (filter (fun r => sql_eq (col r "username") name) (users d)) in
        Some (d, mkCursor rs (Z.of_nat (List.length rs)))
    | _ => None
    end
  else if String.eqb sql UPDATE_CONTACT then
    match params with
    | [email; phone; sid] =>
        Some (set_student d
                (sql_update (student d) "student_id" sid
                   (fun r => set_col (set_col r "email" email) "phone" phone)),
              mkCursor [] (sql_matched (student d) "student_id" sid))
    | _ => None
    end
  else if String.eqb sql UPDATE_STATUS then
    match params with
    | [status; aid] =>
        Some (set_application d
                (sql_update (application d) "application_id" aid
                   (fun r => set_col r "status" status)),
              mkCursor [] (sql_matched (application d) "application_id" aid))
    | _ => None
    end
  else if String.eqb sql UPDATE_WITHDRAWN then
    match params with
    | [aid] =>
        Some (set_application d
                (sql_update (application d) "application_id" aid
                   (fun r => set_col r "status" (VStr "WITHDRAWN"))),
              mkCursor [] (sql_matched (application d) "application_id" aid))
    | _ => None
    end
  else if String.eqb sql INSERT_AUDIT_STATUS then
    match params with
    | [aid; details] =>
        Some (set_application_audit d
                (application_audit d ++
                   [[("application_id", aid); ("action", VStr "STATUS_CHANGE");
                     ("details", details)]]),
              mkCursor [] 1)
    | _ => None
    end
  else if String.eqb sql INSERT_AUDIT_WITHDRAW then
    match params with
    | [aid] =>
        Some (set_application_audit d
                (application_audit d ++
                   [[("application_id", aid); ("action", VStr "WITHDRAW");
                     ("details", VStr "User action")]]),
              mkCursor [] 1)
    | _ => None
    end
  else if String.eqb sql DELETE_APPLICATION then
    match params with
    | [aid] =>
        Some (set_application d (sql_delete (application d) "application_id" aid),
              mkCursor [] (sql_matched (application d) "application_id" aid))
    | _ => None
    end
  else if String.eqb sql DELETE_USER then
    match params with
    | [uid] =>
        Some (set_users d (sql_delete (users d) "user_id" uid),
              mkCursor [] (sql_matched (users d) "user_id" uid))
    | _ => None
    end
  else None.

(** The rest of the database, which [app.py] does not define.  Every call
    into the driver is numbered; [fault n = Some msg] makes the [n]-th call
    raise [mysql.connector.Error] with [str(e) = msg] (a lost connection,
    a violated constraint, a rejected procedure call).  [other_statement]
    answers the statements that are not modelled above (joins, views,
    functions, the remaining tables) and [stored_procedure] runs
    [sp_schedule_interview] and [sp_create_application]; both may depend
    on and change the modelled tables.  [sha256_hexdigest] is
    [hashlib.sha256(bytes).hexdigest()]. *)
Record Env := mkEnv
  { fault : nat -> option string;
    other_statement : nat -> string -> list value -> Db -> Db * cursor;
    stored_procedure : nat -> string -> list value -> Db -> Db;
    sha256_hexdigest : string -> string }.

(* ================================================================= *)
(** ** Traces *)

Inductive page_fn :=
| Page_students
| Page_opportunities_admin
| Page_announcements_admin
| Page_assessments_admin
| Page_interviews_admin
| Page_applications_admin
| Page_reports
| Page_users_admin
| Page_student_dashboard
| Page_student_profile
| Page_opportunities_student.

(** A call of one of the three helpers of [app.py]. *)
Inductive db_op :=
| OpQuery (sql : string) (params : list value)
| OpExecute (sql : string) (params : list value)
| OpCallProc (name : string) (args : list value).

(** A call into [mysql.connector], on connection [c]. *)
Inductive driver_call :=
| DConnect (c : nat)
| DCursorExecute (c : nat) (sql : string) (params : list value)
| DFetchall (c : nat)
| DCallproc (c : nat) (name : string) (args : list value)
| DCommit (c : nat)
| DClose (c : nat).

Inductive exn :=
| MySQLError (msg : string)      (* mysql.connector.Error *)
| KeyError (key : string)
| ValueError (what : string)
| TypeError (what : string)
| IndexError
| RerunException.                (* raised by st.rerun() *)

Inductive op_result :=
| Returned
| Raised (e : exn).

(** What a run puts on the page. *)
Inductive ui :=
| StTitle (s : string)
| StHeader (s : string)
| StSubheader (s : string)
| StCaption (s : string)
| StWrite (s : string)
| StMarkdown (s : string)
| StError (s : string)
| StSuccess (s : string)
| StWarning (s : string)
| StInfo (s : string)
| StButton (label key : string) (disabled : bool)
| StFormSubmitButton (form label : string)
| StSidebarTitle (s : string)
| StSidebarWrite (s : string)
| StSidebarCaption (s : string)
| StSidebarDivider
| StSidebarButton (label : string).

Inductive event :=
| EvDriver (call : driver_call) (raised : option string)
| EvOp (op : db_op) (r : op_result)   (* a helper call of app.py, logged as it ends *)
| EvUi (u : ui)
| EvPage (f : page_fn) (arg : option value).   (* a page function is entered *)

(* ================================================================= *)
(** ** The run monad *)

(** [db] is the committed database; an open connection works on its own
    view of it until it commits.  [session_auth] is
    [st.session_state.auth], which outlives the run. *)
Record World := mkWorld
  { db : Db;
    conns : list (nat * Db);
    next_conn : nat;
    tick : nat;
    session_auth : option row }.

Inductive outcome (A : Type) :=
| Ok (a : A)
| Exc (e : exn).
Arguments Ok {A} a.
Arguments Exc {A} e.

Record Res (A : Type) := mkRes
  { out : outcome A;
    final : World;
    events : list event }.
Arguments mkRes {A} out final events.
Arguments out {A} r.
Arguments final {A} r.
Arguments events {A} r.

Definition M (A : Type) : Type := World -> Res A.

Definition ret {A} (a : A) : M A := fun w => mkRes (Ok a) w [].

Definition raise {A} (e : exn) : M A := fun w => mkRes (Exc e) w [].

Definition bind {A B} (m : M A) (f : A -> M B) : M B := fun w =>
  let r := m w in
  match out r with
  | Ok a => let r' := f a (final r) in
            mkRes (out r') (final r') (events r ++ events r')
  | Exc e => mkRes (Exc e) (final r) (events r)
  end.

Declare Scope run_scope.
Delimit Scope run_scope with run.
Notation "x <- m ;; k" := (bind m (fun x => k))
  (at level 61, m at next level, right associativity) : run_scope.
Notation "m ;; k" := (bind m (fun _ => k))
  (at level 61, right associativity) : run_scope.
Local Open Scope run_scope.

Definition emit (e : event) : M unit := fun w => mkRes (Ok tt) w [e].


(** [try: body  except Error as e: handler(str(e))]; only
    [mysql.connector.Error] is caught. *)
Definition try_except_Error (body : M unit) (handler : string -> M unit) : M unit :=
  fun w =>
  let r := body w in
  match out r with
  | Exc (MySQLError msg) =>
      let r' := handler msg (final r) in
      mkRes (out r') (final r') (events r ++ events r')
  | _ => r
  end.

(** [try: body  finally: fin] *)
Definition try_finally {A} (body : M A) (fin : M unit) : M A := fun w =>
  let r := body w in
  let r' := fin (final r) in
  match out r' with
  | Ok _ => mkRes (out r) (final r') (events r ++ events r')
  | Exc e => mkRes (Exc e) (final r') (events r ++ events r')
  end.

(** [for x in xs: body(x)] *)
Fixpoint for_each {A} (xs : list A) (body : A -> M unit) : M unit :=
  match xs with
  | [] => ret tt
  | x :: rest => body x ;; for_each rest body
  end.

(** [if c: body] *)
Definition when (c : bool) (body : M unit) : M unit :=
  if c then body else ret tt.

(** [d[k]], where [k] may be [None] (an empty selectbox). *)
Definition getitem {V} (d : dict V) (k : option string) : M V :=
  match k with
  | Some s => match dict_get d s with
              | Some v => ret v
              | None => raise (KeyError s)
              end
  | None => raise (KeyError "None")
  end.

(* ================================================================= *)
(** ** Widgets' values *)

(** What the user did in the browser before this run: the text typed
    into a widget, the entry picked in a select box, the buttons pressed.
    A widget is named by its [key=], or else by its form and label.
    [today_plus n] is [datetime.date.today() + datetime.timedelta(days=n)]. *)
Record Inputs := mkInputs
  { typed : string -> option string;
    picked : string -> option nat;
    number : string -> option Z;
    number_float : string -> option string;
    picked_date : string -> option date;
    picked_time : string -> option time;
    clicked : string -> bool;
    today_plus : Z -> date }.

Definition DB_HOST : string := "localhost".
Definition DB_USER : string := "portal_admin".
Definition DB_NAME : string := "placement_portal".

Definition STATUS_COLORS : dict string :=
  [("APPLIED", "#2563eb"); ("SHORTLISTED", "#f59e0b");
   ("INTERVIEW_SCHEDULED", "#f97316"); ("OFFERED", "#22c55e");
   ("REJECTED", "#6b7280"); ("WITHDRAWN", "#9ca3af")].

Definition INTERVIEW_RESULT_COLORS : dict string :=
  [("PENDING", "#6b7280"); ("PASS", "#16a34a"); ("FAIL", "#ef4444");
   ("RESCHEDULED", "#f59e0b")].

(** [colors.get(v, default)] *)
Definition color_get (colors : dict string) (v : value) (default : string) : string :=
  match v with
  | VStr s => match dict_get colors s with
              | Some c => c
              | None => default
              end
  | _ => default
  end.

(** The double quote of the HTML attributes. *)
Definition dq : string := String "034"%char EmptyString.

Definition badge (text color : string) : string :=
  fstr ["<span style="; dq; "padding:2px 8px;border-radius:12px;background:"; color;
        ";color:white;font-size:12px;"; dq; ">"; text; "</span>"].

Definition expired_badge : string :=
  fstr ["<span style="; dq;
        "padding:2px 8px;border-radius:12px;background:#ef4444;color:white;font-size:12px;";
        dq; ">EXPIRED</span>"].

Definition nonempty (s : string) : bool := negb (String.eqb s "").

Definition sel_is (o : option string) (s : string) : bool :=
  match o with
  | Some t => String.eqb t s
  | None => false
  end.

Definition opt_str (o : option string) : value :=
  match o with
  | Some s => VStr s
  | None => VNone
  end.

Definition opt_date (o : option date) : value :=
  match o with
  | Some d => VDate d
  | None => VNone
  end.

Definition view_of (cs : list (nat * Db)) (c : nat) : option Db :=
  option_map snd (find (fun p => Nat.eqb (fst p) c) cs).

Definition set_view (cs : list (nat * Db)) (c : nat) (d : Db) : list (nat * Db) :=
  map (fun p => if Nat.eqb (fst p) c then (c, d) else p) cs.

Definition drop_conn (cs : list (nat * Db)) (c : nat) : list (nat * Db) :=
  filter (fun p => negb (Nat.eqb (fst p) c)) cs.

Definition set_db (w : World) (d : Db) : World :=
  mkWorld d (conns w) (next_conn w) (tick w) (session_auth w).
Definition set_conns (w : World) (cs : list (nat * Db)) : World :=
  mkWorld (db w) cs (next_conn w) (tick w) (session_auth w).
Definition set_next_conn (w : World) (n : nat) : World :=
  mkWorld (db w) (conns w) n (tick w) (session_auth w).
Definition set_tick (w : World) (t : nat) : World :=
  mkWorld (db w) (conns w) (next_conn w) t (session_auth w).
Definition set_session_auth (w : World) (a : option row) : World :=
  mkWorld (db w) (conns w) (next_conn w) (tick w) a.

(** Reading and writing [st.session_state.auth]. *)
Definition get_session : M (option row) := fun w => mkRes (Ok (session_auth w)) w [].

Definition set_session (a : option row) : M unit := fun w =>
  mkRes (Ok tt) (set_session_auth w a) [].

Definition NOT_AVAILABLE : string := "MySQL Connection not available.".
Definition BAD_PARAMETERS : string := "Not all parameters were used in the SQL statement".

Section Portal.

Variable env : Env.
Variable inp : Inputs.

(* ================================================================= *)
(** ** The driver *)

(** One call into [mysql.connector]: it takes the next number, and either
    raises (the environment's fault, or the call's own error) or acts on
    the world. *)
Definition driver {A} (call : driver_call)
    (act : nat -> World -> string + A * World) : M A := fun w =>
  let t := tick w in
  let w1 := set_tick w (S t) in
  match fault env t with
  | Some msg => mkRes (Exc (MySQLError msg)) w1 [EvDriver call (Some msg)]
  | None =>
      match act t w1 with
      | inl msg => mkRes (Exc (MySQLError msg)) w1 [EvDriver call (Some msg)]
      | inr (a, w2) => mkRes (Ok a) w2 [EvDriver call None]
      end
  end.

Definition run_statement (t : nat) (sql : string) (params : list value) (d : Db)
    : string + Db * cursor :=
  if existsb (String.eqb sql) modelled_statements then
    match run_modelled sql params d with
    | Some r => inr r
    | None => inl BAD_PARAMETERS
    end
  else inr (other_statement env t sql params d).

(** [mysql.connector.connect(...)]: a new connection, which sees the
    committed database. *)
Definition get_conn : M nat := fun w =>
  let c := next_conn w in
  driver (DConnect c)
    (fun _ w1 => inr (c, set_next_conn (set_conns w1 ((c, db w1) :: conns w1)) (S c))) w.

(** [cur = conn.cursor(); cur.execute(sql, params)] *)
Definition cursor_execute (c : nat) (sql : string) (params : list value) : M cursor :=
  driver (DCursorExecute c sql params)
    (fun t w =>
       match view_of (conns w) c with
       | None => inl NOT_AVAILABLE
       | Some d =>
           match run_statement t sql params d with
           | inl msg => inl msg
           | inr (d', cur) => inr (cur, set_conns w (set_view (conns w) c d'))
           end
       end).

Definition fetchall (c : nat) (cur : cursor) : M (list row) :=
  driver (DFetchall c) (fun _ w => inr (cur_rows cur, w)).

(** [cur.callproc(name, args)]; the loop over [cur.stored_results()] that
    follows it in [call_proc] only drains what the call has buffered. *)
Definition callproc (c : nat) (name : string) (args : list value) : M unit :=
  driver (DCallproc c name args)
    (fun t w =>
       match view_of (conns w) c with
       | None => inl NOT_AVAILABLE
       | Some d =>
           inr (tt, set_conns w (set_view (conns w) c (stored_procedure env t name args d)))
       end).

(** [conn.commit()]: the connection's view becomes the database. *)
Definition commit (c : nat) : M unit :=
  driver (DCommit c)
    (fun _ w =>
       match view_of (conns w) c with
       | None => inl NOT_AVAILABLE
       | Some d => inr (tt, set_db w d)
       end).

(** [conn.close()]: what was not committed is lost.  It does not raise. *)
Definition conn_close (c : nat) : M unit := fun w =>
  mkRes (Ok tt) (set_conns w (drop_conn (conns w) c)) [EvDriver (DClose c) None].

(* ================================================================= *)
(** ** The three helpers *)

(** The helper's call is written to the trace as it ends, with how it
    ended. *)
Definition logged {A} (op : db_op) (m : M A) : M A := fun w =>
  let r := m w in
  mkRes (out r) (final r)
    (events r ++ [EvOp op (match out r with
                           | Ok _ => Returned
                           | Exc e => Raised e
                           end)]).

(** [conn = None; try: conn = get_conn(); ... finally: if conn: conn.close()].
    When [get_conn()] raises, [conn] is still [None] and nothing is closed. *)
Definition query (sql : string) (params : list value) : M (list row) :=
  logged (OpQuery sql params)
    (conn <- get_conn ;;
     try_finally
       (cur <- cursor_execute conn sql params ;;
        fetchall conn cur)
       (conn_close conn)).

Definition execute (sql : string) (params : list value) : M Z :=
  logged (OpExecute sql params)
    (conn <- get_conn ;;
     try_finally
       (cur <- cursor_execute conn sql params ;;
        commit conn ;;
        ret (cur_rowcount cur))
       (conn_close conn)).

Definition call_proc (name : string) (args : list value) : M unit :=
  logged (OpCallProc name args)
    (conn <- get_conn ;;
     try_finally
       (callproc conn name args ;;
        commit conn)
       (conn_close conn)).

(* ================================================================= *)
(** ** Streamlit *)

Definition st (u : ui) : M unit := emit (EvUi u).

Definition st_rerun : M unit := raise RerunException.

(** [st.text_input(label, value=default)] and [st.text_area]. *)
Definition text_input (key default : string) : string :=
  match typed inp key with
  | Some s => s
  | None => default
  end.

(** The same, when [value=] is a database value (possibly [None]). *)
Definition text_input_value (key : string) (default : value) : value :=
  match typed inp key with
  | Some s => VStr s
  | None => default
  end.

(** [st.selectbox(label, options, index=i)]: one of the options, or
    [None] when there is none. *)
Definition selectbox_at (key : string) (options : list string) (i : nat)
    : option string :=
  match options with
  | [] => None
  | o :: _ =>
      match picked inp key with
      | Some j => Some (nth j options (nth i options o))
      | None => Some (nth i options o)
      end
  end.

Definition selectbox (key : string) (options : list string) : option string :=
  selectbox_at key options 0.

Definition date_input (key : string) (default : date) : date :=
  match picked_date inp key with
  | Some d => d
  | None => default
  end.

(** [st.date_input(label, value=None)] *)
Definition date_input_optional (key : string) : option date := picked_date inp key.

Definition time_input (key : string) (default : time) : time :=
  match picked_time inp key with
  | Some t => t
  | None => default
  end.

(** [st.number_input(label, min_value=lo, value=default)] on integers. *)
Definition number_input (key : string) (lo default : Z) : Z :=
  match number inp key with
  | Some n => Z.max lo n
  | None => default
  end.

Definition number_input_float (key : string) (default : string) : value :=
  match number_float inp key with
  | Some lit => VFloat lit
  | None => VFloat default
  end.

Definition button (label key : string) (disabled : bool) : M bool :=
  st (StButton label key disabled) ;;
  ret (negb disabled && clicked inp key).

Definition form_submit_button (form label : string) : M bool :=
  st (StFormSubmitButton form label) ;;
  ret (clicked inp (fstr [form; "/"; label])).

Definition sidebar_button (label : string) : M bool :=
  st (StSidebarButton label) ;;
  ret (clicked inp (fstr ["sidebar/"; label])).

Definition int_of (s : string) : M Z :=
  match py_int s with
  | Some n => ret n
  | None => raise (ValueError (fstr ["invalid literal for int() with base 10: "; s]))
  end.

Definition float_of (s : string) : M value :=
  match py_float s with
  | Some f => ret f
  | None => raise (ValueError (fstr ["could not convert string to float: "; s]))
  end.

(** [options.index(v)] *)
Fixpoint index_from (options : list string) (v : value) (i : nat) : option nat :=
  match options with
  | [] => None
  | o :: rest => if py_eq_str v o then Some i else index_from rest v (S i)
  end.

Definition index_of (options : list string) (v : value) : M nat :=
  match index_from options v 0 with
  | Some i => ret i
  | None => raise (ValueError (fstr [py_str v; " is not in list"]))
  end.

(** [except Error as e: st.error(f"MySQL Error: {e}")] *)
Definition show_mysql_error (e : string) : M unit :=
  st (StError (fstr ["MySQL Error: "; e])).

(* ================================================================= *)
(** ** Authentication *)

(** [s.encode("utf-8")] is the text's own bytes. *)
Definition sha256_hex (s : string) : string := sha256_hexdigest env s.

Definition authenticate (username password : string) : M (option row) :=
  rows <- query SELECT_USER [VStr username] ;;
  match rows with
  | [] => ret None
  | u :: _ =>
      if py_eq_str (col u "password_hash") (sha256_hex password) then
        ret (Some [("user_id", col u "user_id");
                   ("username", col u "username");
                   ("role", col u "role");
                   ("student_id", col u "student_id")])
      else ret None
  end.

Definition login_ui : M unit :=
  st (StTitle "🔐 Placement Portal — Login") ;;
  let username := text_input "login_form/Username" "" in
  let password := text_input "login_form/Password" "" in
  submitted <- form_submit_button "login_form" "Login" ;;
  when submitted
    (user <- authenticate username password ;;
     match user with
     | Some u =>
         set_session (Some u) ;;
         st (StSuccess (fstr ["Welcome, "; py_str (col u "username"); " (";
                              py_str (col u "role"); ")"])) ;;
         st_rerun
     | None => st (StError "Invalid credentials.")
     end).

(* ================================================================= *)
(** ** Admin pages *)

Definition INSERT_STUDENT : string :=
  "INSERT INTO student(roll_no, first_name, last_name, email, phone, department, batch, cgpa) VALUES (%s,%s,%s,%s,%s,%s,%s,%s)".

(** The [Add Student] form of [page_students]. *)
Definition add_student : M unit :=
  let roll := text_input "add_student/Roll No*" "" in
  let first := text_input "add_student/First Name*" "" in
  let dept := text_input "add_student/Department*" "" in
  let last := text_input "add_student/Last Name*" "" in
  let batch := text_input "add_student/Batch (Year)*" "" in
  let cgpa := text_input "add_student/CGPA*" "" in
  let email := text_input "add_student/Email*" "" in
  let phone := text_input "add_student/Phone" "" in
  submit <- form_submit_button "add_student" "Create" ;;
  when submit
    (if negb (nonempty roll && nonempty first && nonempty last && nonempty dept
              && nonempty email && nonempty batch && nonempty cgpa)
     then st (StError "Please fill all required fields.")
     else if negb (isdigit batch && (py_len batch =? 4))
     then st (StError "Batch must be a 4-digit year.")
     else
       try_except_Error
         (b <- int_of batch ;;
          c <- float_of cgpa ;;
          execute INSERT_STUDENT
            [VStr roll; VStr first; VStr last; VStr email; VStr phone; VStr dept;
             VInt b; c] ;;
          st (StSuccess "Student created."))
         show_mysql_error).

Definition student_applications (row : row) : M unit :=
  apps <- query
    "SELECT a.application_id, o.title, o.company, a.applied_on, a.status, a.remarks FROM application a JOIN opportunity o ON o.opportunity_id = a.opportunity_id WHERE a.student_id=%s ORDER BY a.applied_on DESC"
    [col row "student_id"] ;;
  match apps with
  | [] => st (StInfo "No applications yet.")
  | _ =>
      for_each apps (fun a =>
        st (StWrite (fstr ["- **App #"; py_str (col a "application_id"); "** — ";
                           py_str (col a "title"); " @ "; py_str (col a "company");
                           " on "; py_str (col a "applied_on")])) ;;
        st (StMarkdown (badge (py_str (col a "status"))
                              (color_get STATUS_COLORS (col a "status") "#999"))) ;;
        when (py_truthy (col a "remarks")) (st (StCaption (py_str (col a "remarks")))))
  end.

Definition edit_student (row : row) : M unit :=
  let form := fstr ["edit_student_"; py_str (col row "student_id")] in
  let first := text_input_value (fstr [form; "/First Name"]) (col row "first_name") in
  let dept := text_input_value (fstr [form; "/Department"]) (col row "department") in
  let last := text_input_value (fstr [form; "/Last Name"]) (col row "last_name") in
  let batch := text_input (fstr [form; "/Batch (Year)"]) (py_str (col row "batch")) in
  let email := text_input_value (fstr [form; "/Email"]) (col row "email") in
  let cgpa := text_input (fstr [form; "/CGPA"]) (py_str (col row "cgpa")) in
  let phone := text_input_value (fstr [form; "/Phone"]) (col row "phone") in
  let roll := text_input_value (fstr [form; "/Roll No"]) (col row "roll_no") in
  ubtn <- form_submit_button form "Update" ;;
  when ubtn
    (try_except_Error
       (b <- int_of batch ;;
        c <- float_of cgpa ;;
        execute
          "UPDATE student SET roll_no=%s, first_name=%s, last_name=%s, email=%s, phone=%s, department=%s, batch=%s, cgpa=%s WHERE student_id=%s"
          [roll; first; last; email; phone; dept; VInt b; c; col row "student_id"] ;;
        st (StSuccess "Updated.") ;;
        st_rerun)
       show_mysql_error) ;;
  del <- button "Delete Student" (fstr ["delstu_"; py_str (col row "student_id")]) false ;;
  when del
    (try_except_Error
       (execute "DELETE FROM student WHERE student_id=%s" [col row "student_id"] ;;
        st (StWarning "Student deleted.") ;;
        st_rerun)
       show_mysql_error).

Definition student_listing (row : row) : M unit :=
  st (StMarkdown "---") ;;
  st (StWrite (fstr ["**#"; py_str (col row "student_id"); " — ";
                     py_str (col row "first_name"); " "; py_str (col row "last_name"); "**"])) ;;
  st (StWrite (fstr ["Roll: "; py_str (col row "roll_no")])) ;;
  st (StWrite (fstr ["Dept: "; py_str (col row "department")])) ;;
  st (StWrite (fstr ["Batch: "; py_str (col row "batch"); "  |  CGPA: ";
                     py_str (col row "cgpa")])) ;;
  st (StWrite (fstr ["Email: "; py_str (col row "email")])) ;;
  st (StWrite (fstr ["Phone: "; py_str (col row "phone")])) ;;
  view <- button "View Applications" (fstr ["viewapps_"; py_str (col row "student_id")]) false ;;
  when view (student_applications row) ;;
  edit_student row.

Definition page_students : M unit :=
  st (StHeader "👩‍🎓 Students — CRUD") ;;
  st (StCaption "Batch is graduation year (4 digits). Sorted by Student ID.") ;;
  add_student ;;
  students <- query "SELECT * FROM student ORDER BY student_id ASC" [] ;;
  for_each students student_listing.

(** The deadline badge of an opportunity row, as both Opportunities pages
    compute it from [r['days_left']]. *)
Definition lt_zero (v : value) : M bool :=
  match v with
  | VInt n => ret (n <? 0)
  | _ => raise (TypeError "'<' not supported")
  end.

Definition deadline_badge (r : row) : M unit :=
  match col r "days_left" with
  | VNone => st (StMarkdown (badge "No Deadline" "#6b7280"))
  | d =>
      neg <- lt_zero d ;;
      if neg then st (StMarkdown expired_badge)
      else st (StMarkdown (badge (fstr [py_str d; " days left"]) "#2563eb"))
  end.

Definition opportunity_admin_row (r : row) : M unit :=
  st (StMarkdown "---") ;;
  st (StWrite (fstr ["**"; py_str (col r "title"); "**"])) ;;
  st (StCaption (py_str (col r "company"))) ;;
  st (StWrite (fstr ["Min CGPA: **"; py_str (col r "min_cgpa"); "**"])) ;;
  st (StWrite (fstr ["Vacancy: **"; py_str (col r "vacancy"); "**"])) ;;
  st (StWrite (fstr ["Last Date: "; py_str (col r "application_deadline")])) ;;
  deadline_badge r ;;
  del <- button "Delete" (fstr ["delopp_"; py_str (col r "opportunity_id")]) false ;;
  when del
    (try_except_Error
       (execute "DELETE FROM opportunity WHERE opportunity_id=%s" [col r "opportunity_id"] ;;
        st (StWarning "Opportunity deleted.") ;;
        st_rerun)
       show_mysql_error).

Definition office_label (o : row) : string :=
  fstr ["#"; py_str (col o "office_id"); " — "; py_str (col o "name")].

Definition add_opportunity : M unit :=
  offices <- query "SELECT office_id, name FROM placement_office ORDER BY office_id" [] ;;
  let office_map := dict_of office_label (fun o => col o "office_id") offices in
  let office := selectbox "add_opp/Placement Office*" (dict_keys office_map) in
  let title := text_input "add_opp/Title*" "" in
  let company := text_input "add_opp/Company*" "" in
  let vacancy := number_input "add_opp/Vacancy*" 0 1 in
  let mincg := number_input_float "add_opp/Min CGPA*" "7.0" in
  let deadline := date_input_optional "add_opp/Application Deadline (optional)" in
  let desc := text_input "add_opp/Description" "" in
  sb <- form_submit_button "add_opp" "Create" ;;
  when sb
    (try_except_Error
       (o <- getitem office_map office ;;
        execute
          "INSERT INTO opportunity(office_id, title, company, description, vacancy, min_cgpa, posted_on, application_deadline) VALUES (%s,%s,%s,%s,%s,%s,CURDATE(),%s)"
          [o; VStr title; VStr company; VStr desc; VInt vacancy; mincg; opt_date deadline] ;;
        st (StSuccess "Opportunity created.") ;;
        st_rerun)
       show_mysql_error).

Definition page_opportunities_admin : M unit :=
  st (StHeader "💼 Opportunities (Admin)") ;;
  rows <- query
    "SELECT o.*, fn_days_left_for_opportunity(o.opportunity_id) AS days_left FROM opportunity o ORDER BY o.posted_on DESC, o.opportunity_id DESC" [] ;;
  for_each rows opportunity_admin_row ;;
  add_opportunity.

Definition post_announcement : M unit :=
  offices <- query "SELECT office_id, name FROM placement_office ORDER BY office_id" [] ;;
  let office_map :=
    fold_left (fun d o => dict_set d (office_label o) (col o "office_id")) offices
      [("-- none (global) --", VNone)] in
  let title := text_input "add_ann/Title*" "" in
  let content := text_input "add_ann/Content*" "" in
  let office_sel := selectbox "add_ann/Office" (dict_keys office_map) in
  let valid_until := date_input_optional "add_ann/Valid Until (optional)" in
  sb <- form_submit_button "add_ann" "Post" ;;
  when sb
    (try_except_Error
       (o <- getitem office_map office_sel ;;
        execute
          "INSERT INTO announcement(office_id, title, content, valid_until) VALUES (%s,%s,%s,%s)"
          [o; VStr title; VStr content; opt_date valid_until] ;;
        st (StSuccess "Announcement posted."))
       show_mysql_error).

Definition announcement_row (a : row) : M unit :=
  st (StMarkdown "---") ;;
  st (StWrite (fstr ["**"; py_str (col a "title"); "**  —  ";
                     py_str (py_or (col a "office_name") (VStr "Global"))])) ;;
  st (StCaption (fstr ["Posted: "; py_str (col a "post_date"); "  |  Valid until: ";
                       py_str (py_or (col a "valid_until") (VStr "—"))])) ;;
  st (StWrite (py_str (col a "content"))) ;;
  del <- button "Delete" (fstr ["delann_"; py_str (col a "announcement_id")]) false ;;
  when del
    (try_except_Error
       (execute "DELETE FROM announcement WHERE announcement_id=%s"
          [col a "announcement_id"] ;;
        st (StWarning "Announcement deleted.") ;;
        st_rerun)
       show_mysql_error).

Definition page_announcements_admin : M unit :=
  st (StHeader "📣 Announcements (Admin)") ;;
  post_announcement ;;
  anns <- query
    "SELECT a.announcement_id, a.title, a.content, a.post_date, a.valid_until, p.name AS office_name FROM announcement a LEFT JOIN placement_office p ON p.office_id = a.office_id ORDER BY a.post_date DESC" [] ;;
  for_each anns announcement_row.

Definition opportunity_label (o : row) : string :=
  fstr ["#"; py_str (col o "opportunity_id"); " — "; py_str (col o "title"); " @ ";
        py_str (col o "company")].

Definition add_assessment : M unit :=
  opps <- query "SELECT opportunity_id, title, company FROM opportunity ORDER BY opportunity_id DESC" [] ;;
  let opp_map := dict_of opportunity_label (fun o => col o "opportunity_id") opps in
  let opp_sel := selectbox "add_assessment/Opportunity*" (dict_keys opp_map) in
  let title := text_input "add_assessment/Title*" "" in
  let max_marks := number_input "add_assessment/Max Marks*" 1 100 in
  let d := date_input "add_assessment/Date*" (today_plus inp 2) in
  let t := time_input "add_assessment/Time*" (mkTime 10 0 0) in
  let mode := selectbox "add_assessment/Mode*" ["ONLINE"; "OFFLINE"] in
  let duration :=
    number_input "add_assessment/Duration (minutes, ONLINE only)" 0
      (if sel_is mode "ONLINE" then 90 else 0) in
  let desc := text_input "add_assessment/Description" "" in
  sb <- form_submit_button "add_assessment" "Create" ;;
  when sb
    (try_except_Error
       (o <- getitem opp_map opp_sel ;;
        execute
          "INSERT INTO assessment (opportunity_id, title, max_marks, date_scheduled, mode, duration_minutes, description) VALUES (%s,%s,%s,%s,%s,%s,%s)"
          [o; VStr title; VInt max_marks; VDateTime (combine_date_time d t); opt_str mode;
           if sel_is mode "ONLINE" then VInt duration else VNone; VStr desc] ;;
        st (StSuccess "Assessment added.") ;;
        st_rerun)
       show_mysql_error).

Definition assessment_row (r : row) : M unit :=
  st (StMarkdown "---") ;;
  st (StWrite (fstr ["**"; py_str (col r "title"); "** — "; py_str (col r "max_marks");
                     " marks"])) ;;
  let extra :=
    fstr [" | Mode: "; py_str (col r "mode");
          if py_eq_str (col r "mode") "ONLINE" && py_truthy (col r "duration_minutes")
          then fstr [" | Duration: "; py_str (col r "duration_minutes"); " mins"]
          else ""] in
  st (StCaption (fstr ["For: "; py_str (col r "opp_title"); " @ "; py_str (col r "company");
                       "  |  Scheduled: "; py_str (col r "date_scheduled"); extra])) ;;
  when (py_truthy (col r "description")) (st (StWrite (py_str (col r "description")))) ;;
  del <- button "Delete" (fstr ["delassess_"; py_str (col r "assessment_id")]) false ;;
  when del
    (try_except_Error
       (execute "DELETE FROM assessment WHERE assessment_id=%s" [col r "assessment_id"] ;;
        st (StWarning "Assessment deleted.") ;;
        st_rerun)
       show_mysql_error).

Definition page_assessments_admin : M unit :=
  st (StHeader "📝 Assessments (Admin)") ;;
  add_assessment ;;
  rows <- query
    "SELECT a.assessment_id, a.title, a.max_marks, a.date_scheduled, a.mode, a.duration_minutes, a.description, o.title AS opp_title, o.company FROM assessment a JOIN opportunity o ON o.opportunity_id = a.opportunity_id ORDER BY a.date_scheduled DESC" [] ;;
  for_each rows assessment_row.

Definition application_label (a : row) : string :=
  fstr ["#"; py_str (col a "application_id"); " — "; py_str (col a "first_name"); " ";
        py_str (col a "last_name"); " for "; py_str (col a "title"); " @ ";
        py_str (col a "company")].

Definition RESULTS : list string := ["PENDING"; "PASS"; "FAIL"; "RESCHEDULED"].

(** The [Schedule Interview] form of [page_interviews_admin]. *)
Definition schedule_interview : M unit :=
  apps <- query
    "SELECT a.application_id, s.first_name, s.last_name, o.title, o.company FROM application a JOIN student s ON s.student_id=a.student_id JOIN opportunity o ON o.opportunity_id=a.opportunity_id ORDER BY a.application_id DESC" [] ;;
  let app_map := dict_of application_label (fun a => col a "application_id") apps in
  let sel := selectbox "schedule_interview/Application*" (dict_keys app_map) in
  let d := date_input "schedule_interview/Date*" (today_plus inp 1) in
  let t := time_input "schedule_interview/Time*" (mkTime 11 0 0) in
  let mode := selectbox "schedule_interview/Mode*" ["ONLINE"; "OFFLINE"] in
  let venue := text_input "schedule_interview/Venue / Link*"
                 (if sel_is mode "ONLINE" then "Google Meet" else "Placement Cell, Room 101") in
  let panel := text_input "schedule_interview/Panel*" "HR; Tech Lead" in
  sb <- form_submit_button "schedule_interview" "Schedule" ;;
  when sb
    (try_except_Error
       (a <- getitem app_map sel ;;
        call_proc "sp_schedule_interview"
          [a; VDateTime (combine_date_time d t); opt_str mode; VStr venue; VStr panel] ;;
        st (StSuccess "Interview scheduled and application status updated.") ;;
        st_rerun)
       show_mysql_error).

Definition interview_row (r : row) : M unit :=
  st (StMarkdown "---") ;;
  st (StWrite (fstr ["**#"; py_str (col r "interview_id"); " — ";
                     py_str (col r "first_name"); " "; py_str (col r "last_name"); "**"])) ;;
  st (StCaption (fstr [py_str (col r "opp_title"); " @ "; py_str (col r "company")])) ;;
  st (StWrite (fstr ["When: "; py_str (col r "schedule_time"); "  |  Mode: ";
                     py_str (col r "mode")])) ;;
  st (StWrite (fstr ["Venue/Link: "; py_str (col r "venue")])) ;;
  st (StWrite (fstr ["Panel: "; py_str (col r "panel")])) ;;
  st (StMarkdown (badge (fstr ["Result: "; py_str (col r "result")])
                        (color_get INTERVIEW_RESULT_COLORS (col r "result") "#666"))) ;;
  i <- index_of RESULTS (col r "result") ;;
  let newres := selectbox_at (fstr ["res_"; py_str (col r "interview_id")]) RESULTS i in
  save <- button "Save Result" (fstr ["svres_"; py_str (col r "interview_id")]) false ;;
  when save
    (try_except_Error
       (execute "UPDATE interview SET result=%s WHERE interview_id=%s"
          [opt_str newres; col r "interview_id"] ;;
        st (StSuccess "Result updated.") ;;
        st_rerun)
       show_mysql_error).

Definition page_interviews_admin : M unit :=
  st (StHeader "🎤 Interviews (Admin: schedule via procedure)") ;;
  schedule_interview ;;
  rows <- query
    "SELECT i.interview_id, i.application_id, i.schedule_time, i.mode, i.venue, i.panel, i.result, s.first_name, s.last_name, o.title AS opp_title, o.company FROM interview i JOIN application a ON a.application_id = i.application_id JOIN student s ON s.student_id = a.student_id JOIN opportunity o ON o.opportunity_id = a.opportunity_id ORDER BY i.schedule_time DESC" [] ;;
  for_each rows interview_row.

Definition STATUSES : list string :=
  ["APPLIED"; "SHORTLISTED"; "INTERVIEW_SCHEDULED"; "OFFERED"; "REJECTED"; "WITHDRAWN"].

(** The body of [if st.button("Update Status", ...)] for the listed
    application [r], with [new_status] picked in the select box. *)
Definition update_status (r : row) (new_status : option string) : M unit :=
  try_except_Error
    (execute UPDATE_STATUS [opt_str new_status; col r "application_id"] ;;
     execute INSERT_AUDIT_STATUS
       [col r "application_id";
        VStr (fstr [py_str (col r "status"); " -> "; py_str (opt_str new_status)])] ;;
     st (StSuccess "Status updated.") ;;
     st_rerun)
    show_mysql_error.

(** The body of [if st.button("Withdraw", ...)]. *)
Definition withdraw (r : row) : M unit :=
  try_except_Error
    (execute UPDATE_WITHDRAWN [col r "application_id"] ;;
     execute INSERT_AUDIT_WITHDRAW [col r "application_id"] ;;
     st (StWarning "Application withdrawn.") ;;
     st_rerun)
    show_mysql_error.

(** The body of [if st.button("Delete Application", ...)]. *)
Definition delete_application (r : row) : M unit :=
  try_except_Error
    (execute DELETE_APPLICATION [col r "application_id"] ;;
     st (StError "Application deleted (triggers fired).") ;;
     st_rerun)
    show_mysql_error.

Definition application_row (r : row) : M unit :=
  st (StMarkdown "---") ;;
  st (StWrite (fstr ["**App #"; py_str (col r "application_id"); "** by **";
                     py_str (col r "student_name"); "**"])) ;;
  st (StCaption (fstr ["On: "; py_str (col r "applied_on")])) ;;
  st (StWrite (fstr [py_str (col r "title"); " @ "; py_str (col r "company")])) ;;
  when (py_truthy (col r "remarks"))
    (st (StCaption (fstr ["Remarks: "; py_str (col r "remarks")]))) ;;
  st (StMarkdown (badge (py_str (col r "status"))
                        (color_get STATUS_COLORS (col r "status") "#666"))) ;;
  i <- index_of STATUSES (col r "status") ;;
  let new_status :=
    selectbox_at (fstr ["stsel_"; py_str (col r "application_id")]) STATUSES i in
  upd <- button "Update Status" (fstr ["upst_"; py_str (col r "application_id")]) false ;;
  when upd (update_status r new_status) ;;
  wd <- button "Withdraw" (fstr ["wd_"; py_str (col r "application_id")]) false ;;
  when wd (withdraw r) ;;
  del <- button "Delete Application" (fstr ["del_"; py_str (col r "application_id")]) false ;;
  when del (delete_application r).

Definition page_applications_admin : M unit :=
  st (StHeader "🗂️ Applications (Admin)") ;;
  rows <- query
    "SELECT a.application_id, a.applied_on, a.status, a.remarks, s.student_id, CONCAT(s.first_name,' ',s.last_name) AS student_name, o.opportunity_id, o.title, o.company FROM application a JOIN student s ON s.student_id=a.student_id JOIN opportunity o ON o.opportunity_id=a.opportunity_id ORDER BY a.applied_on DESC" [] ;;
  for_each rows application_row.

(** [rows[0]] *)
Definition first_row (rows : list row) : M row :=
  match rows with
  | r :: _ => ret r
  | [] => raise IndexError
  end.

Definition page_reports : M unit :=
  st (StHeader "📊 Queries & Reports (Views / Functions)") ;;
  st (StCaption "Join, aggregate, nested views and function outputs.") ;;
  st (StSubheader "Join + Aggregate View: vw_opportunity_stats") ;;
  v1 <- query "SELECT * FROM vw_opportunity_stats ORDER BY opportunity_id DESC" [] ;;
  for_each v1 (fun r =>
    st (StWrite (fstr ["- **#"; py_str (col r "opportunity_id"); " "; py_str (col r "title");
                       "** @ "; py_str (col r "company"); " | Apps: ";
                       py_str (col r "total_applications"); " | Avg CGPA: ";
                       py_str (col r "avg_applicant_cgpa")]))) ;;
  st (StSubheader "Aggregate View: vw_student_app_counts") ;;
  v2 <- query "SELECT * FROM vw_student_app_counts ORDER BY app_count DESC, student_id ASC" [] ;;
  for_each v2 (fun r =>
    st (StWrite (fstr ["- **#"; py_str (col r "student_id"); " ";
                       py_str (col r "student_name"); "** — Dept: ";
                       py_str (col r "department"); " | Batch: "; py_str (col r "batch");
                       " | Applications: "; py_str (col r "app_count")]))) ;;
  st (StSubheader "Nested Query View: vw_above_average_applicants") ;;
  v3 <- query "SELECT * FROM vw_above_average_applicants ORDER BY app_count DESC" [] ;;
  match v3 with
  | [] => st (StInfo "Currently, no one is above average.")
  | _ =>
      st (StWrite "Students whose application count is **above** global average.") ;;
      for_each v3 (fun r =>
        st (StWrite (fstr ["- **#"; py_str (col r "student_id"); " ";
                           py_str (col r "student_name"); "** — ";
                           py_str (col r "app_count"); " applications"])))
  end ;;
  st (StSubheader "Function Demos") ;;
  s1 <- query "SELECT student_id FROM student ORDER BY student_id LIMIT 1" [] ;;
  match s1 with
  | [] => ret tt
  | s :: _ =>
      let sid := col s "student_id" in
      name_row <- query "SELECT fn_get_student_fullname(%s) AS fullname" [sid] ;;
      n <- first_row name_row ;;
      st (StWrite (fstr ["fn_get_student_fullname("; py_str sid; ") → **";
                         py_str (col n "fullname"); "**"]))
  end ;;
  opps <- query "SELECT opportunity_id, title FROM opportunity ORDER BY opportunity_id DESC LIMIT 3" [] ;;
  for_each opps (fun o =>
    dl <- query "SELECT fn_days_left_for_opportunity(%s) AS dl" [col o "opportunity_id"] ;;
    d <- first_row dl ;;
    st (StWrite (fstr ["fn_days_left_for_opportunity(#"; py_str (col o "opportunity_id");
                       " "; py_str (col o "title"); ") → **"; py_str (col d "dl"); "**"]))).

Definition student_link_label (s : row) : string :=
  fstr ["#"; py_str (col s "student_id"); " — "; py_str (col s "nm")].

Definition create_user : M unit :=
  let username := text_input "add_user/Username*" "" in
  let role := selectbox "add_user/Role*" ["ADMIN"; "STUDENT"] in
  students <- query
    "SELECT student_id, CONCAT(first_name,' ',last_name,' (',roll_no,')') AS nm FROM student ORDER BY student_id" [] ;;
  let student_map :=
    fold_left (fun d s => dict_set d (student_link_label s) (col s "student_id")) students
      [("-- none --", VNone)] in
  let link_label := selectbox "add_user/Link to Student (for STUDENT)" (dict_keys student_map) in
  let pwd := text_input "add_user/Password*" "" in
  sb <- form_submit_button "add_user" "Create" ;;
  when sb
    (try_except_Error
       (link <- getitem student_map link_label ;;
        execute "INSERT INTO users(username, password_hash, role, student_id) VALUES (%s,%s,%s,%s)"
          [VStr username; VStr (sha256_hex pwd); opt_str role; link] ;;
        st (StSuccess "User created."))
       show_mysql_error).

Definition user_row (u : row) : M unit :=
  let link :=
    if py_truthy (col u "student_id")
    then fstr [" → Student #"; py_str (col u "student_id"); " "; py_str (col u "student_name")]
    else "" in
  st (StWrite (fstr ["- **#"; py_str (col u "user_id"); " "; py_str (col u "username");
                     "** — "; py_str (col u "role"); link; " (created ";
                     py_str (col u "created_at"); ")"])) ;;
  when (negb (py_eq_str (col u "username") "admin"))
    (del <- button "Delete" (fstr ["delusr_"; py_str (col u "user_id")]) false ;;
     when del
       (try_except_Error
          (execute DELETE_USER [col u "user_id"] ;;
           st (StWarning "User deleted.") ;;
           st_rerun)
          show_mysql_error)).

Definition page_users_admin : M unit :=
  st (StHeader "👤 Users (Admin)") ;;
  create_user ;;
  users <- query
    "SELECT u.user_id, u.username, u.role, u.created_at, u.student_id, CONCAT(s.first_name,' ',s.last_name) AS student_name FROM users u LEFT JOIN student s ON s.student_id=u.student_id ORDER BY u.user_id" [] ;;
  for_each users user_row.

(* ================================================================= *)
(** ** Student pages *)

Definition page_student_dashboard (student_id : value) : M unit :=
  st (StHeader "🏠 My Dashboard") ;;
  st (StCaption "Upcoming interviews and assessments relevant to you.") ;;
  st (StSubheader "🎤 Upcoming Interviews") ;;
  interviews <- query
    "SELECT i.interview_id, i.schedule_time, i.mode, i.venue, i.panel, i.result, o.title, o.company FROM interview i JOIN application a ON a.application_id=i.application_id JOIN opportunity o ON o.opportunity_id=a.opportunity_id WHERE a.student_id=%s AND i.schedule_time >= NOW() ORDER BY i.schedule_time ASC"
    [student_id] ;;
  match interviews with
  | [] => st (StInfo "No upcoming interviews.")
  | _ =>
      for_each interviews (fun r =>
        st (StWrite (fstr ["- **"; py_str (col r "title"); " @ "; py_str (col r "company");
                           "**"])) ;;
        st (StCaption (fstr ["Date: "; py_str (col r "schedule_time"); " | Mode: ";
                             py_str (col r "mode"); " | Venue/Link: ";
                             py_str (col r "venue")])) ;;
        st (StMarkdown (badge (fstr ["Status: "; py_str (col r "result")])
                              (color_get INTERVIEW_RESULT_COLORS (col r "result") "#666"))))
  end ;;
  st (StSubheader "📝 Upcoming Assessments") ;;
  assessments <- query
    "SELECT a2.title AS assess_title, a2.date_scheduled, a2.mode, a2.duration_minutes, o.title AS opp_title, o.company FROM assessment a2 JOIN opportunity o ON o.opportunity_id=a2.opportunity_id JOIN application ap ON ap.opportunity_id=o.opportunity_id WHERE ap.student_id=%s AND a2.date_scheduled >= NOW() ORDER BY a2.date_scheduled ASC"
    [student_id] ;;
  match assessments with
  | [] => st (StInfo "No upcoming assessments.")
  | _ =>
      for_each assessments (fun r =>
        let extra :=
          if py_eq_str (col r "mode") "ONLINE" && py_truthy (col r "duration_minutes")
          then fstr [" | Duration: "; py_str (col r "duration_minutes"); " mins"]
          else "" in
        st (StWrite (fstr ["- **"; py_str (col r "opp_title"); " @ ";
                           py_str (col r "company"); "** — ";
                           py_str (col r "assess_title")])) ;;
        st (StCaption (fstr ["Date: "; py_str (col r "date_scheduled"); " | Mode: ";
                             py_str (col r "mode"); extra])))
  end.

(** The body of [if sb:] in [page_student_profile]: the
    [Save Contact Info] button was pressed. *)
Definition save_contact_info (email phone student_id : value) : M unit :=
  try_except_Error
    (execute UPDATE_CONTACT [email; phone; student_id] ;;
     st (StSuccess "Contact info updated.") ;;
     st_rerun)
    show_mysql_error.

Definition page_student_profile (student_id : value) : M unit :=
  st (StHeader "👤 My Profile") ;;
  rows <- query "SELECT * FROM student WHERE student_id=%s" [student_id] ;;
  match rows with
  | [] => st (StError "Student record not found.")
  | s :: _ =>
      st (StWrite (fstr ["**"; py_str (col s "first_name"); " "; py_str (col s "last_name");
                         "**  |  Roll: "; py_str (col s "roll_no")])) ;;
      st (StWrite (fstr ["Dept: "; py_str (col s "department"); "  |  Batch: ";
                         py_str (col s "batch"); "  |  CGPA: "; py_str (col s "cgpa")])) ;;
      let email := text_input_value "update_profile/Email" (col s "email") in
      let phone := text_input_value "update_profile/Phone" (py_or (col s "phone") (VStr "")) in
      sb <- form_submit_button "update_profile" "Save Contact Info" ;;
      when sb (save_contact_info email phone student_id)
  end.

(** [days_left is not None and days_left < 0] *)
Definition is_expired (r : row) : M bool :=
  match col r "days_left" with
  | VNone => ret false
  | d => lt_zero d
  end.

(** The body of [if st.button(label, ...)] for the listed opportunity [r]. *)
Definition apply_for (student_id : value) (r : row) : M unit :=
  try_except_Error
    (call_proc "sp_create_application" [student_id; col r "opportunity_id"; VInt 0] ;;
     st (StSuccess (fstr ["You have successfully applied for **"; py_str (col r "title");
                          " @ "; py_str (col r "company"); "**."])) ;;
     st_rerun)
    show_mysql_error.

Definition opportunity_student_row (student_id my_cgpa : value) (applied_set : list value)
    (r : row) : M unit :=
  st (StMarkdown "---") ;;
  st (StWrite (fstr ["**"; py_str (col r "title"); "**"])) ;;
  st (StCaption (py_str (col r "company"))) ;;
  st (StWrite (fstr ["Min CGPA: **"; py_str (col r "min_cgpa"); "** (You: ";
                     py_str my_cgpa; ")"])) ;;
  st (StWrite (fstr ["Vacancy: **"; py_str (col r "vacancy"); "**"])) ;;
  st (StWrite (fstr ["Last Date: "; py_str (col r "application_deadline")])) ;;
  deadline_badge r ;;
  expired <- is_expired r ;;
  let already := existsb (value_eqb (col r "opportunity_id")) applied_set in
  let disabled := expired || already in
  let label := if already then "Applied" else if negb expired then "Apply" else "Expired" in
  go <- button label (fstr ["apply_"; py_str (col r "opportunity_id")]) disabled ;;
  when go (apply_for student_id r).

Definition page_opportunities_student (student_id : value) : M unit :=
  st (StHeader "💼 Opportunities") ;;
  st (StCaption "Personalized for you. No global student filter; apply directly. EXPIRED items are disabled.") ;;
  rows <- query
    "SELECT o.opportunity_id, o.title, o.company, o.min_cgpa, o.vacancy, o.application_deadline, o.posted_on, fn_days_left_for_opportunity(o.opportunity_id) AS days_left FROM opportunity o ORDER BY o.posted_on DESC, o.opportunity_id DESC" [] ;;
  existing <- query "SELECT opportunity_id FROM application WHERE student_id=%s" [student_id] ;;
  let applied_set := map (fun e => col e "opportunity_id") existing in
  srow <- query "SELECT cgpa FROM student WHERE student_id=%s" [student_id] ;;
  let my_cgpa := match srow with
                 | s :: _ => col s "cgpa"
                 | [] => VFloat "0.0"
                 end in
  for_each rows (opportunity_student_row student_id my_cgpa applied_set).

(* ================================================================= *)
(** ** Navigation *)

Definition PAGES_ADMIN : dict page_fn :=
  [("Students", Page_students);
   ("Opportunities", Page_opportunities_admin);
   ("Announcements", Page_announcements_admin);
   ("Assessments", Page_assessments_admin);
   ("Interviews", Page_interviews_admin);
   ("Applications", Page_applications_admin);
   ("Reports", Page_reports);
   ("Users", Page_users_admin)].

Definition PAGES_STUDENT : dict page_fn :=
  [("My Dashboard", Page_student_dashboard);
   ("My Profile", Page_student_profile);
   ("Opportunities", Page_opportunities_student);
   ("Reports", Page_reports)].

(** [f()] or [f(arg)] on a page function; the call is written to the
    trace. *)
Definition call_page (f : page_fn) (arg : option value) : M unit :=
  emit (EvPage f arg) ;;
  match f, arg with
  | Page_students, None => page_students
  | Page_opportunities_admin, None => page_opportunities_admin
  | Page_announcements_admin, None => page_announcements_admin
  | Page_assessments_admin, None => page_assessments_admin
  | Page_interviews_admin, None => page_interviews_admin
  | Page_applications_admin, None => page_applications_admin
  | Page_reports, None => page_reports
  | Page_users_admin, None => page_users_admin
  | Page_student_dashboard, Some sid => page_student_dashboard sid
  | Page_student_profile, Some sid => page_student_profile sid
  | Page_opportunities_student, Some sid => page_opportunities_student sid
  | _, _ => raise (TypeError "wrong number of arguments")
  end.

(** [if st.sidebar.button("Logout"): st.session_state.auth = None; st.rerun()] *)
Definition logout : M unit :=
  b <- sidebar_button "Logout" ;;
  when b
    (set_session None ;;
     st_rerun).

Definition NOT_LINKED : string :=
  "This student user is not linked to a student record. Ask Admin to link it.".

Definition main : M unit :=
  session <- get_session ;;
  match session with
  | Some ((_ :: _) as auth) =>
      let role := col auth "role" in
      st (StSidebarTitle "🎓 Placement Portal") ;;
      st (StSidebarWrite (fstr ["Logged in as **"; py_str (col auth "username"); "** (";
                                py_str role; ")"])) ;;
      st (StSidebarCaption (fstr ["DB: "; DB_USER; "@"; DB_HOST; "/"; DB_NAME])) ;;
      if py_eq_str role "ADMIN" then
        let page_name := selectbox "sidebar/Navigate" (dict_keys PAGES_ADMIN) in
        st StSidebarDivider ;;
        logout ;;
        f <- getitem PAGES_ADMIN page_name ;;
        call_page f None
      else if py_eq_str role "STUDENT" then
        if negb (py_truthy (col auth "student_id")) then
          st (StError NOT_LINKED) ;;
          logout
        else
          let page_name := selectbox "sidebar/Navigate" (dict_keys PAGES_STUDENT) in
          st StSidebarDivider ;;
          logout ;;
          if existsb (sel_is page_name) ["My Dashboard"; "My Profile"; "Opportunities"] then
            f <- getitem PAGES_STUDENT page_name ;;
            call_page f (Some (col auth "student_id"))
          else
            f <- getitem PAGES_STUDENT page_name ;;
            call_page f None
      else
        st (StError "Unknown role.") ;;
        logout
  | _ => login_ui
  end.

End Portal.

(* ================================================================= *)
(** * The vocabulary of the properties *)

(* ----------------------------------------------------------------- *)
(** *** Connections *)

(** Driver calls on connection [c], between its opening and its closing. *)
Definition on_conn (c : nat) (e : event) : Prop :=
  match e with
  | EvDriver (DCursorExecute c' _ _) _
  | EvDriver (DFetchall c') _
  | EvDriver (DCallproc c' _ _) _
  | EvDriver (DCommit c') _ => c' = c
  | _ => False
  end.

(** What the body of a helper may do with its connection [c]: call the
    driver on [c], and change nothing of the other connections. *)
Definition uses_only {A} (c : nat) (m : M A) : Prop :=
  forall w,
    Forall (on_conn c) (events (m w))
    /\ drop_conn (conns (final (m w))) c = drop_conn (conns w) c
    /\ next_conn (final (m w)) = next_conn w.

(** Every open connection was numbered before [next_conn]. *)
Definition fresh_ids (w : World) : Prop :=
  Forall (fun p => (fst p < next_conn w)%nat) (conns w).

(** The trace of a helper that opens a connection of its own, numbered
    [c], and closes it before it ends. *)
Inductive own_connection (c : nat) (op : db_op) : list event -> Prop :=
| never_opened msg :
    own_connection c op
      [EvDriver (DConnect c) (Some msg); EvOp op (Raised (MySQLError msg))]
| opened_and_closed mid r :
    Forall (on_conn c) mid ->
    own_connection c op
      (EvDriver (DConnect c) None :: mid ++ [EvDriver (DClose c) None; EvOp op r]).

(* ----------------------------------------------------------------- *)
(** *** Authentication *)

(** The driver raises at none of the next [n] calls. *)
Definition db_up (env : Env) (w : World) (n : nat) : Prop :=
  forall i, (i < n)%nat -> fault env (tick w + i) = None.

(** [username] is a key of the [users] table. *)
Definition unique_username (d : Db) (username : string) : Prop :=
  forall u1 u2,
    In u1 (users d) -> In u2 (users d) ->
    col u1 "username" = VStr username -> col u2 "username" = VStr username ->
    u1 = u2.

(** The record [authenticate] returns for the row [u]. *)
Definition user_record (u : row) : row :=
  [("user_id", col u "user_id"); ("username", col u "username");
   ("role", col u "role"); ("student_id", col u "student_id")].

Definition user_columns : list string :=
  ["user_id"; "username"; "password_hash"; "role"; "student_id"].

Definition rows_named (d : Db) (username : string) : list row :=
  filter (fun r => sql_eq (col r "username") (VStr username)) (users d).

(* ----------------------------------------------------------------- *)
(** *** Helper calls *)

Definition result_of {A} (o : outcome A) : op_result :=
  match o with
  | Ok _ => Returned
  | Exc e => Raised e
  end.

(** The driver calls a helper call [op] may make. *)
Definition driver_event_of (op : db_op) (e : event) : Prop :=
  match e with
  | EvDriver (DCursorExecute _ sql params) _ =>
      op = OpQuery sql params \/ op = OpExecute sql params
  | EvDriver (DCallproc _ name args) _ => op = OpCallProc name args
  | EvDriver _ _ => True
  | _ => False
  end.

Definition only_mysql_errors {A} (o : outcome A) : Prop :=
  forall e, o = Exc e -> exists msg, e = MySQLError msg.

Definition drives {A} (op : db_op) (m : M A) : Prop :=
  forall w,
    Forall (driver_event_of op) (events (m w))
    /\ only_mysql_errors (out (m w))
    /\ session_auth (final (m w)) = session_auth w.

(** A helper call: driver calls, then its own entry [EvOp op _], which
    tells how it ended; it raises nothing but [mysql.connector.Error]
    and leaves the session alone. *)
Definition helper_call {A} (op : db_op) (m : M A) : Prop :=
  forall w,
    (exists drv,
        events (m w) = drv ++ [EvOp op (result_of (out (m w)))]
        /\ Forall (driver_event_of op) drv)
    /\ only_mysql_errors (out (m w))
    /\ session_auth (final (m w)) = session_auth w.

(* ----------------------------------------------------------------- *)
(** *** Properties of every run *)

(** The message of the [mysql.connector.Error] a computation ended with,
    if it ended so. *)
Definition mysql_of {A} (o : outcome A) : option string :=
  match o with
  | Exc (MySQLError msg) => Some msg
  | _ => None
  end.

(** A property [P w o w' evs] of a piece of a run (the world before, how
    it ended, the world after, what it left in the trace) that holds of
    nothing done, of a page element and of a change of the session, and of
    two pieces run one after the other. *)
Class TraceProp (P : World -> option string -> World -> list event -> Prop) : Prop :=
  { tp_nil : forall w, P w None w [];
    tp_seq : forall w w1 w2 o a b, P w None w1 a -> P w1 o w2 b -> P w o w2 (a ++ b);
    tp_ui : forall w u, P w None w [EvUi u];
    tp_session : forall w a, P w None (set_session_auth w a) [] }.

(** A property that does not look at how the piece ended. *)
Class Blind (P : World -> option string -> World -> list event -> Prop) : Prop :=
  blind : forall w o o' w' evs, P w o w' evs -> P w o' w' evs.

Definition always (P : World -> option string -> World -> list event -> Prop)
    {A} (m : M A) : Prop :=
  forall w, P w (mysql_of (out (m w))) (final (m w)) (events (m w)).

Definition each (phi : event -> Prop) : World -> option string -> World -> list event -> Prop :=
  fun _ _ _ evs => Forall phi evs.

Definition inserts_into (table sql : string) : bool :=
  String.prefix (fstr ["INSERT INTO "; table; "("]) sql
  || String.prefix (fstr ["INSERT INTO "; table; " "]) sql.

Definition statement_of (e : event) : option string :=
  match e with
  | EvOp (OpQuery sql _) _
  | EvOp (OpExecute sql _) _
  | EvDriver (DCursorExecute _ sql _) _ => Some sql
  | _ => None
  end.

Definition workflow_tables_untouched (sql : string) : bool :=
  negb (inserts_into "interview" sql) && negb (inserts_into "application" sql).

(** The event carries no [INSERT INTO interview] or
    [INSERT INTO application] statement. *)
Definition no_direct_insert (e : event) : Prop :=
  match statement_of e with
  | Some sql => workflow_tables_untouched sql = true
  | None => True
  end.

(* ----------------------------------------------------------------- *)
(** *** The two workflows *)

(** The stored-procedure calls of a trace, in order. *)
Fixpoint proc_calls (evs : list event) : list db_op :=
  match evs with
  | [] => []
  | EvOp (OpCallProc name args) _ :: rest => OpCallProc name args :: proc_calls rest
  | _ :: rest => proc_calls rest
  end.

Definition LIST_APPLICATIONS : string :=
  "SELECT a.application_id, s.first_name, s.last_name, o.title, o.company FROM application a JOIN student s ON s.student_id=a.student_id JOIN opportunity o ON o.opportunity_id=a.opportunity_id ORDER BY a.application_id DESC".

(** The procedure call the [Schedule Interview] form makes for the
    application [a], from the values of its widgets. *)
Definition schedule_call (inp : Inputs) (a : value) : db_op :=
  let d := date_input inp "schedule_interview/Date*" (today_plus inp 1) in
  let t := time_input inp "schedule_interview/Time*" (mkTime 11 0 0) in
  let mode := selectbox inp "schedule_interview/Mode*" ["ONLINE"; "OFFLINE"] in
  let venue := text_input inp "schedule_interview/Venue / Link*"
                 (if sel_is mode "ONLINE" then "Google Meet" else "Placement Cell, Room 101") in
  let panel := text_input inp "schedule_interview/Panel*" "HR; Tech Lead" in
  OpCallProc "sp_schedule_interview"
    [a; VDateTime (combine_date_time d t); opt_str mode; VStr venue; VStr panel].

(* ----------------------------------------------------------------- *)
(** *** Database errors *)

(** The trace goes on with the inline message for [msg]. *)
Definition shows (msg : string) (evs : list event) : bool :=
  match evs with
  | EvUi (StError s) :: _ => String.eqb s (fstr ["MySQL Error: "; msg])
  | _ => false
  end.

(** Every helper call in [must] that raised a database error is followed
    at once by the inline message for that error. *)
Fixpoint surfaced (must : db_op -> bool) (evs : list event) : bool :=
  match evs with
  | [] => true
  | EvOp op (Raised (MySQLError msg)) :: rest =>
      (negb (must op) || shows msg rest) && surfaced must rest
  | _ :: rest => surfaced must rest
  end.

Definition is_write (op : db_op) : bool :=
  match op with
  | OpQuery _ _ => false
  | OpExecute _ _ | OpCallProc _ _ => true
  end.

Definition every_op (op : db_op) : bool := true.

(** The event is not a [query] that raised. *)
Definition no_failed_query (e : event) : Prop :=
  match e with
  | EvOp (OpQuery _ _) (Raised _) => False
  | _ => True
  end.

Definition failed_query (sql : string) (params : list value) (msg : string) : event :=
  EvOp (OpQuery sql params) (Raised (MySQLError msg)).

Definition handled (evs : list event) : Prop :=
  surfaced is_write evs = true /\ Forall no_failed_query evs.

(** Outside the [try] blocks: the errors of the writes so far were shown,
    and a database error ends the piece only as the error of a [query],
    its last event. *)
Definition errors_shown : World -> option string -> World -> list event -> Prop :=
  fun _ o _ evs =>
    match o with
    | None => handled evs
    | Some msg =>
        exists pre sql params, evs = pre ++ [failed_query sql params msg] /\ handled pre
    end.

(** Inside a [try] block: a database error ends the piece as the error of
    a write, its last event, still to be shown. *)
Definition error_pending : World -> option string -> World -> list event -> Prop :=
  fun _ o _ evs =>
    match o with
    | None => handled evs
    | Some msg =>
        exists pre op,
          evs = pre ++ [EvOp op (Raised (MySQLError msg))]
          /\ is_write op = true /\ handled pre
    end.

(* ----------------------------------------------------------------- *)
(** *** Navigation *)

(** Some widget values make this run call the page function [f] on [arg]. *)
Definition reaches (env : Env) (w : World) (f : page_fn) (arg : option value) : Prop :=
  exists inp, In (EvPage f arg) (events (main env inp w)).

Definition ADMIN_PAGES : list page_fn := map snd PAGES_ADMIN.

(** The admin pages that write to the database (all but the reports). *)
Definition ADMIN_CRUD_PAGES : list page_fn :=
  [Page_students; Page_opportunities_admin; Page_announcements_admin;
   Page_assessments_admin; Page_interviews_admin; Page_applications_admin;
   Page_users_admin].

(** The pages of a student linked to [sid], with their arguments. *)
Definition student_calls (sid : value) : list (page_fn * option value) :=
  [(Page_student_dashboard, Some sid); (Page_student_profile, Some sid);
   (Page_opportunities_student, Some sid); (Page_reports, None)].

(** Inputs that pick the [i]-th entry of the sidebar and press nothing. *)
Definition navigate_to (i : nat) : Inputs :=
  mkInputs (fun _ => None) (fun _ => Some i) (fun _ => None) (fun _ => None)
           (fun _ => None) (fun _ => None) (fun _ => false) (fun _ => mkDate 2025 1 1).

Definition calls_only (allowed : page_fn -> option value -> Prop) (e : event) : Prop :=
  match e with
  | EvPage f arg => allowed f arg
  | _ => True
  end.

(** What [main] does for a session of role [ADMIN]. *)
Definition admin_run (env : Env) (auth : row) (inp : Inputs) : M unit :=
  st (StSidebarTitle "🎓 Placement Portal") ;;
  st (StSidebarWrite (fstr ["Logged in as **"; py_str (col auth "username"); "** (";
                            py_str (col auth "role"); ")"])) ;;
  st (StSidebarCaption (fstr ["DB: "; DB_USER; "@"; DB_HOST; "/"; DB_NAME])) ;;
  st StSidebarDivider ;;
  logout inp ;;
  f <- getitem PAGES_ADMIN (selectbox inp "sidebar/Navigate" (dict_keys PAGES_ADMIN)) ;;
  call_page env inp f None.

(** What [main] does for a session of role [STUDENT] with a student. *)
Definition student_run (env : Env) (auth : row) (inp : Inputs) : M unit :=
  st (StSidebarTitle "🎓 Placement Portal") ;;
  st (StSidebarWrite (fstr ["Logged in as **"; py_str (col auth "username"); "** (";
                            py_str (col auth "role"); ")"])) ;;
  st (StSidebarCaption (fstr ["DB: "; DB_USER; "@"; DB_HOST; "/"; DB_NAME])) ;;
  let page_name := selectbox inp "sidebar/Navigate" (dict_keys PAGES_STUDENT) in
  st StSidebarDivider ;;
  logout inp ;;
  if existsb (sel_is page_name) ["My Dashboard"; "My Profile"; "Opportunities"] then
    f <- getitem PAGES_STUDENT page_name ;;
    call_page env inp f (Some (col auth "student_id"))
  else
    f <- getitem PAGES_STUDENT page_name ;;
    call_page env inp f None.

(** What [main] does for a session of role [STUDENT] without a student. *)
Definition unlinked_run (auth : row) (inp : Inputs) : M unit :=
  st (StSidebarTitle "🎓 Placement Portal") ;;
  st (StSidebarWrite (fstr ["Logged in as **"; py_str (col auth "username"); "** (";
                            py_str (col auth "role"); ")"])) ;;
  st (StSidebarCaption (fstr ["DB: "; DB_USER; "@"; DB_HOST; "/"; DB_NAME])) ;;
  st (StError NOT_LINKED) ;;
  logout inp.

(** What [main] does for a session of any other role. *)
Definition unknown_run (auth : row) (inp : Inputs) : M unit :=
  st (StSidebarTitle "🎓 Placement Portal") ;;
  st (StSidebarWrite (fstr ["Logged in as **"; py_str (col auth "username"); "** (";
                            py_str (col auth "role"); ")"])) ;;
  st (StSidebarCaption (fstr ["DB: "; DB_USER; "@"; DB_HOST; "/"; DB_NAME])) ;;
  st (StError "Unknown role.") ;;
  logout inp.

(* ----------------------------------------------------------------- *)
(** *** The deadline badge *)

(** What [fn_days_left_for_opportunity] returns: an integer or NULL. *)
Definition sql_int (d : option Z) : value :=
  match d with
  | Some n => VInt n
  | None => VNone
  end.

(** The [st.markdown] texts of a trace, in order. *)
Fixpoint markdowns (evs : list event) : list string :=
  match evs with
  | [] => []
  | EvUi (StMarkdown s) :: rest => s :: markdowns rest
  | _ :: rest => markdowns rest
  end.

Definition no_markdown (e : event) : Prop :=
  match e with
  | EvUi (StMarkdown _) => False
  | _ => True
  end.

(** The badge for [d] days left. *)
Definition badge_for (d : option Z) : string :=
  match d with
  | None => badge "No Deadline" "#6b7280"
  | Some n =>
      if n <? 0 then expired_badge
      else badge (fstr [str_of_Z n; " days left"]) "#2563eb"
  end.

(* ----------------------------------------------------------------- *)
(** *** Status changes and their audit *)

(** The helper calls of a trace with how each ended, in order. *)
Fixpoint ops (evs : list event) : list (db_op * op_result) :=
  match evs with
  | [] => []
  | EvOp op r :: rest => (op, r) :: ops rest
  | _ :: rest => ops rest
  end.

Definition audit_row (aid : value) (action : string) (details : value) : row :=
  [("application_id", aid); ("action", VStr action); ("details", details)].

(** What pressing a button that changes a status does: [change] is the
    UPDATE, [audit] the INSERT into [application_audit]. *)
Inductive change_then_audit (change audit : db_op) (d : Db)
    (changed : list row) (logged_row : row) : Res unit -> Prop :=
| change_failed res msg :
    ops (events res) = [(change, Raised (MySQLError msg))] ->
    db (final res) = d ->
    out res = Ok tt ->
    change_then_audit change audit d changed logged_row res
| change_audited res :
    ops (events res) = [(change, Returned); (audit, Returned)] ->
    application (db (final res)) = changed ->
    application_audit (db (final res)) = application_audit d ++ [logged_row] ->
    out res = Exc RerunException ->
    change_then_audit change audit d changed logged_row res
| change_not_audited res msg :
    ops (events res) = [(change, Returned); (audit, Raised (MySQLError msg))] ->
    application (db (final res)) = changed ->
    application_audit (db (final res)) = application_audit d ->
    out res = Ok tt ->
    In (EvUi (StError (fstr ["MySQL Error: "; msg]))) (events res) ->
    change_then_audit change audit d changed logged_row res.

Definition status_details (r : row) (new_status : option string) : value :=
  VStr (fstr [py_str (col r "status"); " -> "; py_str (opt_str new_status)]).

(** What must follow a status change that returned: the next helper call
    is the INSERT into [application_audit] for the same application, with
    ["{old} -> {new}"] as the details of a [STATUS_CHANGE]. *)
Definition audit_of (change : db_op) (next : option db_op) : Prop :=
  match change with
  | OpExecute sql params =>
      if String.eqb sql UPDATE_STATUS then
        exists new aid old,
          params = [new; aid]
          /\ next = Some (OpExecute INSERT_AUDIT_STATUS
                            [aid; VStr (fstr [old; " -> "; py_str new])])
      else if String.eqb sql UPDATE_WITHDRAWN then
        exists aid,
          params = [aid] /\ next = Some (OpExecute INSERT_AUDIT_WITHDRAW [aid])
      else True
  | _ => True
  end.

Fixpoint audited (os : list (db_op * op_result)) : Prop :=
  match os with
  | [] => True
  | (op, Returned) :: rest => audit_of op (option_map fst (hd_error rest)) /\ audited rest
  | _ :: rest => audited rest
  end.

Definition is_audit (op : db_op) : bool :=
  match op with
  | OpExecute sql _ =>
      String.eqb sql INSERT_AUDIT_STATUS || String.eqb sql INSERT_AUDIT_WITHDRAW
  | _ => false
  end.

(** No INSERT into [application_audit] was issued. *)
Definition no_audit_issued (evs : list event) : Prop :=
  existsb (fun p => is_audit (fst p)) (ops evs) = false.

(** The audit INSERT follows every status change that returned; and when
    no audit INSERT was issued, every application row is one that was
    there before (rows may be gone, none was changed). *)
Definition status_audited : World -> option string -> World -> list event -> Prop :=
  fun w _ w' evs =>
    audited (ops evs)
    /\ (no_audit_issued evs -> incl (application (db w')) (application (db w))).

(* ----------------------------------------------------------------- *)
(** *** The contact form *)

(** How a row of [student] may differ after [Save Contact Info] for the
    student [sid]: in its [email] and [phone] only, and not at all when it
    is another student's row. *)
Definition contact_only (sid : value) (s s' : row) : Prop :=
  (forall k, k <> "email" -> k <> "phone" -> col s' k = col s k)
  /\ (sql_eq (col s "student_id") sid = false -> s' = s).

Definition only_contact_changed (sid : value)
    : World -> option string -> World -> list event -> Prop :=
  fun w _ w' _ =>
    Forall2 (contact_only sid) (student (db w)) (student (db w'))
    /\ users (db w') = users (db w)
    /\ application (db w') = application (db w)
    /\ application_audit (db w') = application_audit (db w).

(* ----------------------------------------------------------------- *)
(** *** Deleting users *)

(** The buttons of a trace, in order. *)
Fixpoint buttons (evs : list event) : list ui :=
  match evs with
  | [] => []
  | EvUi (StButton label key disabled) :: rest => StButton label key disabled :: buttons rest
  | _ :: rest => buttons rest
  end.

Definition delete_button (u : row) : ui :=
  StButton "Delete" (fstr ["delusr_"; py_str (col u "user_id")]) false.

(** Every [DELETE FROM users] in the event is for a [user_id] in [allowed]. *)
Definition deletes_only (allowed : value -> Prop) (e : event) : Prop :=
  match e with
  | EvOp (OpExecute sql params) _
  | EvDriver (DCursorExecute _ sql params) _ =>
      sql = DELETE_USER -> exists uid, params = [uid] /\ allowed uid
  | _ => True
  end.

(** [uid] is the [user_id] of a listed user who is not named [admin]. *)
Definition listed_not_admin (us : list row) (uid : value) : Prop :=
  exists u, In u us /\ col u "username" <> VStr "admin" /\ uid = col u "user_id".

(** The listing tells the truth about the table: a row of [users] with
    the [user_id] of a listed user has that user's [username]. *)
Definition listing_agrees (us : list row) (d : Db) : Prop :=
  forall u r,
    In u us -> In r (users d) ->
    sql_eq (col r "user_id") (col u "user_id") = true ->
    col r "username" = col u "username".

Definition admin_kept (us : list row)
    : World -> option string -> World -> list event -> Prop :=
  fun w _ w' evs =>
    Forall (deletes_only (listed_not_admin us)) evs
    /\ incl (users (db w')) (users (db w))
    /\ (listing_agrees us (db w) ->
        forall r, In r (users (db w)) -> col r "username" = VStr "admin" ->
                  In r (users (db w'))).

(* ----------------------------------------------------------------- *)
(** *** The Add Student form *)

(** The values of the form's fields. *)
Definition add_student_filled (inp : Inputs) : bool :=
  nonempty (text_input inp "add_student/Roll No*" "")
  && nonempty (text_input inp "add_student/First Name*" "")
  && nonempty (text_input inp "add_student/Last Name*" "")
  && nonempty (text_input inp "add_student/Department*" "")
  && nonempty (text_input inp "add_student/Email*" "")
  && nonempty (text_input inp "add_student/Batch (Year)*" "")
  && nonempty (text_input inp "add_student/CGPA*" "").

Definition add_student_batch_ok (inp : Inputs) : bool :=
  isdigit (text_input inp "add_student/Batch (Year)*" "")
  && (py_len (text_input inp "add_student/Batch (Year)*" "") =? 4).

(** The INSERT of a student is issued. *)
Definition inserts_student (evs : list event) : Prop :=
  exists params r, In (OpExecute INSERT_STUDENT params, r) (ops evs).

(* ----------------------------------------------------------------- *)
(** *** The helpers and the database *)

(** What a run did to the open connections: with every open connection
    numbered below [next_conn], the connections open after the piece are
    the ones that were open before it. *)
Definition connections_kept : World -> option string -> World -> list event -> Prop :=
  fun w _ w' _ => fresh_ids w -> conns w' = conns w /\ fresh_ids w'.

(* ----------------------------------------------------------------- *)
(** *** Sessions *)

(** A relation between the world before and after a piece of a run that
    holds of nothing done and of two pieces run one after the other. *)
Class Frame (R : World -> World -> Prop) : Prop :=
  { frame_refl : forall w, R w w;
    frame_trans : forall a b c, R a b -> R b c -> R a c }.

Definition keeps (R : World -> World -> Prop) {A} (m : M A) : Prop :=
  forall w, R w (final (m w)).

(** [st.session_state.auth] is what it was. *)
Definition same_session (w w' : World) : Prop := session_auth w' = session_auth w.

(** The committed database is what it was. *)
Definition db_kept : World -> option string -> World -> list event -> Prop :=
  fun w _ w' _ => db w' = db w.

(** The lookup of [authenticate] for the name typed into the login form. *)
Definition login_lookup (inp : Inputs) : db_op :=
  OpQuery SELECT_USER [VStr (text_input inp "login_form/Username" "")].

Definition welcome (u : row) : ui :=
  StSuccess (fstr ["Welcome, "; py_str (col u "username"); " ("; py_str (col u "role"); ")"]).

(* ----------------------------------------------------------------- *)
(** *** What the pages write *)

(** A statement that writes, as a page issues it: through [execute] or
    through [call_proc]. *)
Inductive write :=
| Execute (sql : string)
| CallProc (name : string).

Definition write_of (op : db_op) : option write :=
  match op with
  | OpQuery _ _ => None
  | OpExecute sql _ => Some (Execute sql)
  | OpCallProc name _ => Some (CallProc name)
  end.

(** The statements each page function passes to [execute] and the
    procedures it passes to [call_proc]. *)
Definition page_writes (f : page_fn) : list write :=
  match f with
  | Page_students =>
      [Execute INSERT_STUDENT;
       Execute "UPDATE student SET roll_no=%s, first_name=%s, last_name=%s, email=%s, phone=%s, department=%s, batch=%s, cgpa=%s WHERE student_id=%s";
       Execute "DELETE FROM student WHERE student_id=%s"]
  | Page_opportunities_admin =>
      [Execute "DELETE FROM opportunity WHERE opportunity_id=%s";
       Execute "INSERT INTO opportunity(office_id, title, company, description, vacancy, min_cgpa, posted_on, application_deadline) VALUES (%s,%s,%s,%s,%s,%s,CURDATE(),%s)"]
  | Page_announcements_admin =>
      [Execute "INSERT INTO announcement(office_id, title, content, valid_until) VALUES (%s,%s,%s,%s)";
       Execute "DELETE FROM announcement WHERE announcement_id=%s"]
  | Page_assessments_admin =>
      [Execute "INSERT INTO assessment (opportunity_id, title, max_marks, date_scheduled, mode, duration_minutes, description) VALUES (%s,%s,%s,%s,%s,%s,%s)";
       Execute "DELETE FROM assessment WHERE assessment_id=%s"]
  | Page_interviews_admin =>
      [CallProc "sp_schedule_interview";
       Execute "UPDATE interview SET result=%s WHERE interview_id=%s"]
  | Page_applications_admin =>
      [Execute UPDATE_STATUS; Execute INSERT_AUDIT_STATUS; Execute UPDATE_WITHDRAWN;
       Execute INSERT_AUDIT_WITHDRAW; Execute DELETE_APPLICATION]
  | Page_reports => []
  | Page_users_admin =>
      [Execute "INSERT INTO users(username, password_hash, role, student_id) VALUES (%s,%s,%s,%s)";
       Execute DELETE_USER]
  | Page_student_dashboard => []
  | Page_student_profile => [Execute UPDATE_CONTACT]
  | Page_opportunities_student => [CallProc "sp_create_application"]
  end.

(** The event is no write other than those in [allowed]. *)
Definition writes_within (allowed : list write) (e : event) : Prop :=
  match e with
  | EvOp op _ =>
      match write_of op with
      | Some wr => In wr allowed
      | None => True
      end
  | _ => True
  end.

(** The event is no write at all. *)
Definition reads_only (e : event) : Prop :=
  match e with
  | EvOp op _ => is_write op = false
  | _ => True
  end.

(** The event is no write other than the two a student makes for the
    student [sid]: the UPDATE of the contact columns of [sid], and
    [sp_create_application] for [sid]. *)
Definition own_write (sid : value) (e : event) : Prop :=
  match e with
  | EvOp (OpExecute sql params) _ =>
      sql = UPDATE_CONTACT /\ exists email phone, params = [email; phone; sid]
  | EvOp (OpCallProc name args) _ =>
      name = "sp_create_application" /\ exists oid, args = [sid; oid; VInt 0]
  | _ => True
  end.

(** The event is no query for a student other than [sid]: a [query]
    has no parameter, or [sid] as its one parameter. *)
Definition own_query (sid : value) (e : event) : Prop :=
  match e with
  | EvOp (OpQuery _ params) _ => params = [] \/ params = [sid]
  | _ => True
  end.

(* ----------------------------------------------------------------- *)
(** *** Choices and forms *)

(** [days_left < 0], for what [fn_days_left_for_opportunity] returns. *)
Definition is_past (d : option Z) : bool :=
  match d with
  | Some n => n <? 0
  | None => false
  end.



Definition LIST_OFFICES : string :=
  "SELECT office_id, name FROM placement_office ORDER BY office_id".

Definition LIST_OPPORTUNITIES : string :=
  "SELECT opportunity_id, title, company FROM opportunity ORDER BY opportunity_id DESC".

Definition LIST_STUDENTS : string :=
  "SELECT student_id, CONCAT(first_name,' ',last_name,' (',roll_no,')') AS nm FROM student ORDER BY student_id".

Definition INSERT_USER : string :=
  "INSERT INTO users(username, password_hash, role, student_id) VALUES (%s,%s,%s,%s)".

(** The parameters of the INSERT of [Create App User]. *)
Definition new_user_params (env : Env) (inp : Inputs) (role : string) (link : value)
    : list value :=
  [VStr (text_input inp "add_user/Username*" "");
   VStr (sha256_hex env (text_input inp "add_user/Password*" ""));
   VStr role; link].

(* ----------------------------------------------------------------- *)
(** *** Text and numbers *)

(** The text is ASCII: the domain on which [isdigit], [int] and [float]
    are modelled. *)
Definition all_ascii (s : string) : bool :=
  forallb (fun c => (nat_of_ascii c <? 128)%nat) (list_ascii_of_string s).

Definition UPDATE_STUDENT : string :=
  "UPDATE student SET roll_no=%s, first_name=%s, last_name=%s, email=%s, phone=%s, department=%s, batch=%s, cgpa=%s WHERE student_id=%s".

(** The name of the edit form of the listed student [row], and the values
    of its fields. *)
Definition edit_form (row : row) : string :=
  fstr ["edit_student_"; py_str (col row "student_id")].

Definition edit_batch (inp : Inputs) (row : row) : string :=
  text_input inp (fstr [edit_form row; "/Batch (Year)"]) (py_str (col row "batch")).

Definition edit_cgpa (inp : Inputs) (row : row) : string :=
  text_input inp (fstr [edit_form row; "/CGPA"]) (py_str (col row "cgpa")).

(** The parameters of the UPDATE of the edit form, the batch and the
    CGPA read as [b] and [c]. *)
Definition edit_params (inp : Inputs) (row : row) (b : Z) (c : value) : list value :=
  [text_input_value inp (fstr [edit_form row; "/Roll No"]) (col row "roll_no");
   text_input_value inp (fstr [edit_form row; "/First Name"]) (col row "first_name");
   text_input_value inp (fstr [edit_form row; "/Last Name"]) (col row "last_name");
   text_input_value inp (fstr [edit_form row; "/Email"]) (col row "email");
   text_input_value inp (fstr [edit_form row; "/Phone"]) (col row "phone");
   text_input_value inp (fstr [edit_form row; "/Department"]) (col row "department");
   VInt b; c; col row "student_id"].


Fixpoint uint_val (d : Decimal.uint) (acc : Z) : Z :=
  match d with
  | Decimal.Nil => acc
  | Decimal.D0 d => uint_val d (10 * acc)
  | Decimal.D1 d => uint_val d (10 * acc + 1)
  | Decimal.D2 d => uint_val d (10 * acc + 2)
  | Decimal.D3 d => uint_val d (10 * acc + 3)
  | Decimal.D4 d => uint_val d (10 * acc + 4)
  | Decimal.D5 d => uint_val d (10 * acc + 5)
  | Decimal.D6 d => uint_val d (10 * acc + 6)
  | Decimal.D7 d => uint_val d (10 * acc + 7)
  | Decimal.D8 d => uint_val d (10 * acc + 8)
  | Decimal.D9 d => uint_val d (10 * acc + 9)
  end.

(* ----------------------------------------------------------------- *)
(** *** A created user logs in *)




(* ----------------------------------------------------------------- *)
(** *** The Applications page and the tables *)

(** The row [r'] is the row [r] but for its [status]. *)
Definition status_only (r r' : row) : Prop :=
  forall k, k <> "status" -> col r' k = col r k.

(** The audit row is one of the two the page writes, for the application
    [aid]. *)
Definition page_audit_row (a : row) : Prop :=
  (exists aid details, a = audit_row aid "STATUS_CHANGE" details)
  \/ (exists aid, a = audit_row aid "WITHDRAW" (VStr "User action")).

(** What the statements of the Applications page may do to the tables:
    every application is one that was there, changed in its [status] at
    most; [application_audit] has grown at its end, by rows of the page;
    [users] and [student] are as they were. *)
Definition applications_frame (d d' : Db) : Prop :=
  (forall r', In r' (application d') -> exists r, In r (application d) /\ status_only r r')
  /\ (exists added,
         application_audit d' = application_audit d ++ added
         /\ Forall page_audit_row added)
  /\ users d' = users d
  /\ student d' = student d.

Definition applications_kept : World -> option string -> World -> list event -> Prop :=
  fun w _ w' _ => applications_frame (db w) (db w').

(* ----------------------------------------------------------------- *)
(** *** Examples *)

Definition no_faults : nat -> option string := fun _ => None.

Definition fault_at (n : nat) (msg : string) : nat -> option string :=
  fun i => if Nat.eqb i n then Some msg else None.

(** A stand-in for the digest in the examples. *)
Definition example_digest (s : string) : string := fstr ["digest("; s; ")"].

(** An environment that answers the statements listed in [answers] and
    returns no row for the others, whose procedures do nothing. *)
Definition example_env (faults : nat -> option string) (answers : dict (list row)) : Env :=
  mkEnv faults
    (fun _ sql _ d =>
       (d, mkCursor (match dict_get answers sql with
                     | Some rows => rows
                     | None => []
                     end) 0))
    (fun _ _ _ d => d)
    example_digest.

Definition example_inputs (texts : dict string) (choices : dict nat) (pressed : list string)
    : Inputs :=
  mkInputs (dict_get texts) (dict_get choices) (fun _ => None) (fun _ => None)
           (fun _ => None) (fun _ => None)
           (fun key => existsb (String.eqb key) pressed)
           (fun n => mkDate 2025 1 (1 + n)).

Definition admin_user : row :=
  [("user_id", VInt 1); ("username", VStr "admin");
   ("password_hash", VStr "digest(adminpass)"); ("role", VStr "ADMIN");
   ("student_id", VNone)].

Definition student_user : row :=
  [("user_id", VInt 2); ("username", VStr "aarav");
   ("password_hash", VStr "digest(aarav123)"); ("role", VStr "STUDENT");
   ("student_id", VInt 7)].

Definition example_db : Db :=
  mkDb [admin_user; student_user]
       [[("student_id", VInt 7); ("roll_no", VStr "R7"); ("first_name", VStr "Aarav");
         ("email", VStr "aarav@example.com"); ("phone", VNone)]]
       [[("application_id", VInt 3); ("student_id", VInt 7); ("status", VStr "APPLIED")]]
       [].

Definition example_world (session : option row) : World :=
  mkWorld example_db [] 0 0 session.

Definition admin_session : row := user_record admin_user.

Definition LIST_ALL_APPLICATIONS : string :=
  "SELECT a.application_id, a.applied_on, a.status, a.remarks, s.student_id, CONCAT(s.first_name,' ',s.last_name) AS student_name, o.opportunity_id, o.title, o.company FROM application a JOIN student s ON s.student_id=a.student_id JOIN opportunity o ON o.opportunity_id=a.opportunity_id ORDER BY a.applied_on DESC".

Definition listed_application : row :=
  [("application_id", VInt 3); ("status", VStr "APPLIED"); ("student_name", VStr "Aarav S");
   ("title", VStr "SDE Intern"); ("company", VStr "Acme")].

(** The admin's Applications page, [OFFERED] picked for application 3 and
    [Update Status] pressed, with the server gone when the audit INSERT
    connects (the seventh driver call of the run). *)
Definition audit_lost_run : Res unit :=
  page_applications_admin
    (example_env (fault_at 6 "2013: Lost connection to MySQL server")
       [(LIST_ALL_APPLICATIONS, [listed_application])])
    (example_inputs [] [("stsel_3", 3%nat)] ["upst_3"])
    (example_world (Some admin_session)).

(** The admin's first page, [Students], with the server down. *)
Definition server_down_run : Res unit :=
  main (example_env (fault_at 0 "2003: Can't connect to MySQL server") [])
       (example_inputs [] [] [])
       (example_world (Some admin_session)).

Definition is_st_error (e : event) : bool :=
  match e with
  | EvUi (StError _) => true
  | _ => false
  end.

(** The [Add Student] form, filled in with a CGPA that is not a number. *)
Definition cgpa_not_a_number : Inputs :=
  example_inputs
    [("add_student/Roll No*", "R42"); ("add_student/First Name*", "Asha");
     ("add_student/Last Name*", "Rao"); ("add_student/Department*", "CSE");
     ("add_student/Email*", "asha@example.com"); ("add_student/Batch (Year)*", "2027");
     ("add_student/CGPA*", "abc")]
    [] ["add_student/Create"].

Definition overdue_opportunity : row :=
  [("opportunity_id", VInt 5); ("title", VStr "SDE Intern"); ("company", VStr "Acme");
   ("days_left", VInt (-2))].

Definition schedule_inputs : Inputs :=
  example_inputs [] [] ["schedule_interview/Schedule"].

Definition schedule_env : Env :=
  example_env no_faults
    [(LIST_APPLICATIONS,
      [[("application_id", VInt 3); ("first_name", VStr "Aarav"); ("last_name", VStr "S");
        ("title", VStr "SDE Intern"); ("company", VStr "Acme")]])].

(* ----------------------------------------------------------------- *)
(** *** Further examples *)

Definition student_session : row := user_record student_user.

Definition nothing_pressed_inputs : Inputs := example_inputs [] [] [].

Definition quiet_env : Env := example_env no_faults [].

Definition logout_inputs : Inputs := example_inputs [] [] ["sidebar/Logout"].

Definition login_inputs : Inputs :=
  example_inputs [("login_form/Username", "admin"); ("login_form/Password", "adminpass")]
    [] ["login_form/Login"].

Definition apply_inputs : Inputs :=
  example_inputs [] [("sidebar/Navigate", 2%nat)] ["apply_5"].

(** A listed application whose status the select box does not know. *)
Definition odd_application : row :=
  [("application_id", VInt 4); ("status", VStr "ON_HOLD"); ("student_name", VStr "Aarav S");
   ("title", VStr "SDE Intern"); ("company", VStr "Acme")].

Definition new_user_inputs : Inputs :=
  example_inputs [("add_user/Username*", "asha"); ("add_user/Password*", "s3cret")]
    [("add_user/Role*", 1%nat)] ["add_user/Create"].


(** A listed student, as the listing of the Students page returns it. *)
Definition listed_student : row :=
  [("student_id", VInt 7); ("roll_no", VStr "R7"); ("first_name", VStr "Aarav");
   ("last_name", VStr "S"); ("email", VStr "aarav@example.com"); ("phone", VNone);
   ("department", VStr "CSE"); ("batch", VInt 2027); ("cgpa", VOpaque "8.50")].


Definition untouched_inputs : Inputs := example_inputs [] [] ["edit_student_7/Update"].


(* ================================================================= *)
(** * Properties *)

Local Open Scope run_scope.

(** ** Rows *)

Lemma dict_get_set_same {V} (d : dict V) k v : dict_get (dict_set d k v) k = Some v.
Proof.
  induction d as [|[k' v'] d IH]; simpl.
  - now rewrite String.eqb_refl.
  - destruct (String.eqb k' k) eqn:E; simpl; rewrite E; auto.
Qed.

Lemma dict_get_set_other {V} (d : dict V) k k' v :
  k <> k' -> dict_get (dict_set d k v) k' = dict_get d k'.
Proof.
  intros Hk. induction d as [|[k0 v0] d IH]; simpl.
  - destruct (String.eqb k k') eqn:E; auto.
    apply String.eqb_eq in E. contradiction.
  - destruct (String.eqb k0 k) eqn:E; simpl.
    + apply String.eqb_eq in E. subst k0.
      destruct (String.eqb k k') eqn:E'; auto.
      apply String.eqb_eq in E'. contradiction.
    + now rewrite IH.
Qed.

Lemma col_set_col_other r k k' v : k <> k' -> col (set_col r k v) k' = col r k'.
Proof. intros H. unfold col, set_col. now rewrite dict_get_set_other. Qed.

Lemma col_set_col_same r k v : col (set_col r k v) k = v.
Proof. unfold col, set_col. now rewrite dict_get_set_same. Qed.

Lemma py_eq_str_true v s : py_eq_str v s = true <-> v = VStr s.
Proof.
  destruct v; simpl; split; intros H; try discriminate.
  - apply String.eqb_eq in H. now subst.
  - injection H as ->. apply String.eqb_refl.
Qed.

Lemma sql_eq_str v s : sql_eq v (VStr s) = true <-> v = VStr s.
Proof.
  destruct v; simpl; split; intros H; try discriminate.
  - apply String.eqb_eq in H. now subst.
  - injection H as ->. apply String.eqb_refl.
Qed.

(** ** The driver and the helpers *)

Section Helpers.

Variable env : Env.

(** What a call into the driver can do. *)
Lemma driver_cases {A} call (act : nat -> World -> string + A * World) w :
  let w1 := set_tick w (S (tick w)) in
  (exists msg,
      driver env call act w = mkRes (Exc (MySQLError msg)) w1 [EvDriver call (Some msg)]
      /\ (fault env (tick w) = Some msg
          \/ fault env (tick w) = None /\ act (tick w) w1 = inl msg))
  \/ (exists a w2,
        driver env call act w = mkRes (Ok a) w2 [EvDriver call None]
        /\ fault env (tick w) = None /\ act (tick w) w1 = inr (a, w2)).
Proof.
  unfold driver. cbv zeta.
  destruct (fault env (tick w)) as [msg|] eqn:F.
  - left. exists msg. auto.
  - destruct (act (tick w) (set_tick w (S (tick w)))) as [msg|[a w2]] eqn:E.
    + left. exists msg. auto.
    + right. exists a, w2. auto.
Qed.

Lemma drop_set_view cs c d : drop_conn (set_view cs c d) c = drop_conn cs c.
Proof.
  unfold drop_conn, set_view. induction cs as [|[c' d'] cs IH]; simpl; auto.
  destruct (Nat.eqb c' c) eqn:E; simpl.
  - rewrite Nat.eqb_refl. simpl. exact IH.
  - rewrite E. simpl. now rewrite IH.
Qed.

Lemma uses_only_ret {A} c (a : A) : uses_only c (ret a).
Proof. intros w. simpl. auto. Qed.

Lemma uses_only_bind {A B} c (m : M A) (f : A -> M B) :
  uses_only c m -> (forall a, uses_only c (f a)) -> uses_only c (bind m f).
Proof.
  intros Hm Hf w. unfold bind. destruct (Hm w) as (E1 & C1 & N1).
  destruct (out (m w)) as [a|e]; simpl; auto.
  destruct (Hf a (final (m w))) as (E2 & C2 & N2).
  repeat split.
  - apply Forall_app. auto.
  - congruence.
  - congruence.
Qed.

Lemma uses_only_cursor_execute c sql params : uses_only c (cursor_execute env c sql params).
Proof.
  intros w. unfold cursor_execute.
  destruct (driver_cases (DCursorExecute c sql params)
    (fun t w0 => match view_of (conns w0) c with
                 | None => inl NOT_AVAILABLE
                 | Some d => match run_statement env t sql params d with
                             | inl msg => inl msg
                             | inr (d', cur) => inr (cur, set_conns w0 (set_view (conns w0) c d'))
                             end
                 end) w) as [(msg & -> & _)|(a & w2 & -> & _ & Hact)]; simpl.
  - repeat split; auto. repeat constructor.
  - destruct (view_of _ c); [|discriminate].
    destruct (run_statement env _ sql params d) as [|[d' cur]]; [discriminate|].
    injection Hact as <- <-. simpl. repeat split; [repeat constructor|].
    apply drop_set_view.
Qed.

Lemma uses_only_fetchall c cur : uses_only c (fetchall env c cur).
Proof.
  intros w. unfold fetchall.
  destruct (driver_cases (DFetchall c) (fun _ w0 => inr (cur_rows cur, w0)) w)
    as [(msg & -> & _)|(a & w2 & -> & _ & Hact)]; simpl.
  - repeat split; auto. repeat constructor.
  - injection Hact as <- <-. simpl. repeat split; auto. repeat constructor.
Qed.

Lemma uses_only_commit c : uses_only c (commit env c).
Proof.
  intros w. unfold commit.
  destruct (driver_cases (DCommit c)
    (fun _ w0 => match view_of (conns w0) c with
                 | None => inl NOT_AVAILABLE
                 | Some d => inr (tt, set_db w0 d)
                 end) w) as [(msg & -> & _)|(a & w2 & -> & _ & Hact)]; simpl.
  - repeat split; auto. repeat constructor.
  - destruct (view_of _ c); [|discriminate].
    injection Hact as <- <-. simpl. repeat split; auto. repeat constructor.
Qed.

Lemma uses_only_callproc c name args : uses_only c (callproc env c name args).
Proof.
  intros w. unfold callproc.
  destruct (driver_cases (DCallproc c name args)
    (fun t w0 => match view_of (conns w0) c with
                 | None => inl NOT_AVAILABLE
                 | Some d =>
                     inr (tt, set_conns w0 (set_view (conns w0) c
                                              (stored_procedure env t name args d)))
                 end) w) as [(msg & -> & _)|(a & w2 & -> & _ & Hact)]; simpl.
  - repeat split; auto. repeat constructor.
  - destruct (view_of _ c); [|discriminate].
    injection Hact as <- <-. simpl. repeat split; [repeat constructor|].
    apply drop_set_view.
Qed.

Lemma drop_conn_fresh cs c :
  Forall (fun p => (fst p < c)%nat) cs -> drop_conn cs c = cs.
Proof.
  unfold drop_conn. induction 1 as [|[c' d] cs H _ IH]; simpl; auto.
  simpl in H. destruct (Nat.eqb c' c) eqn:E; simpl.
  - apply Nat.eqb_eq in E. lia.
  - now rewrite IH.
Qed.

(** The shape shared by [query], [execute] and [call_proc]. *)
Lemma helper_own_connection {A} op (body : nat -> M A) w :
  (forall c, uses_only c (body c)) ->
  fresh_ids w ->
  let r := logged op
             (conn <- get_conn env ;; try_finally (body conn) (conn_close conn)) w in
  own_connection (next_conn w) op (events r)
  /\ conns (final r) = conns w
  /\ fresh_ids (final r).
Proof.
  intros Hbody Hw. cbv zeta. unfold logged, bind, get_conn.
  destruct (driver_cases (DConnect (next_conn w))
    (fun _ w1 => inr (next_conn w,
        set_next_conn (set_conns w1 ((next_conn w, db w1) :: conns w1)) (S (next_conn w)))) w)
    as [(msg & -> & _)|(a & w2 & -> & _ & Hact)]; simpl.
  - repeat split; auto. constructor.
  - injection Hact as <- <-.
    unfold try_finally, conn_close. simpl.
    set (w1 := set_next_conn _ _).
    destruct (Hbody (next_conn w) w1) as (Hev & Hdrop & Hnext).
    assert (Hc : drop_conn (conns (final (body (next_conn w) w1))) (next_conn w) = conns w).
    { rewrite Hdrop. subst w1. simpl. unfold drop_conn at 1. simpl.
      rewrite Nat.eqb_refl. simpl. apply drop_conn_fresh. exact Hw. }
    repeat split.
    + rewrite <- app_assoc. simpl. apply opened_and_closed. exact Hev.
    + exact Hc.
    + unfold fresh_ids. simpl. rewrite Hc, Hnext. subst w1. simpl.
      eapply Forall_impl; [|exact Hw]. simpl. intros; lia.
Qed.

End Helpers.

(** C8.  Each of [query], [execute] and [call_proc] opens a connection of
    its own (a fresh number [c]), calls the driver only on [c], and has
    closed [c] when it returns or raises: on every path the set of open
    connections is afterwards what it was before, and when [get_conn()]
    itself raises no connection was opened. *)
Theorem connection_per_operation :
  forall env w sql params,
    fresh_ids w ->
    let c := next_conn w in
    let q := query env sql params w in
    let e := execute env sql params w in
    let p := call_proc env sql params w in
    ~ In c (map fst (conns w))
    /\ (own_connection c (OpQuery sql params) (events q)
        /\ conns (final q) = conns w /\ fresh_ids (final q))
    /\ (own_connection c (OpExecute sql params) (events e)
        /\ conns (final e) = conns w /\ fresh_ids (final e))
    /\ (own_connection c (OpCallProc sql params) (events p)
        /\ conns (final p) = conns w /\ fresh_ids (final p)).
Proof.
  intros env w sql params Hw. cbv zeta. split; [|split; [|split]].
  - intros Hin. apply in_map_iff in Hin. destruct Hin as (p & Hp & Hin).
    unfold fresh_ids in Hw. rewrite Forall_forall in Hw.
    specialize (Hw p Hin). lia.
  - apply helper_own_connection; auto. intros c.
    apply uses_only_bind; [apply uses_only_cursor_execute|].
    intros cur. apply uses_only_fetchall.
  - apply helper_own_connection; auto. intros c.
    apply uses_only_bind; [apply uses_only_cursor_execute|].
    intros cur. apply uses_only_bind; [apply uses_only_commit|].
    intros _. apply uses_only_ret.
  - apply helper_own_connection; auto. intros c.
    apply uses_only_bind; [apply uses_only_callproc|].
    intros _. apply uses_only_commit.
Qed.

(** ** Authentication *)

Lemma run_statement_select_user env t name d :
  run_statement env t SELECT_USER [name] d
  = inr (d, mkCursor
              (map (project user_columns)
                   (filter (fun r => sql_eq (col r "username") name) (users d)))
              (Z.of_nat (List.length
                 (map (project user_columns)
                      (filter (fun r => sql_eq (col r "username") name) (users d)))))).
Proof. reflexivity. Qed.

Lemma view_of_head c d cs : view_of ((c, d) :: cs) c = Some d.
Proof. unfold view_of. simpl. now rewrite Nat.eqb_refl. Qed.

(** When the driver does not raise, the query of [authenticate] returns
    the rows of [users] with that username. *)
Lemma query_select_user env w username :
  db_up env w 3 ->
  out (query env SELECT_USER [VStr username] w)
  = Ok (map (project user_columns) (rows_named (db w) username)).
Proof.
  intros Hup.
  assert (F0 : fault env (tick w) = None).
  { rewrite <- (Nat.add_0_r (tick w)). apply Hup. lia. }
  assert (F1 : fault env (S (tick w)) = None).
  { replace (S (tick w)) with (tick w + 1)%nat by lia. apply Hup. lia. }
  assert (F2 : fault env (S (S (tick w))) = None).
  { replace (S (S (tick w))) with (tick w + 2)%nat by lia. apply Hup. lia. }
  unfold query, logged, bind, get_conn, try_finally, cursor_execute, fetchall, driver,
    conn_close.
  cbn [tick set_tick set_conns set_next_conn conns db next_conn out final events].
  rewrite F0.
  cbn [tick set_tick set_conns set_next_conn conns db next_conn out final events].
  rewrite F1, view_of_head, run_statement_select_user.
  cbn [tick set_tick set_conns set_next_conn conns db next_conn out final events].
  rewrite F2.
  cbn [tick set_tick set_conns set_next_conn conns db next_conn out final events cur_rows].
  reflexivity.
Qed.

Lemma project_user_record u :
  [("user_id", col (project user_columns u) "user_id");
   ("username", col (project user_columns u) "username");
   ("role", col (project user_columns u) "role");
   ("student_id", col (project user_columns u) "student_id")] = user_record u.
Proof. reflexivity. Qed.

Lemma project_password_hash u :
  col (project user_columns u) "password_hash" = col u "password_hash".
Proof. reflexivity. Qed.

(** C1.  With the database answering and [username] a key of [users]:
    [authenticate] returns a record exactly when some row of [users] has
    that username and the SHA-256 hex digest of the password as its
    [password_hash], the record being that row's [user_id], [username],
    [role] and [student_id]; when there is no such row (no row of that
    name, or a different hash) it returns [None]. *)
Theorem authenticate_iff_hash_matches :
  forall env w username password,
    db_up env w 3 ->
    unique_username (db w) username ->
    let res := out (authenticate env username password w) in
    let matching u :=
      In u (users (db w))
      /\ col u "username" = VStr username
      /\ col u "password_hash" = VStr (sha256_hex env password) in
    (forall rec, res = Ok (Some rec) <-> exists u, matching u /\ rec = user_record u)
    /\ ((~ exists u, matching u) -> res = Ok None).
Proof.
  intros env w username password Hup Huniq. cbv zeta.
  unfold authenticate, bind.
  rewrite (query_select_user env w username Hup).
  assert (Hmem : forall u, In u (rows_named (db w) username)
                           <-> In u (users (db w)) /\ col u "username" = VStr username).
  { intros u. unfold rows_named. rewrite filter_In, sql_eq_str. tauto. }
  destruct (rows_named (db w) username) as [|u rest] eqn:R.
  - cbn [map out final events ret].
    split.
    + intros rec. split; [discriminate|].
      intros (u & (Hin & Hname & _) & _).
      destruct (proj2 (Hmem u) (conj Hin Hname)).
    + reflexivity.
  - assert (Hu : In u (users (db w)) /\ col u "username" = VStr username).
    { apply Hmem. now left. }
    cbn [map out final events].
    rewrite project_password_hash, project_user_record.
    destruct (py_eq_str (col u "password_hash") (sha256_hex env password)) eqn:E.
    + apply py_eq_str_true in E. cbn [out ret]. split.
      * intros rec. split.
        -- intros H. injection H as <-. exists u. tauto.
        -- intros (u' & (Hin & Hname & _) & ->).
           now rewrite (Huniq u' u Hin (proj1 Hu) Hname (proj2 Hu)).
      * intros Hno. exfalso. apply Hno. exists u. tauto.
    + cbn [out ret]. split.
      * intros rec. split; [discriminate|].
        intros (u' & (Hin & Hname & Hhash) & _).
        rewrite (Huniq u' u Hin (proj1 Hu) Hname (proj2 Hu)) in Hhash.
        apply py_eq_str_true in Hhash. congruence.
      * reflexivity.
Qed.

(** ** What a helper call leaves in the trace and in the database *)

Ltac wsimpl :=
  cbn [tick set_tick set_conns set_next_conn set_db set_session_auth
       db conns next_conn session_auth out final events] in *.

Section HelperTraces.

Variable env : Env.

Lemma drives_driver {A} op call (act : nat -> World -> string + A * World) :
  driver_event_of op (EvDriver call None) ->
  (forall t w a w', act t w = inr (a, w') -> session_auth w' = session_auth w) ->
  drives op (driver env call act).
Proof.
  intros Hcall Hact w.
  assert (Hc : forall r, driver_event_of op (EvDriver call r)).
  { intros r. destruct call; simpl in *; auto. }
  destruct (driver_cases env call act w) as [(msg & -> & _)|(a & w2 & -> & _ & E)]; simpl.
  - repeat split; auto. intros e He. injection He as <-. now exists msg.
  - repeat split; auto.
    + intros e He. discriminate.
    + now rewrite (Hact _ _ _ _ E).
Qed.

Lemma drives_bind {A B} op (m : M A) (f : A -> M B) :
  drives op m -> (forall a, drives op (f a)) -> drives op (bind m f).
Proof.
  intros Hm Hf w. unfold bind. destruct (Hm w) as (E1 & O1 & S1).
  destruct (out (m w)) as [a|e]; simpl.
  2:{ split; [|split]; auto. intros e' He'. injection He' as <-. now apply (O1 e). }
  destruct (Hf a (final (m w))) as (E2 & O2 & S2).
  split; [|split].
  - apply Forall_app; auto.
  - assumption.
  - congruence.
Qed.

Lemma drives_ret {A} op (a : A) : drives op (ret a).
Proof. intros w. simpl. repeat split; auto. intros e He. discriminate. Qed.

Lemma drives_finally_close {A} op (m : M A) c :
  drives op m -> drives op (try_finally m (conn_close c)).
Proof.
  intros Hm w. unfold try_finally, conn_close. simpl.
  destruct (Hm w) as (E1 & O1 & S1). repeat split; auto.
  apply Forall_app; split; auto. repeat constructor.
Qed.

Lemma drives_get_conn op : drives op (get_conn env).
Proof.
  intros w. unfold get_conn. apply drives_driver; simpl; auto.
  intros t w0 a w' E. injection E as <- <-. reflexivity.
Qed.

Lemma drives_cursor_execute op c sql params :
  op = OpQuery sql params \/ op = OpExecute sql params ->
  drives op (cursor_execute env c sql params).
Proof.
  intros Hop. apply drives_driver; simpl; auto.
  intros t w a w' E. destruct (view_of (conns w) c); [|discriminate].
  destruct (run_statement env t sql params d) as [|[d' cur]]; [discriminate|].
  injection E as <- <-. reflexivity.
Qed.

Lemma drives_fetchall op c cur : drives op (fetchall env c cur).
Proof.
  apply drives_driver; simpl; auto.
  intros t w a w' E. injection E as <- <-. reflexivity.
Qed.

Lemma drives_commit op c : drives op (commit env c).
Proof.
  apply drives_driver; simpl; auto.
  intros t w a w' E. destruct (view_of (conns w) c); [|discriminate].
  injection E as <- <-. reflexivity.
Qed.

Lemma drives_callproc c name args :
  drives (OpCallProc name args) (callproc env c name args).
Proof.
  apply drives_driver; simpl; auto.
  intros t w a w' E. destruct (view_of (conns w) c); [|discriminate].
  injection E as <- <-. reflexivity.
Qed.

Lemma helper_call_logged {A} op (m : M A) : drives op m -> helper_call op (logged op m).
Proof.
  intros Hm w. destruct (Hm w) as (E & O & S). unfold logged. simpl.
  split; [|split]; auto.
  exists (events (m w)). split; auto.
Qed.

Lemma helper_call_query sql params :
  helper_call (OpQuery sql params) (query env sql params).
Proof.
  apply helper_call_logged. apply drives_bind; [apply drives_get_conn|].
  intros c. apply drives_finally_close.
  apply drives_bind; [apply drives_cursor_execute; auto|].
  intros cur. apply drives_fetchall.
Qed.

Lemma helper_call_execute sql params :
  helper_call (OpExecute sql params) (execute env sql params).
Proof.
  apply helper_call_logged. apply drives_bind; [apply drives_get_conn|].
  intros c. apply drives_finally_close.
  apply drives_bind; [apply drives_cursor_execute; auto|].
  intros cur. apply drives_bind; [apply drives_commit|].
  intros _. apply drives_ret.
Qed.

Lemma helper_call_call_proc name args :
  helper_call (OpCallProc name args) (call_proc env name args).
Proof.
  apply helper_call_logged. apply drives_bind; [apply drives_get_conn|].
  intros c. apply drives_finally_close.
  apply drives_bind; [apply drives_callproc|].
  intros _. apply drives_commit.
Qed.

(** [query] never commits: the database is what it was. *)
Lemma query_keeps_db sql params w : db (final (query env sql params w)) = db w.
Proof.
  unfold query, logged, bind, get_conn. simpl.
  destruct (driver_cases env (DConnect (next_conn w))
    (fun _ w1 => inr (next_conn w,
        set_next_conn (set_conns w1 ((next_conn w, db w1) :: conns w1)) (S (next_conn w)))) w)
    as [(msg & -> & _)|(a & w2 & -> & _ & Hact)]; simpl; auto.
  injection Hact as <- <-.
  unfold try_finally, conn_close, bind, cursor_execute, fetchall. simpl.
  match goal with |- context [driver env ?c ?a ?w] =>
    destruct (driver_cases env c a w) as [(msg & -> & _)|(a1 & w3 & -> & _ & Hact)]
  end; simpl; auto.
  wsimpl. rewrite view_of_head in Hact.
  destruct (run_statement env _ sql params _) as [|[d' cur]]; [discriminate|].
  injection Hact as <- <-.
  match goal with |- context [driver env ?c ?a ?w] =>
    destruct (driver_cases env c a w) as [(msg & -> & _)|(a2 & w4 & -> & _ & Hact)]
  end; simpl; auto.
  injection Hact as <- <-. reflexivity.
Qed.

(** [execute]: either the statement ran on the database and was
    committed, or [execute] raised and the database is what it was. *)
Lemma execute_db sql params w :
  let r := execute env sql params w in
  (exists cur,
      run_statement env (S (tick w)) sql params (db w) = inr (db (final r), cur)
      /\ out r = Ok (cur_rowcount cur))
  \/ (exists msg, out r = Exc (MySQLError msg) /\ db (final r) = db w).
Proof.
  cbv zeta. unfold execute, logged, bind, get_conn. simpl.
  destruct (driver_cases env (DConnect (next_conn w))
    (fun _ w1 => inr (next_conn w,
        set_next_conn (set_conns w1 ((next_conn w, db w1) :: conns w1)) (S (next_conn w)))) w)
    as [(msg & -> & _)|(a & w2 & -> & _ & Hact)]; simpl.
  { right. now exists msg. }
  injection Hact as <- <-.
  unfold try_finally, conn_close, bind, cursor_execute, commit. simpl.
  match goal with |- context [driver env ?c ?a ?w] =>
    destruct (driver_cases env c a w) as [(msg & -> & _)|(a1 & w3 & -> & _ & Hact)]
  end; simpl.
  { right. now exists msg. }
  wsimpl. rewrite view_of_head in Hact.
  destruct (run_statement env _ sql params _) as [|[d' cur]] eqn:R; [discriminate|].
  injection Hact as <- <-.
  match goal with |- context [driver env ?c ?a ?w] =>
    destruct (driver_cases env c a w) as [(msg & -> & _)|(a2 & w4 & -> & _ & Hact)]
  end; simpl.
  { right. now exists msg. }
  wsimpl. unfold set_view in Hact. cbn [map fst] in Hact.
  rewrite Nat.eqb_refl, view_of_head in Hact.
  injection Hact as <- <-. wsimpl. left. exists cur. auto.
Qed.

End HelperTraces.

(** ** Properties of every run *)

Section Always.

Context {P : World -> option string -> World -> list event -> Prop} `{TraceProp P}.
Variable env : Env.
Variable inp : Inputs.

Lemma always_ret {A} (a : A) : always P (ret a).
Proof. intros w. apply tp_nil. Qed.

Lemma always_raise {A} (e : exn) :
  mysql_of (@Exc A e) = None -> always P (@raise A e).
Proof.
  intros He w. unfold raise. cbn [out events final]. rewrite He. apply tp_nil.
Qed.

Lemma always_bind {A B} (m : M A) (f : A -> M B) :
  always P m -> (forall a, always P (f a)) -> always P (bind m f).
Proof.
  intros Hm Hf w. unfold bind. specialize (Hm w).
  destruct (out (m w)) as [a|e]; simpl in *.
  - eapply tp_seq; [exact Hm|]. apply Hf.
  - destruct e; exact Hm.
Qed.

Lemma always_when (c : bool) (body : M unit) :
  (c = true -> always P body) -> always P (when c body).
Proof. intros Hb. destruct c; simpl; auto. apply always_ret. Qed.

Lemma always_for_each {A} (xs : list A) (body : A -> M unit) :
  (forall x, In x xs -> always P (body x)) -> always P (for_each xs body).
Proof.
  induction xs as [|x xs IH]; intros Hb; simpl.
  - apply always_ret.
  - apply always_bind; [apply Hb; now left|].
    intros _. apply IH. intros y Hy. apply Hb. now right.
Qed.

Lemma always_try `{Blind P} body handler :
  always P body ->
  (forall msg, always P (handler msg)) ->
  always P (try_except_Error body handler).
Proof.
  intros Hb Hh w. unfold try_except_Error. specialize (Hb w).
  destruct (out (body w)) as [a|e] eqn:E.
  - rewrite E. exact Hb.
  - destruct e; try (rewrite E; exact Hb).
    cbn [out final events]. eapply tp_seq; [|apply Hh]. eapply blind. exact Hb.
Qed.

Lemma always_st u : always P (st u).
Proof. intros w. apply tp_ui. Qed.

Lemma always_st_rerun : always P st_rerun.
Proof. apply always_raise. reflexivity. Qed.

Lemma always_button label key disabled : always P (button inp label key disabled).
Proof. apply always_bind; [apply always_st|]. intros _. apply always_ret. Qed.

Lemma always_form_submit_button form label : always P (form_submit_button inp form label).
Proof. apply always_bind; [apply always_st|]. intros _. apply always_ret. Qed.

Lemma always_sidebar_button label : always P (sidebar_button inp label).
Proof. apply always_bind; [apply always_st|]. intros _. apply always_ret. Qed.

Lemma always_get_session : always P get_session.
Proof. intros w. apply tp_nil. Qed.

Lemma always_set_session a : always P (set_session a).
Proof. intros w. apply tp_session. Qed.

Lemma always_getitem {V} (d : dict V) k : always P (getitem d k).
Proof.
  unfold getitem. destruct k as [s|].
  - destruct (dict_get d s); [apply always_ret|now apply always_raise].
  - now apply always_raise.
Qed.

Lemma always_int_of s : always P (int_of s).
Proof. unfold int_of. destruct (py_int s); [apply always_ret|now apply always_raise]. Qed.

Lemma always_float_of s : always P (float_of s).
Proof. unfold float_of. destruct (py_float s); [apply always_ret|now apply always_raise]. Qed.

Lemma always_index_of options v : always P (index_of options v).
Proof.
  unfold index_of. destruct (index_from options v 0);
    [apply always_ret|now apply always_raise].
Qed.

Lemma always_first_row rows : always P (first_row rows).
Proof. destruct rows; [now apply always_raise|apply always_ret]. Qed.

Lemma always_lt_zero v : always P (lt_zero v).
Proof. destruct v; simpl; try (now apply always_raise). apply always_ret. Qed.

Lemma always_show_mysql_error msg : always P (show_mysql_error msg).
Proof. apply always_st. Qed.

Lemma always_logout : always P (logout inp).
Proof.
  unfold logout. apply always_bind; [apply always_sidebar_button|].
  intros b. apply always_when. intros _. apply always_bind; [apply always_set_session|].
  intros _. apply always_st_rerun.
Qed.

End Always.

(** The page-level definitions, which the walk below opens. *)
Create HintDb portal.
#[local] Hint Unfold
  login_ui authenticate
  page_students add_student student_applications edit_student student_listing
  page_opportunities_admin opportunity_admin_row add_opportunity deadline_badge
  page_announcements_admin post_announcement announcement_row
  page_assessments_admin add_assessment assessment_row
  page_interviews_admin schedule_interview interview_row
  page_applications_admin application_row
  page_reports
  page_users_admin create_user user_row
  page_student_dashboard
  page_student_profile
  page_opportunities_student opportunity_student_row is_expired
  : portal.

(** One step of a walk through a page: [atom] settles what depends on the
    property (the helper calls, the [try] blocks). *)
Ltac walk_step atom :=
  first
    [ atom
    | lazymatch goal with
      | |- always _ (bind _ _) => apply always_bind; [|intros ?]
      | |- always _ (ret _) => apply always_ret
      | |- always _ (raise _) => apply always_raise; reflexivity
      | |- always _ (when _ _) => apply always_when; intros ?
      | |- always _ (for_each _ _) => apply always_for_each; intros ? ?
      | |- always _ (st _) => apply always_st
      | |- always _ st_rerun => apply always_st_rerun
      | |- always _ (button _ _ _ _) => apply always_button
      | |- always _ (form_submit_button _ _ _) => apply always_form_submit_button
      | |- always _ (sidebar_button _ _) => apply always_sidebar_button
      | |- always _ get_session => apply always_get_session
      | |- always _ (set_session _) => apply always_set_session
      | |- always _ (getitem _ _) => apply always_getitem
      | |- always _ (int_of _) => apply always_int_of
      | |- always _ (float_of _) => apply always_float_of
      | |- always _ (index_of _ _) => apply always_index_of
      | |- always _ (first_row _) => apply always_first_row
      | |- always _ (lt_zero _) => apply always_lt_zero
      | |- always _ (show_mysql_error _) => apply always_show_mysql_error
      | |- always _ (logout _) => apply always_logout
      | |- always _ (update_status _ _ _) => unfold update_status
      | |- always _ (withdraw _ _) => unfold withdraw
      | |- always _ (delete_application _ _) => unfold delete_application
      | |- always _ (save_contact_info _ _ _ _) => unfold save_contact_info
      | |- always _ (apply_for _ _ _) => unfold apply_for
      | |- always _ (match ?x with _ => _ end) => destruct x
      | |- always _ (if ?c then _ else _) => destruct c
      | |- always _ _ => first [progress cbv zeta | progress autounfold with portal]
      end ].

Ltac walk atom := repeat walk_step atom.

(** *** Properties of each event *)

Lemma each_TraceProp phi : (forall u, phi (EvUi u)) -> TraceProp (each phi).
Proof.
  intros Hui. split; unfold each.
  - constructor.
  - intros _ _ _ _ a b Ha Hb. apply Forall_app. auto.
  - intros _ u. repeat constructor. apply Hui.
  - constructor.
Qed.

#[local] Instance each_Blind phi : Blind (each phi).
Proof. intros w o o' w' evs Hp. exact Hp. Qed.

Lemma each_helper phi {A} op (m : M A) :
  helper_call op m ->
  (forall e, driver_event_of op e -> phi e) ->
  (forall r, phi (EvOp op r)) ->
  always (each phi) m.
Proof.
  intros Hm Hd Ho w. destruct (Hm w) as ((drv & -> & Hdrv) & _).
  unfold each. apply Forall_app. split.
  - eapply Forall_impl; [|exact Hdrv]. exact Hd.
  - repeat constructor. apply Ho.
Qed.

(** *** No direct INSERT into [interview] or [application] *)

#[local] Instance no_direct_insert_TraceProp : TraceProp (each no_direct_insert).
Proof. apply each_TraceProp. intros u. exact I. Qed.

Lemma no_direct_insert_query env sql params :
  workflow_tables_untouched sql = true ->
  always (each no_direct_insert) (query env sql params).
Proof.
  intros Hs. apply (each_helper _ _ _ (helper_call_query env sql params)).
  - intros [[]| | |] He; simpl in *; try exact I; try contradiction.
    destruct He as [He|He]; inversion He; subst; exact Hs.
  - intros r. exact Hs.
Qed.

Lemma no_direct_insert_execute env sql params :
  workflow_tables_untouched sql = true ->
  always (each no_direct_insert) (execute env sql params).
Proof.
  intros Hs. apply (each_helper _ _ _ (helper_call_execute env sql params)).
  - intros [[]| | |] He; simpl in *; try exact I; try contradiction.
    destruct He as [He|He]; inversion He; subst; exact Hs.
  - intros r. exact Hs.
Qed.

Lemma no_direct_insert_call_proc env name args :
  always (each no_direct_insert) (call_proc env name args).
Proof.
  apply (each_helper _ _ _ (helper_call_call_proc env name args)).
  - intros [[]| | |] He; simpl in *; try exact I; try contradiction.
    destruct He as [He|He]; inversion He.
  - intros r. exact I.
Qed.

Ltac no_direct_insert_atom :=
  idtac;
  lazymatch goal with
  | |- always _ (query _ _ _) => apply no_direct_insert_query; vm_compute; reflexivity
  | |- always _ (execute _ _ _) => apply no_direct_insert_execute; vm_compute; reflexivity
  | |- always _ (call_proc _ _ _) => apply no_direct_insert_call_proc
  | |- always _ (try_except_Error _ _) => apply always_try; [|intros ?]
  end.

Lemma no_direct_insert_call_page env inp f arg :
  always (each no_direct_insert) (call_page env inp f arg).
Proof.
  unfold call_page. apply always_bind.
  - intros w. repeat constructor.
  - intros _. destruct f, arg; walk no_direct_insert_atom.
Qed.

Lemma no_direct_insert_main env inp :
  always (each no_direct_insert) (main env inp).
Proof.
  unfold main. apply always_bind; [apply always_get_session|]. intros session.
  destruct session as [[|kv auth]|].
  - walk no_direct_insert_atom.
  - walk no_direct_insert_atom; apply no_direct_insert_call_page.
  - walk no_direct_insert_atom.
Qed.

(** ** The two workflows *)

Lemma proc_calls_app a b : proc_calls (a ++ b) = proc_calls a ++ proc_calls b.
Proof.
  induction a as [|e a IH]; simpl; auto.
  destruct e as [| [] | |]; simpl; auto. now rewrite IH.
Qed.

Lemma proc_calls_drivers op drv : Forall (driver_event_of op) drv -> proc_calls drv = [].
Proof.
  induction 1 as [|e drv He _ IH]; simpl; auto.
  destruct e as [| [] | |]; simpl in *; auto; contradiction.
Qed.

Lemma proc_calls_query env sql params w : proc_calls (events (query env sql params w)) = [].
Proof.
  destruct (helper_call_query env sql params w) as ((drv & -> & Hdrv) & _).
  rewrite proc_calls_app, (proc_calls_drivers _ _ Hdrv). reflexivity.
Qed.

Lemma proc_calls_call_proc env name args w :
  proc_calls (events (call_proc env name args w)) = [OpCallProc name args].
Proof.
  destruct (helper_call_call_proc env name args w) as ((drv & -> & Hdrv) & _).
  rewrite proc_calls_app, (proc_calls_drivers _ _ Hdrv). reflexivity.
Qed.

(** A [try] block with the usual handler makes the procedure calls of its
    body. *)
Lemma proc_calls_try body w :
  proc_calls (events (try_except_Error body show_mysql_error w))
  = proc_calls (events (body w)).
Proof.
  unfold try_except_Error. destruct (out (body w)) as [a|[]]; auto.
  cbn [show_mysql_error st emit out final events].
  rewrite proc_calls_app. cbn [proc_calls]. apply app_nil_r.
Qed.

(** One procedure call, then a message and a rerun. *)
Lemma proc_calls_call_then env name args (u : ui) w :
  proc_calls (events ((call_proc env name args ;; st u ;; st_rerun) w))
  = [OpCallProc name args].
Proof.
  pose proof (proc_calls_call_proc env name args w) as Hc.
  unfold bind.
  destruct (call_proc env name args w) as [o w' evs].
  cbn [out final events] in *.
  destruct o as [[]|e]; auto.
  cbn [st st_rerun raise emit out final events].
  rewrite !proc_calls_app, Hc. reflexivity.
Qed.

Lemma dict_get_in_keys {V} (d : dict V) k :
  In k (dict_keys d) -> exists v, dict_get d k = Some v.
Proof.
  induction d as [|[k' v'] d IH]; simpl; [contradiction|].
  intros [->|Hin].
  - rewrite String.eqb_refl. eauto.
  - destruct (String.eqb k' k); eauto.
Qed.

Lemma dict_get_set_inv {V} (d : dict V) k v k' v' :
  dict_get (dict_set d k v) k' = Some v' ->
  (k = k' /\ v = v') \/ dict_get d k' = Some v'.
Proof.
  destruct (String.eqb k k') eqn:E.
  - apply String.eqb_eq in E. subst k'. rewrite dict_get_set_same.
    intros H. injection H as <-. now left.
  - assert (k <> k') by (intros ->; rewrite String.eqb_refl in E; discriminate).
    rewrite dict_get_set_other by assumption. now right.
Qed.

Lemma dict_keys_set_nonempty {V} (d : dict V) k v : dict_keys (dict_set d k v) <> [].
Proof.
  destruct d as [|[k' v'] d]; simpl; [discriminate|].
  destruct (String.eqb k' k); discriminate.
Qed.

(** An entry of [{label(x): val(x) for x in xs}] comes from some [x]. *)
Lemma dict_of_inv {A V} (label : A -> string) (val : A -> V) xs k v :
  dict_get (dict_of label val xs) k = Some v ->
  exists x, In x xs /\ label x = k /\ val x = v.
Proof.
  unfold dict_of.
  assert (G : forall d,
             dict_get (fold_left (fun d x => dict_set d (label x) (val x)) xs d) k = Some v ->
             (exists x, In x xs /\ label x = k /\ val x = v) \/ dict_get d k = Some v).
  { induction xs as [|x xs IH]; intros d Hget; simpl in *; auto.
    destruct (IH _ Hget) as [(y & Hy & Hl & Hv)|Hd].
    - left. exists y. auto.
    - destruct (dict_get_set_inv _ _ _ _ _ Hd) as [[Hl Hv]|Hd']; auto.
      left. exists x. auto. }
  intros Hget. destruct (G [] Hget) as [Hx|Hd]; auto. discriminate.
Qed.

Lemma dict_of_nonempty {A V} (label : A -> string) (val : A -> V) xs :
  xs <> [] -> dict_keys (dict_of label val xs) <> [].
Proof.
  unfold dict_of.
  assert (G : forall ys d, d <> [] ->
             fold_left (fun d x => dict_set d (label x) (val x)) ys d <> []).
  { induction ys as [|y ys IH]; intros d Hd; simpl; auto.
    apply IH. intros E. apply (dict_keys_set_nonempty d (label y) (val y)).
    now rewrite E. }
  destruct xs as [|x xs]; [congruence|]. intros _ E.
  unfold dict_keys in E. apply map_eq_nil in E. simpl in E.
  revert E. apply G. discriminate.
Qed.

(** A select box returns one of its options. *)
Lemma selectbox_at_in inp key options i :
  options <> [] ->
  exists o, selectbox_at inp key options i = Some o /\ In o options.
Proof.
  intros Hne. destruct options as [|o options]; [congruence|].
  unfold selectbox_at.
  assert (Hnth : forall j d, In d (o :: options) -> In (nth j (o :: options) d) (o :: options)).
  { intros j d Hd. destruct (Nat.lt_ge_cases j (List.length (o :: options))).
    - now apply nth_In.
    - now rewrite nth_overflow. }
  assert (Hi : In (nth i (o :: options) o) (o :: options)) by (apply Hnth; now left).
  destruct (picked inp key) as [j|]; eexists; split; eauto.
Qed.

Lemma bind_ok {A B} (m : M A) (f : A -> M B) w a :
  out (m w) = Ok a ->
  bind m f w
  = mkRes (out (f a (final (m w)))) (final (f a (final (m w))))
          (events (m w) ++ events (f a (final (m w)))).
Proof. intros Ho. unfold bind. now rewrite Ho. Qed.

Lemma bind_exc {A B} (m : M A) (f : A -> M B) w e :
  out (m w) = Exc e ->
  bind m f w = mkRes (Exc e) (final (m w)) (events (m w)).
Proof. intros Ho. unfold bind. now rewrite Ho. Qed.

Lemma form_submit_button_out inp form label w :
  out (form_submit_button inp form label w) = Ok (clicked inp (fstr [form; "/"; label])).
Proof. reflexivity. Qed.

Lemma form_submit_button_final inp form label w :
  final (form_submit_button inp form label w) = w.
Proof. reflexivity. Qed.

Lemma form_submit_button_events inp form label w :
  events (form_submit_button inp form label w) = [EvUi (StFormSubmitButton form label)].
Proof. reflexivity. Qed.

(** Submitting the [Schedule Interview] form, with at least one
    application listed in its select box, makes exactly one procedure
    call: [sp_schedule_interview] for the selected application. *)
Lemma schedule_interview_one_call env inp w apps :
  clicked inp "schedule_interview/Schedule" = true ->
  out (query env LIST_APPLICATIONS [] w) = Ok apps ->
  apps <> [] ->
  exists app,
    In app apps
    /\ selectbox inp "schedule_interview/Application*"
         (dict_keys (dict_of application_label (fun a => col a "application_id") apps))
       = Some (application_label app)
    /\ proc_calls (events (schedule_interview env inp w))
       = [schedule_call inp (col app "application_id")].
Proof.
  intros Hclick Hq Hne.
  set (app_map := dict_of application_label (fun a => col a "application_id") apps).
  destruct (selectbox_at_in inp "schedule_interview/Application*" (dict_keys app_map) 0)
    as (label & Hsel & Hin).
  { now apply dict_of_nonempty. }
  destruct (dict_get_in_keys app_map label Hin) as (a & Hget).
  destruct (dict_of_inv _ _ _ _ _ Hget) as (app & Happ & Hlabel & Hval).
  exists app. split; [exact Happ|]. split.
  { unfold selectbox. now rewrite Hlabel. }
  unfold schedule_interview.
  change "SELECT a.application_id, s.first_name, s.last_name, o.title, o.company FROM application a JOIN student s ON s.student_id=a.student_id JOIN opportunity o ON o.opportunity_id=a.opportunity_id ORDER BY a.application_id DESC"
    with LIST_APPLICATIONS.
  rewrite (bind_ok _ _ _ _ Hq). cbv zeta. fold app_map.
  cbn [events]. rewrite proc_calls_app, proc_calls_query. cbn [List.app].
  rewrite (bind_ok _ _ _ _ (form_submit_button_out inp _ _ _)).
  rewrite form_submit_button_events, form_submit_button_final.
  change (fstr ["schedule_interview"; "/"; "Schedule"]) with "schedule_interview/Schedule".
  rewrite Hclick. cbn [events when List.app proc_calls].
  unfold selectbox at 1. rewrite Hsel.
  unfold getitem. rewrite Hget.
  rewrite proc_calls_try. unfold bind at 1. cbn [ret out final events List.app].
  rewrite proc_calls_call_then, Hval. reflexivity.
Qed.

(** Pressing [Apply] on the listed opportunity [r] makes exactly one
    procedure call: [sp_create_application(student_id, opportunity_id, 0)]. *)
Lemma apply_for_one_call env student_id r w :
  proc_calls (events (apply_for env student_id r w))
  = [OpCallProc "sp_create_application" [student_id; col r "opportunity_id"; VInt 0]].
Proof. unfold apply_for. rewrite proc_calls_try. apply proc_calls_call_then. Qed.

(** ** Database errors *)

Lemma surfaced_app must a b :
  surfaced must a = true -> surfaced must b = true -> surfaced must (a ++ b) = true.
Proof.
  intros Ha Hb. induction a as [|e a IH]; simpl in *; auto.
  destruct e as [| op [|[]] | |]; auto.
  apply andb_true_iff in Ha. destruct Ha as [Hs Ha].
  apply andb_true_iff. split; auto.
  apply orb_true_iff in Hs. apply orb_true_iff. destruct Hs as [Hs|Hs]; auto.
  right. destruct a as [|x a]; simpl in *; [discriminate|exact Hs].
Qed.

Lemma surfaced_drivers must op drv :
  Forall (driver_event_of op) drv -> surfaced must drv = true.
Proof.
  induction 1 as [|e drv He _ IH]; simpl; auto.
  destruct e; simpl in *; auto; contradiction.
Qed.

Lemma no_failed_query_drivers op drv :
  Forall (driver_event_of op) drv -> Forall no_failed_query drv.
Proof.
  intros Hd. eapply Forall_impl; [|exact Hd].
  intros [| | |]; simpl; auto; contradiction.
Qed.

Lemma handled_nil : handled [].
Proof. split; [reflexivity|constructor]. Qed.

Lemma handled_app a b : handled a -> handled b -> handled (a ++ b).
Proof.
  intros [Sa Qa] [Sb Qb]. split; [now apply surfaced_app|now apply Forall_app].
Qed.

Lemma handled_ui u : handled [EvUi u].
Proof. split; [reflexivity|repeat constructor]. Qed.

Lemma handled_drivers op drv : Forall (driver_event_of op) drv -> handled drv.
Proof.
  intros Hd. split; [eapply surfaced_drivers|eapply no_failed_query_drivers]; eauto.
Qed.

#[local] Instance errors_shown_TraceProp : TraceProp errors_shown.
Proof.
  split; unfold errors_shown.
  - intros _. apply handled_nil.
  - intros _ _ _ o a b Ha Hb. destruct o as [msg|].
    + destruct Hb as (pre & sql & params & -> & Hpre).
      exists (a ++ pre), sql, params. rewrite app_assoc. split; auto.
      now apply handled_app.
    + now apply handled_app.
  - intros _ u. apply handled_ui.
  - intros _ _. apply handled_nil.
Qed.

#[local] Instance error_pending_TraceProp : TraceProp error_pending.
Proof.
  split; unfold error_pending.
  - intros _. apply handled_nil.
  - intros _ _ _ o a b Ha Hb. destruct o as [msg|].
    + destruct Hb as (pre & op & -> & Hop & Hpre).
      exists (a ++ pre), op. rewrite app_assoc. repeat split; auto.
      * apply surfaced_app; [apply Ha|apply Hpre].
      * apply Forall_app. split; [apply Ha|apply Hpre].
    + now apply handled_app.
  - intros _ u. apply handled_ui.
  - intros _ _. apply handled_nil.
Qed.

(** A [query] outside a [try] block: its error, if any, ends the piece. *)
Lemma errors_shown_query env sql params : always errors_shown (query env sql params).
Proof.
  intros w. destruct (helper_call_query env sql params w) as ((drv & -> & Hdrv) & Herr & _).
  unfold errors_shown.
  destruct (out (query env sql params w)) as [rows|e]; simpl.
  - apply handled_app; [eapply handled_drivers; eauto|].
    split; [reflexivity|repeat constructor].
  - destruct (Herr e eq_refl) as (msg & ->). simpl.
    exists drv, sql, params. split; auto. eapply handled_drivers; eauto.
Qed.

(** A write inside a [try] block: its error, if any, is pending. *)
Lemma error_pending_write {A} op (m : M A) :
  is_write op = true -> helper_call op m -> always error_pending m.
Proof.
  intros Hop Hm w. destruct (Hm w) as ((drv & -> & Hdrv) & Herr & _).
  unfold error_pending.
  destruct (out (m w)) as [a|e]; simpl.
  - apply handled_app; [eapply handled_drivers; eauto|].
    split; [reflexivity|]. repeat constructor. destruct op; exact I.
  - destruct (Herr e eq_refl) as (msg & ->). simpl.
    exists drv, op. repeat split; auto; eapply handled_drivers; eauto.
Qed.

(** [try: ... except Error as e: st.error(f"MySQL Error: {e}")] shows the
    pending error. *)
Lemma errors_shown_try body :
  always error_pending body ->
  always errors_shown (try_except_Error body show_mysql_error).
Proof.
  intros Hb w. unfold try_except_Error. specialize (Hb w). unfold error_pending in Hb.
  destruct (out (body w)) as [a|e] eqn:E.
  - unfold errors_shown. rewrite E. exact Hb.
  - destruct e; try (unfold errors_shown; rewrite E; exact Hb).
    simpl in Hb. destruct Hb as (pre & op & -> & Hop & Hpre).
    cbn [show_mysql_error st emit out final events mysql_of]. unfold errors_shown.
    rewrite <- app_assoc. apply handled_app; auto.
    split.
    + simpl. rewrite Hop, String.eqb_refl. reflexivity.
    + repeat constructor. destruct op; try exact I. discriminate.
Qed.

Ltac errors_shown_atom :=
  idtac;
  lazymatch goal with
  | |- always errors_shown (query _ _ _) => apply errors_shown_query
  | |- always errors_shown (try_except_Error _ show_mysql_error) =>
      apply errors_shown_try
  | |- always error_pending (execute ?env ?sql ?params) =>
      apply (error_pending_write (OpExecute sql params));
      [reflexivity|apply helper_call_execute]
  | |- always error_pending (call_proc ?env ?name ?args) =>
      apply (error_pending_write (OpCallProc name args));
      [reflexivity|apply helper_call_call_proc]
  end.

Lemma errors_shown_call_page env inp f arg :
  always errors_shown (call_page env inp f arg).
Proof.
  unfold call_page. apply always_bind.
  - intros w. split; [reflexivity|repeat constructor].
  - intros _. destruct f, arg; walk errors_shown_atom.
Qed.

Lemma errors_shown_main env inp : always errors_shown (main env inp).
Proof.
  unfold main. apply always_bind; [apply always_get_session|]. intros session.
  destruct session as [[|kv auth]|].
  - walk errors_shown_atom.
  - walk errors_shown_atom; apply errors_shown_call_page.
  - walk errors_shown_atom.
Qed.

Lemma last_event_inv {A} (pre pre' : list A) x y post :
  pre ++ x :: post = pre' ++ [y] -> (post = [] /\ x = y) \/ In x pre'.
Proof.
  revert pre'. induction pre as [|p pre IH]; intros pre' E; simpl in E.
  - destruct pre' as [|q pre']; simpl in E.
    + injection E as -> ->. now left.
    + injection E as -> _. right. now left.
  - destruct pre' as [|q pre']; simpl in E.
    + injection E as _ E. destruct pre; discriminate.
    + injection E as -> E. destruct (IH _ E) as [H|H]; auto. right. now right.
Qed.

Lemma handled_no_failed_query evs pre sql params msg post :
  handled evs -> evs = pre ++ failed_query sql params msg :: post -> False.
Proof.
  intros [_ Hq] ->. apply Forall_app in Hq. destruct Hq as [_ Hq].
  apply Forall_inv in Hq. exact Hq.
Qed.

(** C7, as the code has it.  In every run of the script: each [execute]
    and [call_proc] that raises a database error is followed at once by
    the inline message [MySQL Error: ...] for that error; a [query] that
    raises is not caught: it is the last thing the run does, and the run
    ends with that error; and no other database error ends a run. *)
Theorem write_errors_are_shown_query_errors_escape :
  forall env inp w,
    let r := main env inp w in
    surfaced is_write (events r) = true
    /\ (forall pre sql params msg post,
           events r = pre ++ failed_query sql params msg :: post ->
           post = [] /\ out r = Exc (MySQLError msg))
    /\ (forall msg,
           out r = Exc (MySQLError msg) ->
           exists pre sql params, events r = pre ++ [failed_query sql params msg]).
Proof.
  intros env inp w. cbv zeta. pose proof (errors_shown_main env inp w) as H.
  unfold errors_shown in H. generalize dependent (main env inp w). intros r H.
  assert (Hnone : handled (events r) ->
                  (forall msg, out r <> Exc (MySQLError msg)) ->
                  surfaced is_write (events r) = true
                  /\ (forall pre sql params msg post,
                         events r = pre ++ failed_query sql params msg :: post ->
                         post = [] /\ out r = Exc (MySQLError msg))
                  /\ (forall msg,
                         out r = Exc (MySQLError msg) ->
                         exists pre sql params, events r = pre ++ [failed_query sql params msg])).
  { intros Hh Hout. split; [apply Hh|split].
    - intros pre sql params msg post Hev. exfalso.
      exact (handled_no_failed_query _ _ _ _ _ _ Hh Hev).
    - intros msg Hm. destruct (Hout msg Hm). }
  destruct (out r) as [a|e] eqn:E; [|destruct e]; cbn [mysql_of] in H;
    try (apply Hnone; [exact H|discriminate]).
  clear Hnone.
  destruct H as (pre & sql & params & Hev & Hs & Hq). rewrite Hev.
  split; [|split].
  - apply surfaced_app; auto.
  - intros pre' sql' params' msg' post Hev'.
    destruct (last_event_inv _ _ _ _ _ (eq_sym Hev')) as [[-> Hx]|Hin].
    + injection Hx as _ _ ->. auto.
    + exfalso. rewrite Forall_forall in Hq. exact (Hq _ Hin).
  - intros msg' Hm. injection Hm as <-. eauto.
Qed.

(** ** Navigation *)

Lemma calls_only_TraceProp allowed : TraceProp (each (calls_only allowed)).
Proof. apply each_TraceProp. intros u. exact I. Qed.

Lemma calls_only_helper allowed {A} op (m : M A) :
  helper_call op m -> always (each (calls_only allowed)) m.
Proof.
  intros Hm. apply (each_helper _ _ _ Hm).
  - intros [| | |]; simpl; auto; contradiction.
  - intros r. exact I.
Qed.

Ltac calls_only_atom :=
  idtac;
  lazymatch goal with
  | |- always _ (query _ _ _) => eapply calls_only_helper; apply helper_call_query
  | |- always _ (execute _ _ _) => eapply calls_only_helper; apply helper_call_execute
  | |- always _ (call_proc _ _ _) => eapply calls_only_helper; apply helper_call_call_proc
  | |- always _ (try_except_Error _ _) => apply always_try; [|intros ?]
  end.

(** A page function calls no page function. *)
Lemma pages_call_no_page env inp allowed f arg :
  allowed f arg ->
  always (each (calls_only allowed)) (call_page env inp f arg).
Proof.
  intros Hf.
  pose proof (calls_only_TraceProp allowed) as HP.
  unfold call_page. apply always_bind.
  - intros w. repeat constructor. exact Hf.
  - intros _. destruct f, arg; walk calls_only_atom.
Qed.

Lemma dict_get_in_values {V} (d : dict V) k v : dict_get d k = Some v -> In v (map snd d).
Proof.
  induction d as [|[k' v'] d IH]; simpl; [discriminate|].
  destruct (String.eqb k' k).
  - intros E. injection E as ->. now left.
  - intros E. right. auto.
Qed.

(** [f = d[k]; ...] goes on with a value of [d]. *)
Lemma always_bind_getitem {P} `{TraceProp P} {V B} (d : dict V) k (f : V -> M B) :
  (forall s v, k = Some s -> dict_get d s = Some v -> always P (f v)) ->
  always P (bind (getitem d k) f).
Proof.
  intros Hf w. unfold bind, getitem. destruct k as [s|].
  - destruct (dict_get d s) as [v|] eqn:E; cbn [ret raise out final events mysql_of].
    + eapply tp_seq; [apply tp_nil|]. apply (Hf s v eq_refl E).
    + apply tp_nil.
  - cbn [ret raise out final events mysql_of]. apply tp_nil.
Qed.

Section Navigation.

Variable env : Env.
Variable w : World.
Variable auth : row.
Hypothesis logged_in : session_auth w = Some auth.
Hypothesis auth_not_empty : auth <> [].

Lemma main_admin inp :
  col auth "role" = VStr "ADMIN" ->
  events (main env inp w) = events (admin_run env auth inp w).
Proof.
  intros Hrole. unfold main, admin_run.
  unfold bind at 1. unfold get_session. cbn [out final events List.app].
  rewrite logged_in. destruct auth as [|kv rest]; [congruence|].
  rewrite Hrole. reflexivity.
Qed.

Lemma main_student inp :
  col auth "role" = VStr "STUDENT" ->
  py_truthy (col auth "student_id") = true ->
  events (main env inp w) = events (student_run env auth inp w).
Proof.
  intros Hrole Hsid. unfold main, student_run.
  unfold bind at 1. unfold get_session. cbn [out final events List.app].
  rewrite logged_in. destruct auth as [|kv rest]; [congruence|].
  rewrite Hrole, Hsid. reflexivity.
Qed.

Lemma main_unlinked inp :
  col auth "role" = VStr "STUDENT" ->
  py_truthy (col auth "student_id") = false ->
  events (main env inp w) = events (unlinked_run auth inp w).
Proof.
  intros Hrole Hsid. unfold main, unlinked_run.
  unfold bind at 1. unfold get_session. cbn [out final events List.app].
  rewrite logged_in. destruct auth as [|kv rest]; [congruence|].
  rewrite Hrole, Hsid. reflexivity.
Qed.

Lemma main_unknown inp :
  col auth "role" <> VStr "ADMIN" ->
  col auth "role" <> VStr "STUDENT" ->
  events (main env inp w) = events (unknown_run auth inp w).
Proof.
  intros Ha Hst. unfold main, unknown_run.
  unfold bind at 1. unfold get_session. cbn [out final events List.app].
  rewrite logged_in. destruct auth as [|kv rest]; [congruence|].
  destruct (py_eq_str (col (kv :: rest) "role") "ADMIN") eqn:Ea.
  { apply py_eq_str_true in Ea. contradiction. }
  destruct (py_eq_str (col (kv :: rest) "role") "STUDENT") eqn:Es.
  { apply py_eq_str_true in Es. contradiction. }
  reflexivity.
Qed.

Lemma unknown_run_calls inp :
  Forall (calls_only (fun _ _ => False)) (events (unknown_run auth inp w)).
Proof.
  pose proof (calls_only_TraceProp (fun _ _ => False)) as HP.
  enough (Ha : always (each (calls_only (fun _ _ => False))) (unknown_run auth inp))
    by exact (Ha w).
  unfold unknown_run.
  do 4 (apply always_bind; [apply always_st|intros _]). apply always_logout.
Qed.

Lemma admin_run_calls inp :
  Forall (calls_only (fun f arg => In f ADMIN_PAGES /\ arg = None))
         (events (admin_run env auth inp w)).
Proof.
  pose proof (calls_only_TraceProp (fun f arg => In f ADMIN_PAGES /\ arg = None)) as HP.
  enough (Ha : always (each (calls_only (fun f arg => In f ADMIN_PAGES /\ arg = None)))
                  (admin_run env auth inp)) by exact (Ha w).
  unfold admin_run.
  do 5 (apply always_bind; [first [apply always_st | apply always_logout]|intros _]).
  apply always_bind_getitem. intros s f _ Hget.
  apply pages_call_no_page. split; auto.
  eapply dict_get_in_values; eauto.
Qed.

Lemma student_run_calls inp :
  Forall (calls_only (fun f arg => In (f, arg) (student_calls (col auth "student_id"))))
         (events (student_run env auth inp w)).
Proof.
  pose proof (calls_only_TraceProp
                (fun f arg => In (f, arg) (student_calls (col auth "student_id")))) as HP.
  enough (Ha : always (each (calls_only
                  (fun f arg => In (f, arg) (student_calls (col auth "student_id")))))
                  (student_run env auth inp)) by exact (Ha w).
  unfold student_run.
  do 3 (apply always_bind; [apply always_st|intros _]).
  cbv zeta.
  do 2 (apply always_bind; [first [apply always_st | apply always_logout]|intros _]).
  destruct (selectbox inp "sidebar/Navigate" (dict_keys PAGES_STUDENT)) as [name|];
    [|apply always_bind_getitem; discriminate].
  destruct (existsb (sel_is (Some name)) ["My Dashboard"; "My Profile"; "Opportunities"])
    eqn:E; apply always_bind_getitem; intros s f Hs Hget; injection Hs as <-;
    apply pages_call_no_page.
  - unfold PAGES_STUDENT in Hget. cbn [dict_get] in Hget.
    cbn [existsb sel_is] in E.
    rewrite (String.eqb_sym name "My Dashboard"), (String.eqb_sym name "My Profile"),
      (String.eqb_sym name "Opportunities") in E.
    repeat match type of Hget with
           | (if ?c then _ else _) = _ => destruct c
           end;
      cbn in E; try discriminate; injection Hget as <-; simpl; auto.
  - unfold PAGES_STUDENT in Hget. cbn [dict_get] in Hget.
    cbn [existsb sel_is] in E.
    rewrite (String.eqb_sym name "My Dashboard"), (String.eqb_sym name "My Profile"),
      (String.eqb_sym name "Opportunities") in E.
    repeat match type of Hget with
           | (if ?c then _ else _) = _ => destruct c
           end;
      cbn in E; try discriminate; injection Hget as <-; simpl; auto.
Qed.

Lemma unlinked_run_calls inp :
  Forall (calls_only (fun _ _ => False)) (events (unlinked_run auth inp w))
  /\ In (EvUi (StError NOT_LINKED)) (events (unlinked_run auth inp w)).
Proof.
  split.
  - pose proof (calls_only_TraceProp (fun _ _ => False)) as HP.
    enough (Ha : always (each (calls_only (fun _ _ => False))) (unlinked_run auth inp))
      by exact (Ha w).
    unfold unlinked_run.
    do 4 (apply always_bind; [apply always_st|intros _]). apply always_logout.
  - unfold unlinked_run, bind. cbn [st emit out final events List.app].
    right. right. right. now left.
Qed.

Lemma in_after_st u (k : M unit) w0 e :
  In e (events (k w0)) -> In e (events ((st u ;; k) w0)).
Proof.
  intros Hin. unfold bind. cbn [st emit out final events].
  apply in_or_app. now right.
Qed.

Lemma in_after_logout i (k : M unit) w0 e :
  In e (events (k w0)) -> In e (events ((logout (navigate_to i) ;; k) w0)).
Proof.
  intros Hin. unfold bind, logout, sidebar_button, bind.
  cbn [st emit ret when navigate_to clicked out final events].
  apply in_or_app. now right.
Qed.

Lemma in_call_page inp f arg w0 :
  In (EvPage f arg) (events (call_page env inp f arg w0)).
Proof.
  unfold call_page, bind. cbn [emit out final events]. apply in_or_app. left. now left.
Qed.

Lemma in_getitem_call_page inp (d : dict page_fn) name f arg w0 :
  dict_get d name = Some f ->
  In (EvPage f arg)
     (events ((f' <- getitem d (Some name) ;; call_page env inp f' arg) w0)).
Proof.
  intros Hget. unfold bind at 1, getitem. rewrite Hget.
  cbn [ret out final events List.app]. apply in_call_page.
Qed.

Lemma admin_run_reaches i name f :
  nth_error PAGES_ADMIN i = Some (name, f) ->
  In (EvPage f None) (events (admin_run env auth (navigate_to i) w)).
Proof.
  intros Hi. unfold admin_run.
  do 4 apply in_after_st. apply in_after_logout.
  do 8 (destruct i as [|i]; [injection Hi as <- <-; now apply in_getitem_call_page|]).
  destruct i; discriminate.
Qed.

Lemma student_run_reaches i name f :
  nth_error PAGES_STUDENT i = Some (name, f) ->
  exists arg,
    nth_error (student_calls (col auth "student_id")) i = Some (f, arg)
    /\ In (EvPage f arg) (events (student_run env auth (navigate_to i) w)).
Proof.
  intros Hi. unfold student_run.
  do 4 (destruct i as [|i];
        [injection Hi as <- <-; eexists; split; [reflexivity|];
         do 3 apply in_after_st; cbv zeta; apply in_after_st; apply in_after_logout;
         now apply in_getitem_call_page|]).
  destruct i; discriminate.
Qed.

End Navigation.

(** C2.  For a logged-in session the pages that can be reached depend on
    the session's role and its [student_id] only.  Role [ADMIN]: exactly
    the eight admin pages.  Role [STUDENT] with a student: exactly the four
    student pages (the first three called on the session's [student_id]),
    none of which is an admin page that writes.  Role [STUDENT] without a
    student: no page at all, and the error message is shown.  Any other
    role: no page. *)
Theorem pages_reached_by_role :
  forall env w auth,
    session_auth w = Some auth ->
    auth <> [] ->
    let sid := col auth "student_id" in
    dict_keys PAGES_ADMIN
    = ["Students"; "Opportunities"; "Announcements"; "Assessments"; "Interviews";
       "Applications"; "Reports"; "Users"]
    /\ dict_keys PAGES_STUDENT = ["My Dashboard"; "My Profile"; "Opportunities"; "Reports"]
    /\ (col auth "role" = VStr "ADMIN" ->
        forall f arg, reaches env w f arg <-> In f ADMIN_PAGES /\ arg = None)
    /\ (col auth "role" = VStr "STUDENT" -> py_truthy sid = true ->
        (forall f arg, reaches env w f arg <-> In (f, arg) (student_calls sid))
        /\ (forall f arg, reaches env w f arg -> ~ In f ADMIN_CRUD_PAGES))
    /\ (col auth "role" = VStr "STUDENT" -> py_truthy sid = false ->
        (forall f arg, ~ reaches env w f arg)
        /\ (forall inp, In (EvUi (StError NOT_LINKED)) (events (main env inp w))))
    /\ (col auth "role" <> VStr "ADMIN" -> col auth "role" <> VStr "STUDENT" ->
        forall f arg, ~ reaches env w f arg).
Proof.
  intros env w auth Hs Hne. cbv zeta.
  split; [reflexivity|]. split; [reflexivity|]. split; [|split; [|split]].
  - intros Hrole f arg. split.
    + intros (inp & Hin). rewrite (main_admin env w auth Hs Hne inp Hrole) in Hin.
      pose proof (admin_run_calls env w auth inp) as Hall.
      rewrite Forall_forall in Hall. exact (Hall _ Hin).
    + intros (Hf & ->). unfold ADMIN_PAGES in Hf. apply in_map_iff in Hf.
      destruct Hf as ((name & f') & Hf' & Hin). simpl in Hf'. subst f'.
      apply In_nth_error in Hin. destruct Hin as (i & Hi).
      exists (navigate_to i). rewrite (main_admin env w auth Hs Hne _ Hrole).
      eapply admin_run_reaches; eauto.
  - intros Hrole Hsid.
    assert (Hiff : forall f arg,
               reaches env w f arg <-> In (f, arg) (student_calls (col auth "student_id"))).
    { intros f arg. split.
      - intros (inp & Hin). rewrite (main_student env w auth Hs Hne inp Hrole Hsid) in Hin.
        pose proof (student_run_calls env w auth inp) as Hall.
        rewrite Forall_forall in Hall. exact (Hall _ Hin).
      - intros Hin. apply In_nth_error in Hin. destruct Hin as (i & Hi).
        assert (Hp : exists name, nth_error PAGES_STUDENT i = Some (name, f)).
        { do 4 (destruct i as [|i]; [injection Hi as <- <-; eexists; reflexivity|]).
          destruct i; discriminate. }
        destruct Hp as (name & Hp).
        destruct (student_run_reaches env w auth i name f Hp) as (arg' & Hi' & Hin).
        rewrite Hi in Hi'. injection Hi' as <-.
        exists (navigate_to i). now rewrite (main_student env w auth Hs Hne _ Hrole Hsid). }
    split; [exact Hiff|].
    intros f arg Hr Hcrud. apply Hiff in Hr. simpl in Hr, Hcrud.
    repeat match goal with
           | H : _ \/ _ |- _ => destruct H
           | H : (_, _) = (_, _) |- _ => injection H as <- <-
           end; try discriminate; try contradiction.
  - intros Hrole Hsid. split.
    + intros f arg (inp & Hin).
      rewrite (main_unlinked env w auth Hs Hne inp Hrole Hsid) in Hin.
      destruct (unlinked_run_calls w auth inp) as [Hall _].
      rewrite Forall_forall in Hall. exact (Hall _ Hin).
    + intros inp. rewrite (main_unlinked env w auth Hs Hne inp Hrole Hsid).
      apply (unlinked_run_calls w auth inp).
  - intros Ha Hst f arg (inp & Hin).
    rewrite (main_unknown env w auth Hs Hne inp Ha Hst) in Hin.
    pose proof (unknown_run_calls w auth inp) as Hall.
    rewrite Forall_forall in Hall. exact (Hall _ Hin).
Qed.

(** ** The deadline badge *)

Lemma markdowns_app a b : markdowns (a ++ b) = markdowns a ++ markdowns b.
Proof.
  induction a as [|e a IH]; simpl; auto.
  destruct e as [| | [] |]; simpl; auto. now rewrite IH.
Qed.

Lemma markdowns_none evs : Forall no_markdown evs -> markdowns evs = [].
Proof.
  induction 1 as [|e evs He _ IH]; simpl; auto.
  destruct e as [| | [] |]; simpl in *; auto. contradiction.
Qed.

Lemma markdowns_after_st u (k : M unit) w :
  markdowns (events ((st u ;; k) w)) = markdowns [EvUi u] ++ markdowns (events (k w)).
Proof. unfold bind. cbn [st emit out final events]. apply markdowns_app. Qed.

Lemma deadline_badge_run r d w :
  col r "days_left" = sql_int d ->
  deadline_badge r w = mkRes (Ok tt) w [EvUi (StMarkdown (badge_for d))].
Proof.
  intros Hd. unfold deadline_badge. rewrite Hd.
  destruct d as [n|]; simpl; [|reflexivity].
  unfold bind. cbn [lt_zero ret out final events].
  destruct (n <? 0); reflexivity.
Qed.

Lemma is_expired_run r d w :
  col r "days_left" = sql_int d ->
  is_expired r w
  = mkRes (Ok (match d with Some n => n <? 0 | None => false end)) w [].
Proof. intros Hd. unfold is_expired. rewrite Hd. destruct d; reflexivity. Qed.

Lemma markdowns_helper {A} op (m : M A) w :
  helper_call op m -> markdowns (events (m w)) = [].
Proof.
  intros Hm. destruct (Hm w) as ((drv & -> & Hdrv) & _).
  apply markdowns_none. apply Forall_app. split.
  - eapply Forall_impl; [|exact Hdrv]. intros [| | |]; simpl; auto; contradiction.
  - repeat constructor.
Qed.

Lemma markdowns_try body w :
  markdowns (events (try_except_Error body show_mysql_error w))
  = markdowns (events (body w)).
Proof.
  unfold try_except_Error. destruct (out (body w)) as [a|[]]; auto.
  cbn [show_mysql_error st emit out final events].
  rewrite markdowns_app. cbn [markdowns]. apply app_nil_r.
Qed.

(** A write, then a message and a rerun, under the usual handler, puts no
    markdown on the page. *)
Lemma markdowns_write_block {A} op (m : M A) u w :
  helper_call op m ->
  no_markdown (EvUi u) ->
  markdowns (events (try_except_Error (m ;; st u ;; st_rerun) show_mysql_error w)) = [].
Proof.
  intros Hm Hu. rewrite markdowns_try. unfold bind.
  pose proof (markdowns_helper op m w Hm) as Hn.
  destruct (m w) as [o w' evs]. cbn [out final events] in *.
  destruct o as [a|e]; auto.
  cbn [st st_rerun raise emit out final events].
  rewrite !markdowns_app, Hn. cbn [List.app].
  destruct u; simpl in *; auto. contradiction.
Qed.

Lemma markdowns_button inp label key disabled (k : bool -> M unit) w :
  markdowns (events ((b <- button inp label key disabled ;; k b) w))
  = markdowns (events (k (negb disabled && clicked inp key) w)).
Proof. unfold button, bind. cbn [st emit ret out final events List.app markdowns]. reflexivity. Qed.

(** C3.  On both Opportunities pages the row of an opportunity whose
    [days_left] is [d] (NULL or an integer) shows, after its separator,
    exactly one badge: [No Deadline] when [d] is NULL, [EXPIRED] when
    [d < 0], and ["{d} days left"] when [d >= 0]. *)
Theorem deadline_badge_by_days_left :
  forall env inp r d student_id my_cgpa applied_set w,
    col r "days_left" = sql_int d ->
    let shown := badge_for d in
    markdowns (events (opportunity_admin_row env inp r w)) = ["---"; shown]
    /\ markdowns (events (opportunity_student_row env inp student_id my_cgpa applied_set r w))
       = ["---"; shown]
    /\ match d with
       | None => shown = badge "No Deadline" "#6b7280"
       | Some n =>
           (n < 0 -> shown = expired_badge)
           /\ (0 <= n -> shown = badge (fstr [str_of_Z n; " days left"]) "#2563eb")
       end.
Proof.
  intros env inp r d student_id my_cgpa applied_set w Hd. cbv zeta.
  split; [|split].
  - unfold opportunity_admin_row.
    rewrite !markdowns_after_st. cbn [markdowns List.app]. f_equal.
    unfold bind at 1. rewrite (deadline_badge_run r d _ Hd).
    cbn [out final events List.app markdowns]. f_equal.
    rewrite markdowns_button. destruct (negb false && _); [|reflexivity].
    cbn [when]. eapply markdowns_write_block; [apply helper_call_execute|exact I].
  - unfold opportunity_student_row.
    rewrite !markdowns_after_st. cbn [markdowns List.app]. f_equal.
    unfold bind at 1. rewrite (deadline_badge_run r d _ Hd).
    cbn [out final events List.app markdowns]. f_equal.
    unfold bind at 1. rewrite (is_expired_run r d _ Hd).
    cbn [out final events List.app]. cbv zeta.
    rewrite markdowns_button. destruct (negb _ && _); [|reflexivity].
    cbn [when]. unfold apply_for.
    eapply markdowns_write_block; [apply helper_call_call_proc|exact I].
  - destruct d as [n|]; [|reflexivity]. unfold badge_for. split; intros Hn.
    + apply Z.ltb_lt in Hn. now rewrite Hn.
    + apply Z.ltb_ge in Hn. now rewrite Hn.
Qed.

(** ** Status changes and their audit *)

Lemma ops_app a b : ops (a ++ b) = ops a ++ ops b.
Proof.
  induction a as [|e a IH]; simpl; auto.
  destruct e; simpl; auto. now rewrite IH.
Qed.

Lemma ops_drivers op drv : Forall (driver_event_of op) drv -> ops drv = [].
Proof.
  induction 1 as [|e drv He _ IH]; simpl; auto.
  destruct e; simpl in *; auto. contradiction.
Qed.

Lemma ops_helper {A} op (m : M A) w :
  helper_call op m -> ops (events (m w)) = [(op, result_of (out (m w)))].
Proof.
  intros Hm. destruct (Hm w) as ((drv & -> & Hdrv) & _).
  rewrite ops_app, (ops_drivers _ _ Hdrv). reflexivity.
Qed.

(** What one [execute] does: it is one helper call in the trace; it
    either runs the statement on the database and commits, or raises a
    database error and leaves the database as it was. *)
Lemma execute_spec env sql params w :
  let r := execute env sql params w in
  ops (events r) = [(OpExecute sql params, result_of (out r))]
  /\ ((exists cur,
          run_statement env (S (tick w)) sql params (db w) = inr (db (final r), cur)
          /\ out r = Ok (cur_rowcount cur))
      \/ (exists msg, out r = Exc (MySQLError msg) /\ db (final r) = db w)).
Proof.
  cbv zeta. split.
  - apply ops_helper, helper_call_execute.
  - apply execute_db.
Qed.

Lemma run_statement_update_status env t status aid d :
  run_statement env t UPDATE_STATUS [status; aid] d
  = inr (set_application d
           (sql_update (application d) "application_id" aid
              (fun r => set_col r "status" status)),
         mkCursor [] (sql_matched (application d) "application_id" aid)).
Proof. reflexivity. Qed.

Lemma run_statement_update_withdrawn env t aid d :
  run_statement env t UPDATE_WITHDRAWN [aid] d
  = inr (set_application d
           (sql_update (application d) "application_id" aid
              (fun r => set_col r "status" (VStr "WITHDRAWN"))),
         mkCursor [] (sql_matched (application d) "application_id" aid)).
Proof. reflexivity. Qed.

Lemma run_statement_insert_audit_status env t aid details d :
  run_statement env t INSERT_AUDIT_STATUS [aid; details] d
  = inr (set_application_audit d
           (application_audit d ++ [audit_row aid "STATUS_CHANGE" details]),
         mkCursor [] 1).
Proof. reflexivity. Qed.

Lemma run_statement_insert_audit_withdraw env t aid d :
  run_statement env t INSERT_AUDIT_WITHDRAW [aid] d
  = inr (set_application_audit d
           (application_audit d ++ [audit_row aid "WITHDRAW" (VStr "User action")]),
         mkCursor [] 1).
Proof. reflexivity. Qed.

Lemma run_statement_delete_application env t aid d :
  run_statement env t DELETE_APPLICATION [aid] d
  = inr (set_application d (sql_delete (application d) "application_id" aid),
         mkCursor [] (sql_matched (application d) "application_id" aid)).
Proof. reflexivity. Qed.

Lemma try_caught body handler w msg :
  out (body w) = Exc (MySQLError msg) ->
  try_except_Error body handler w
  = mkRes (out (handler msg (final (body w)))) (final (handler msg (final (body w))))
          (events (body w) ++ events (handler msg (final (body w)))).
Proof. intros Ho. unfold try_except_Error. now rewrite Ho. Qed.

Lemma try_passed body handler w :
  mysql_of (out (body w)) = None -> try_except_Error body handler w = body w.
Proof.
  intros Ho. unfold try_except_Error. destruct (out (body w)) as [a|[]]; auto.
  discriminate.
Qed.

(** The [try] block of [Update Status] and of [Withdraw]: two [execute]
    calls, the UPDATE and then the INSERT, then a message and a rerun. *)
Lemma change_then_audit_block env sql1 params1 sql2 params2 u w
    (chg : list row -> list row) (new_row : row) :
  (forall t d, exists c,
      run_statement env t sql1 params1 d = inr (set_application d (chg (application d)), c)) ->
  (forall t d, exists c,
      run_statement env t sql2 params2 d
      = inr (set_application_audit d (application_audit d ++ [new_row]), c)) ->
  change_then_audit (OpExecute sql1 params1) (OpExecute sql2 params2) (db w)
    (chg (application (db w))) new_row
    (try_except_Error
       (execute env sql1 params1 ;; execute env sql2 params2 ;; st u ;; st_rerun)
       show_mysql_error w).
Proof.
  intros H1 H2.
  destruct (execute_spec env sql1 params1 w) as (Hops1 & [(c1 & Hrun1 & Hout1)|(msg & Hout1 & Hdb1)]).
  - (* the UPDATE was committed *)
    destruct (H1 (S (tick w)) (db w)) as (c1' & Hrun1').
    assert (Hd1 : db (final (execute env sql1 params1 w))
                  = set_application (db w) (chg (application (db w)))) by congruence.
    clear Hrun1 Hrun1'. rewrite Hout1 in Hops1. cbn [result_of] in Hops1.
    set (w1 := final (execute env sql1 params1 w)) in *.
    destruct (execute_spec env sql2 params2 w1)
      as (Hops2 & [(c2 & Hrun2 & Hout2)|(msg & Hout2 & Hdb2)]).
    + (* the INSERT was committed *)
      destruct (H2 (S (tick w1)) (db w1)) as (c2' & Hrun2').
      assert (Hd2 : db (final (execute env sql2 params2 w1))
                    = set_application_audit (db w1) (application_audit (db w1) ++ [new_row]))
        by congruence.
      clear Hrun2 Hrun2'. rewrite Hout2 in Hops2. cbn [result_of] in Hops2.
      rewrite try_passed.
      2:{ rewrite (bind_ok _ _ _ _ Hout1). cbn [out]. fold w1.
          rewrite (bind_ok _ _ _ _ Hout2). reflexivity. }
      rewrite (bind_ok _ _ _ _ Hout1). fold w1. rewrite (bind_ok _ _ _ _ Hout2).
      apply change_audited; cbn [out final events st st_rerun raise emit bind].
      * rewrite !ops_app, Hops1, Hops2. reflexivity.
      * rewrite Hd2, Hd1. reflexivity.
      * rewrite Hd2, Hd1. reflexivity.
      * reflexivity.
    + (* the INSERT raised *)
      rewrite Hout2 in Hops2. cbn [result_of] in Hops2.
      assert (Hbody : (execute env sql1 params1 ;; execute env sql2 params2 ;; st u ;; st_rerun) w
                      = mkRes (Exc (MySQLError msg)) (final (execute env sql2 params2 w1))
                          (events (execute env sql1 params1 w)
                           ++ events (execute env sql2 params2 w1))).
      { rewrite (bind_ok _ _ _ _ Hout1). fold w1. rewrite (bind_exc _ _ _ _ Hout2).
        reflexivity. }
      rewrite (try_caught _ _ _ msg); rewrite Hbody; [|reflexivity].
      apply (change_not_audited _ _ _ _ _ _ msg);
        cbn [out final events show_mysql_error st emit].
      * rewrite !ops_app, Hops1, Hops2. reflexivity.
      * rewrite Hdb2, Hd1. reflexivity.
      * rewrite Hdb2, Hd1. reflexivity.
      * reflexivity.
      * apply in_or_app. right. now left.
  - (* the UPDATE raised *)
    rewrite Hout1 in Hops1. cbn [result_of] in Hops1.
    assert (Hbody : (execute env sql1 params1 ;; execute env sql2 params2 ;; st u ;; st_rerun) w
                    = mkRes (Exc (MySQLError msg)) (final (execute env sql1 params1 w))
                        (events (execute env sql1 params1 w))).
    { now rewrite (bind_exc _ _ _ _ Hout1). }
    rewrite (try_caught _ _ _ msg); rewrite Hbody; [|reflexivity].
    apply (change_failed _ _ _ _ _ _ msg); cbn [out final events show_mysql_error st emit].
    + rewrite ops_app, Hops1. reflexivity.
    + exact Hdb1.
    + reflexivity.
Qed.

(** Pressing [Update Status] on the listed application [r]. *)
Lemma update_status_spec env r new_status w :
  let aid := col r "application_id" in
  change_then_audit
    (OpExecute UPDATE_STATUS [opt_str new_status; aid])
    (OpExecute INSERT_AUDIT_STATUS [aid; status_details r new_status])
    (db w)
    (sql_update (application (db w)) "application_id" aid
       (fun a => set_col a "status" (opt_str new_status)))
    (audit_row aid "STATUS_CHANGE" (status_details r new_status))
    (update_status env r new_status w).
Proof.
  cbv zeta. unfold update_status.
  apply (change_then_audit_block env UPDATE_STATUS _ INSERT_AUDIT_STATUS _ _ w
           (fun t => sql_update t "application_id" (col r "application_id")
                       (fun a => set_col a "status" (opt_str new_status)))).
  - intros t d. eexists. apply run_statement_update_status.
  - intros t d. eexists. apply run_statement_insert_audit_status.
Qed.

(** Pressing [Withdraw] on the listed application [r]. *)
Lemma withdraw_spec env r w :
  let aid := col r "application_id" in
  change_then_audit
    (OpExecute UPDATE_WITHDRAWN [aid])
    (OpExecute INSERT_AUDIT_WITHDRAW [aid])
    (db w)
    (sql_update (application (db w)) "application_id" aid
       (fun a => set_col a "status" (VStr "WITHDRAWN")))
    (audit_row aid "WITHDRAW" (VStr "User action"))
    (withdraw env r w).
Proof.
  cbv zeta. unfold withdraw.
  apply (change_then_audit_block env UPDATE_WITHDRAWN _ INSERT_AUDIT_WITHDRAW _ _ w
           (fun t => sql_update t "application_id" (col r "application_id")
                       (fun a => set_col a "status" (VStr "WITHDRAWN")))).
  - intros t d. eexists. apply run_statement_update_withdrawn.
  - intros t d. eexists. apply run_statement_insert_audit_withdraw.
Qed.

Lemma audit_of_next change (next rest : list (db_op * op_result)) :
  audit_of change (option_map fst (hd_error rest)) ->
  audit_of change (option_map fst (hd_error (rest ++ next))).
Proof.
  destruct rest as [|x rest]; [|auto].
  destruct change as [|sql params|]; simpl; auto.
  destruct (String.eqb sql UPDATE_STATUS).
  - intros (new & aid & old & _ & Hn). discriminate.
  - destruct (String.eqb sql UPDATE_WITHDRAWN); auto.
    intros (aid & _ & Hn). discriminate.
Qed.

Lemma audited_app a b : audited a -> audited b -> audited (a ++ b).
Proof.
  intros Ha Hb. induction a as [|[op r] a IH]; simpl in *; auto.
  destruct r; auto. destruct Ha as [Hn Ha]. split; auto.
  now apply audit_of_next.
Qed.

#[local] Instance status_audited_TraceProp : TraceProp status_audited.
Proof.
  split; unfold status_audited, no_audit_issued.
  - intros w. split; [exact I|]. intros _. apply incl_refl.
  - intros w w1 w2 _ a b [Ha Ia] [Hb Ib]. split.
    + rewrite ops_app. now apply audited_app.
    + rewrite ops_app, existsb_app. intros E. apply orb_false_iff in E.
      destruct E as [Ea Eb]. eapply incl_tran; eauto.
  - intros w u. split; [exact I|]. intros _. apply incl_refl.
  - intros w a. split; [exact I|]. intros _. apply incl_refl.
Qed.

#[local] Instance status_audited_Blind : Blind status_audited.
Proof. intros w o o' w' evs Hp. exact Hp. Qed.

Lemma status_audited_query env sql params :
  always status_audited (query env sql params).
Proof.
  intros w. unfold status_audited, no_audit_issued.
  rewrite (ops_helper _ _ w (helper_call_query env sql params)), query_keeps_db.
  split.
  - simpl. destruct (result_of _); simpl; auto.
  - intros _. apply incl_refl.
Qed.

Lemma status_audited_change change audit d changed new_row res w :
  change_then_audit change audit d changed new_row res ->
  db w = d ->
  audit_of change (Some audit) ->
  audit_of audit None ->
  is_audit change = false ->
  is_audit audit = true ->
  status_audited w (mysql_of (out res)) (final res) (events res).
Proof.
  intros Hc Hd Hfollow Hlast Hnot Hyes. unfold status_audited, no_audit_issued.
  destruct Hc as [res msg Hops Hdb _|res Hops _ _ _|res msg Hops _ _ _ _]; rewrite Hops.
  - split; [exact I|]. intros _. rewrite Hdb, Hd. apply incl_refl.
  - split; [simpl; auto|]. simpl. rewrite Hyes, orb_true_r. discriminate.
  - split; [simpl; auto|]. simpl. rewrite Hyes, orb_true_r. discriminate.
Qed.

Lemma status_audited_update_status env r new_status :
  always status_audited (update_status env r new_status).
Proof.
  intros w. eapply status_audited_change.
  - apply update_status_spec.
  - reflexivity.
  - simpl. exists (opt_str new_status), (col r "application_id"), (py_str (col r "status")).
    split; reflexivity.
  - exact I.
  - reflexivity.
  - reflexivity.
Qed.

Lemma status_audited_withdraw env r : always status_audited (withdraw env r).
Proof.
  intros w. eapply status_audited_change.
  - apply withdraw_spec.
  - reflexivity.
  - simpl. exists (col r "application_id"). split; reflexivity.
  - exact I.
  - reflexivity.
  - reflexivity.
Qed.

Lemma sql_delete_incl t key id : incl (sql_delete t key id) t.
Proof. intros x Hx. unfold sql_delete in Hx. now apply filter_In in Hx. Qed.

Lemma status_audited_delete env aid :
  always status_audited (execute env DELETE_APPLICATION [aid]).
Proof.
  intros w. unfold status_audited, no_audit_issued.
  destruct (execute_spec env DELETE_APPLICATION [aid] w) as (Hops & Hdb).
  rewrite Hops. split.
  - simpl. destruct (result_of _); simpl; auto.
  - intros _. destruct Hdb as [(cur & Hrun & _)|(msg & _ & Hsame)].
    + rewrite run_statement_delete_application in Hrun.
      assert (Hd : db (final (execute env DELETE_APPLICATION [aid] w))
                   = set_application (db w)
                       (sql_delete (application (db w)) "application_id" aid))
        by congruence.
      rewrite Hd. apply sql_delete_incl.
    + rewrite Hsame. apply incl_refl.
Qed.

Ltac status_audited_atom :=
  idtac;
  lazymatch goal with
  | |- always _ (query _ _ _) => apply status_audited_query
  | |- always _ (update_status _ _ _) => apply status_audited_update_status
  | |- always _ (withdraw _ _) => apply status_audited_withdraw
  | |- always _ (execute _ DELETE_APPLICATION _) => apply status_audited_delete
  | |- always _ (try_except_Error _ _) => apply always_try; [|intros ?]
  end.

Lemma status_audited_page env inp :
  always status_audited (page_applications_admin env inp).
Proof. walk status_audited_atom. Qed.

(** C4, as the code has it.  [Update Status] and [Withdraw] run the
    UPDATE and then the audit INSERT as two separate [execute] calls.
    Each button press ends in one of three ways: the UPDATE raised and
    nothing changed; both returned, and the audit row was appended; or the
    UPDATE returned and the INSERT raised, and then the status is changed,
    no audit row was written and the error is shown.  On the whole page,
    every status UPDATE that returned is followed at once by its audit
    INSERT being issued, and without an audit INSERT issued no application
    row is changed. *)
Theorem status_change_then_audit_insert :
  forall env inp r new_status w,
    let aid := col r "application_id" in
    let page := page_applications_admin env inp w in
    change_then_audit
      (OpExecute UPDATE_STATUS [opt_str new_status; aid])
      (OpExecute INSERT_AUDIT_STATUS [aid; status_details r new_status])
      (db w)
      (sql_update (application (db w)) "application_id" aid
         (fun a => set_col a "status" (opt_str new_status)))
      (audit_row aid "STATUS_CHANGE" (status_details r new_status))
      (update_status env r new_status w)
    /\ change_then_audit
         (OpExecute UPDATE_WITHDRAWN [aid])
         (OpExecute INSERT_AUDIT_WITHDRAW [aid])
         (db w)
         (sql_update (application (db w)) "application_id" aid
            (fun a => set_col a "status" (VStr "WITHDRAWN")))
         (audit_row aid "WITHDRAW" (VStr "User action"))
         (withdraw env r w)
    /\ audited (ops (events page))
    /\ (no_audit_issued (events page) ->
        incl (application (db (final page))) (application (db w))).
Proof.
  intros env inp r new_status w. cbv zeta.
  split; [apply update_status_spec|]. split; [apply withdraw_spec|].
  apply (status_audited_page env inp w).
Qed.

(** ** The student's contact form *)

Lemma contact_only_refl sid s : contact_only sid s s.
Proof. split; auto. Qed.

Lemma contact_only_trans sid a b c :
  contact_only sid a b -> contact_only sid b c -> contact_only sid a c.
Proof.
  intros [K1 E1] [K2 E2]. split.
  - intros k He Hp. rewrite K2, K1; auto.
  - intros Hs. specialize (E1 Hs). subst b. auto.
Qed.

Lemma Forall2_refl_on {A} (R : A -> A -> Prop) l : (forall x, R x x) -> Forall2 R l l.
Proof. intros HR. induction l; constructor; auto. Qed.

Lemma Forall2_trans_on {A} (R : A -> A -> Prop) :
  (forall x y z, R x y -> R y z -> R x z) ->
  forall a b c, Forall2 R a b -> Forall2 R b c -> Forall2 R a c.
Proof.
  intros HR a b c Hab. revert c.
  induction Hab as [|x y a b Hxy _ IH]; intros c Hbc; inversion Hbc; subst; constructor.
  - eapply HR; eauto.
  - now apply IH.
Qed.

Lemma only_contact_changed_same sid w w' o evs :
  db w' = db w -> only_contact_changed sid w o w' evs.
Proof.
  intros E. unfold only_contact_changed. rewrite E. repeat split; auto.
  apply Forall2_refl_on. apply contact_only_refl.
Qed.

#[local] Instance only_contact_changed_TraceProp sid : TraceProp (only_contact_changed sid).
Proof.
  split.
  - intros w. now apply only_contact_changed_same.
  - intros w w1 w2 o a b (F1 & U1 & A1 & L1) (F2 & U2 & A2 & L2).
    unfold only_contact_changed. repeat split; try congruence.
    eapply Forall2_trans_on; eauto. apply contact_only_trans.
  - intros w u. now apply only_contact_changed_same.
  - intros w a. now apply only_contact_changed_same.
Qed.

#[local] Instance only_contact_changed_Blind sid : Blind (only_contact_changed sid).
Proof. intros w o o' w' evs Hp. exact Hp. Qed.

Lemma run_statement_update_contact env t email phone sid d :
  run_statement env t UPDATE_CONTACT [email; phone; sid] d
  = inr (set_student d
           (sql_update (student d) "student_id" sid
              (fun r => set_col (set_col r "email" email) "phone" phone)),
         mkCursor [] (sql_matched (student d) "student_id" sid)).
Proof. reflexivity. Qed.

Lemma sql_update_contact_only t sid email phone :
  Forall2 (contact_only sid) t
    (sql_update t "student_id" sid
       (fun r => set_col (set_col r "email" email) "phone" phone)).
Proof.
  unfold sql_update. induction t as [|s t IH]; simpl; constructor; auto.
  destruct (sql_eq (col s "student_id") sid) eqn:E.
  - split; [|congruence]. intros k He Hp.
    rewrite col_set_col_other by congruence.
    rewrite col_set_col_other by congruence. reflexivity.
  - apply contact_only_refl.
Qed.

(** What [Save Contact Info] does to the database: the UPDATE of the two
    columns on the rows of that [student_id], or nothing. *)
Lemma update_contact_db env email phone sid w :
  let r := execute env UPDATE_CONTACT [email; phone; sid] w in
  db (final r) = db w
  \/ db (final r)
     = set_student (db w)
         (sql_update (student (db w)) "student_id" sid
            (fun s => set_col (set_col s "email" email) "phone" phone)).
Proof.
  cbv zeta. destruct (execute_db env UPDATE_CONTACT [email; phone; sid] w)
    as [(cur & Hrun & _)|(msg & _ & Hsame)]; [right|now left].
  rewrite run_statement_update_contact in Hrun. congruence.
Qed.

Lemma only_contact_changed_update env email phone sid :
  always (only_contact_changed sid) (execute env UPDATE_CONTACT [email; phone; sid]).
Proof.
  intros w. destruct (update_contact_db env email phone sid w) as [E|E].
  - now apply only_contact_changed_same.
  - unfold only_contact_changed. rewrite E. cbn [set_student student users application
      application_audit]. repeat split; auto. apply sql_update_contact_only.
Qed.

Lemma only_contact_changed_query env sid sql params :
  always (only_contact_changed sid) (query env sql params).
Proof. intros w. apply only_contact_changed_same. apply query_keeps_db. Qed.

Ltac only_contact_changed_atom :=
  idtac;
  lazymatch goal with
  | |- always _ (query _ _ _) => apply only_contact_changed_query
  | |- always _ (execute _ UPDATE_CONTACT _) => apply only_contact_changed_update
  | |- always _ (try_except_Error _ _) => apply always_try; [|intros ?]
  end.

(** C9.  A run of the profile page of the student [sid], whatever is in
    the form and whether or not [Save Contact Info] is pressed, leaves the
    [student] table with the same rows in the same order, each differing
    from what it was in [email] and [phone] at most, and not at all when
    its [student_id] is not [sid]; the other tables are untouched.  The
    one statement that writes is the UPDATE of [email] and [phone] on the
    rows with that [student_id]. *)
Theorem save_contact_changes_email_and_phone_only :
  forall env inp sid w,
    let res := page_student_profile env inp sid w in
    Forall2 (contact_only sid) (student (db w)) (student (db (final res)))
    /\ users (db (final res)) = users (db w)
    /\ application (db (final res)) = application (db w)
    /\ application_audit (db (final res)) = application_audit (db w)
    /\ (forall email phone w0,
           let saved := save_contact_info env email phone sid w0 in
           db (final saved) = db w0
           \/ db (final saved)
              = set_student (db w0)
                  (sql_update (student (db w0)) "student_id" sid
                     (fun s => set_col (set_col s "email" email) "phone" phone))).
Proof.
  intros env inp sid w. cbv zeta.
  assert (Hpage : always (only_contact_changed sid) (page_student_profile env inp sid))
    by walk only_contact_changed_atom.
  destruct (Hpage w) as (F & U & A & L). repeat split; auto.
  intros email phone w0. unfold save_contact_info, try_except_Error, bind.
  pose proof (update_contact_db env email phone sid w0) as Hdb. cbv zeta in Hdb.
  destruct (helper_call_execute env UPDATE_CONTACT [email; phone; sid] w0) as (_ & Herr & _).
  destruct (execute env UPDATE_CONTACT [email; phone; sid] w0) as [o w' evs].
  cbn [out final events] in *.
  destruct o as [n|e]; cbn [out final events st st_rerun raise emit]; auto.
  destruct (Herr e eq_refl) as (msg & ->).
  cbn [show_mysql_error st emit out final events]. exact Hdb.
Qed.

(** ** Deleting users *)

Lemma admin_kept_same us w w' o evs :
  db w' = db w ->
  Forall (deletes_only (listed_not_admin us)) evs ->
  admin_kept us w o w' evs.
Proof.
  intros E Hev. unfold admin_kept. rewrite E. repeat split; auto. apply incl_refl.
Qed.

#[local] Instance admin_kept_TraceProp us : TraceProp (admin_kept us).
Proof.
  split.
  - intros w. apply admin_kept_same; auto.
  - intros w w1 w2 o a b (Ea & Ia & Ka) (Eb & Ib & Kb). unfold admin_kept.
    split; [apply Forall_app; auto|]. split; [eapply incl_tran; eauto|].
    intros Hag r Hr Hadmin. apply Kb; auto.
    intros u r' Hu Hr' Hid. apply (Hag u r' Hu); auto.
  - intros w u. apply admin_kept_same; auto. repeat constructor.
  - intros w a. apply admin_kept_same; auto.
Qed.

#[local] Instance admin_kept_Blind us : Blind (admin_kept us).
Proof. intros w o o' w' evs Hp. exact Hp. Qed.

Lemma deletes_only_helper allowed {A} op (m : M A) w :
  helper_call op m ->
  (forall sql params,
      op = OpQuery sql params \/ op = OpExecute sql params ->
      sql = DELETE_USER -> exists uid, params = [uid] /\ allowed uid) ->
  Forall (deletes_only allowed) (events (m w)).
Proof.
  intros Hm Hop. destruct (Hm w) as ((drv & -> & Hdrv) & _).
  apply Forall_app. split.
  - eapply Forall_impl; [|exact Hdrv].
    intros [[]| | |]; simpl; auto; try contradiction.
    intros Hc. apply Hop. exact Hc.
  - repeat constructor. destruct op as [s p|s p|n a]; simpl; auto.
    apply Hop. now right.
Qed.

Lemma admin_kept_query env us sql params :
  sql <> DELETE_USER -> always (admin_kept us) (query env sql params).
Proof.
  intros Hs w. apply admin_kept_same; [apply query_keeps_db|].
  apply (deletes_only_helper _ _ _ w (helper_call_query env sql params)).
  intros sql' params' [E|E]; inversion E; subst; contradiction.
Qed.

(** The DELETE of [user_row] removes the rows of [users] with that
    [user_id] and nothing else. *)
Lemma run_statement_delete_user env t uid d :
  run_statement env t DELETE_USER [uid] d
  = inr (set_users d (sql_delete (users d) "user_id" uid),
         mkCursor [] (sql_matched (users d) "user_id" uid)).
Proof. reflexivity. Qed.

Lemma admin_kept_delete env us u :
  In u us ->
  col u "username" <> VStr "admin" ->
  always (admin_kept us) (execute env DELETE_USER [col u "user_id"]).
Proof.
  intros Hu Hname w.
  assert (Hev : Forall (deletes_only (listed_not_admin us))
                  (events (execute env DELETE_USER [col u "user_id"] w))).
  { apply (deletes_only_helper _ _ _ w (helper_call_execute env _ _)).
    intros sql params [E|E] _; inversion E; subst.
    exists (col u "user_id"). split; auto. exists u. auto. }
  destruct (execute_db env DELETE_USER [col u "user_id"] w)
    as [(cur & Hrun & _)|(msg & _ & Hsame)].
  - rewrite run_statement_delete_user in Hrun.
    assert (Hd : db (final (execute env DELETE_USER [col u "user_id"] w))
                 = set_users (db w) (sql_delete (users (db w)) "user_id" (col u "user_id")))
      by congruence.
    unfold admin_kept. rewrite Hd. cbn [set_users users].
    split; [exact Hev|]. split; [apply sql_delete_incl|].
    intros Hag r Hr Hadmin. unfold sql_delete. apply filter_In. split; auto.
    destruct (sql_eq (col r "user_id") (col u "user_id")) eqn:E; auto.
    exfalso. apply Hname. rewrite <- (Hag u r Hu Hr E). exact Hadmin.
  - now apply admin_kept_same.
Qed.

Lemma admin_kept_user_row env inp us u :
  In u us -> always (admin_kept us) (user_row env inp u).
Proof.
  intros Hu. unfold user_row. cbv zeta.
  apply always_bind; [apply always_st|]. intros _.
  apply always_when. intros Hname.
  apply always_bind; [apply always_button|]. intros del.
  apply always_when. intros _.
  apply always_try; [|intros msg; apply always_show_mysql_error].
  apply always_bind.
  - apply admin_kept_delete; auto.
    intros E. rewrite E in Hname. discriminate.
  - intros _. apply always_bind; [apply always_st|]. intros _. apply always_st_rerun.
Qed.

Lemma buttons_app a b : buttons (a ++ b) = buttons a ++ buttons b.
Proof.
  induction a as [|e a IH]; simpl; auto.
  destruct e as [| | [] |]; simpl; auto. now rewrite IH.
Qed.

Lemma buttons_helper {A} op (m : M A) w :
  helper_call op m -> buttons (events (m w)) = [].
Proof.
  intros Hm. destruct (Hm w) as ((drv & -> & Hdrv) & _).
  rewrite buttons_app. cbn [buttons]. rewrite app_nil_r.
  induction Hdrv as [|e drv He _ IH]; simpl; auto.
  destruct e as [| | [] |]; simpl in *; auto; contradiction.
Qed.

Lemma buttons_delete_block env u w :
  buttons (events (try_except_Error
                     (execute env DELETE_USER [col u "user_id"] ;;
                      st (StWarning "User deleted.") ;; st_rerun)
                     show_mysql_error w)) = [].
Proof.
  pose proof (buttons_helper _ _ w (helper_call_execute env DELETE_USER [col u "user_id"]))
    as Hb.
  destruct (helper_call_execute env DELETE_USER [col u "user_id"] w) as (_ & Herr & _).
  unfold try_except_Error, bind.
  destruct (execute env DELETE_USER [col u "user_id"] w) as [o w' evs].
  cbn [out final events] in *.
  destruct o as [n|e].
  - cbn [st st_rerun raise emit out final events]. rewrite !buttons_app, Hb. reflexivity.
  - destruct (Herr e eq_refl) as (msg & ->).
    cbn [show_mysql_error st emit out final events]. rewrite buttons_app, Hb. reflexivity.
Qed.

Lemma button_out inp label key disabled w :
  out (button inp label key disabled w) = Ok (negb disabled && clicked inp key).
Proof. reflexivity. Qed.

Lemma button_final inp label key disabled w : final (button inp label key disabled w) = w.
Proof. reflexivity. Qed.

Lemma button_events inp label key disabled w :
  events (button inp label key disabled w) = [EvUi (StButton label key disabled)].
Proof. reflexivity. Qed.

(** C10.  The row of a listed user [u] offers a [Delete] button exactly
    when [u]'s username is not ["admin"], and the row of a user named
    ["admin"] calls no helper at all.  Over the whole listing [us], every
    [DELETE FROM users] issued is for the [user_id] of a listed user who
    is not named ["admin"]; and when the listing agrees with the table,
    every row of [users] named ["admin"] is still in the table after the
    listing has been run. *)
Theorem delete_offered_unless_admin :
  forall env inp us u w,
    let row := user_row env inp u w in
    let listing := for_each us (user_row env inp) w in
    buttons (events row)
    = (if py_eq_str (col u "username") "admin" then [] else [delete_button u])
    /\ (col u "username" = VStr "admin" -> ops (events row) = [])
    /\ Forall (deletes_only (listed_not_admin us)) (events listing)
    /\ (listing_agrees us (db w) ->
        forall r, In r (users (db w)) -> col r "username" = VStr "admin" ->
                  In r (users (db (final listing)))).
Proof.
  intros env inp us u w. cbv zeta. split; [|split].
  - unfold user_row. cbv zeta. unfold bind at 1.
    cbn [st emit out final events List.app buttons].
    destruct (py_eq_str (col u "username") "admin"); cbn [negb when]; [reflexivity|].
    rewrite (bind_ok _ _ _ _ (button_out inp _ _ _ _)). cbn [events].
    rewrite button_events, button_final. cbn [List.app buttons].
    unfold delete_button. f_equal.
    destruct (negb false && _); cbn [when]; [apply buttons_delete_block|reflexivity].
  - intros Hadmin. unfold user_row. cbv zeta. unfold bind at 1.
    cbn [st emit out final events List.app ops].
    apply py_eq_str_true in Hadmin. rewrite Hadmin. reflexivity.
  - assert (Hl : always (admin_kept us) (for_each us (user_row env inp))).
    { apply always_for_each. intros x Hx. now apply admin_kept_user_row. }
    destruct (Hl w) as (Hev & _ & Hkept). split; auto.
Qed.

(** ** The Add Student form *)

Lemma digit_is_plain c :
  is_digit c = true ->
  is_space c = false /\ Ascii.eqb c "-" = false /\ Ascii.eqb c "+" = false.
Proof.
  destruct c as [[] [] [] [] [] [] [] []]; vm_compute; intros H;
    try discriminate H; repeat split.
Qed.

(** [int()] reads a text of four digits. *)
Lemma py_int_four_digits s :
  isdigit s = true -> py_len s = 4 -> exists n, py_int s = Some n.
Proof.
  intros Hd Hl. unfold py_len in Hl.
  destruct s as [|c1 [|c2 [|c3 [|c4 [|c5 s]]]]]; simpl in Hl; try lia.
  unfold isdigit in Hd. simpl in Hd.
  repeat (apply andb_true_iff in Hd; destruct Hd as [? Hd]).
  destruct (digit_is_plain c1) as (S1 & M1 & P1); auto.
  destruct (digit_is_plain c4) as (S4 & _ & _); auto.
  unfold py_int, strip. simpl list_ascii_of_string.
  cbn [lstrip]. rewrite S1. cbn [rev List.app lstrip]. rewrite S4. cbn [rev List.app].
  unfold split_sign. rewrite M1, P1.
  unfold digitpart. rewrite H. cbn [digitpart_more]. rewrite H0, H1, H2.
  eexists. reflexivity.
Qed.

Lemma ops_try body w :
  ops (events (try_except_Error body show_mysql_error w)) = ops (events (body w)).
Proof.
  unfold try_except_Error. destruct (out (body w)) as [a|[]]; auto.
  cbn [show_mysql_error st emit out final events].
  rewrite ops_app. cbn [ops]. apply app_nil_r.
Qed.

Lemma ops_then_st {A} (m : M A) u w :
  ops (events ((m ;; st u) w)) = ops (events (m w)).
Proof.
  unfold bind. destruct (out (m w)); auto.
  cbn [st emit out final events]. rewrite ops_app. cbn [ops]. apply app_nil_r.
Qed.

(** What the submitted [Add Student] form does: the validation messages
    are as C6 says, and the INSERT is issued exactly when the validation
    passes and, besides, [float(cgpa)] does not raise. *)
Lemma add_student_submitted env inp w :
  clicked inp "add_student/Create" = true ->
  let res := add_student env inp w in
  let button := EvUi (StFormSubmitButton "add_student" "Create") in
  (add_student_filled inp = false ->
   events res = [button; EvUi (StError "Please fill all required fields.")])
  /\ (add_student_filled inp = true -> add_student_batch_ok inp = false ->
      events res = [button; EvUi (StError "Batch must be a 4-digit year.")])
  /\ (inserts_student (events res) <->
      add_student_filled inp = true /\ add_student_batch_ok inp = true
      /\ py_float (text_input inp "add_student/CGPA*" "") <> None).
Proof.
  intros Hclick. cbv zeta. unfold add_student. cbv zeta.
  rewrite (bind_ok _ _ _ _ (form_submit_button_out inp _ _ _)).
  rewrite form_submit_button_events, form_submit_button_final.
  change (fstr ["add_student"; "/"; "Create"]) with "add_student/Create".
  rewrite Hclick. cbn [when events List.app].
  fold (add_student_filled inp). fold (add_student_batch_ok inp).
  unfold inserts_student. cbn [ops].
  destruct (add_student_filled inp) eqn:Ef; cbn [negb].
  2:{ split; [reflexivity|]. split; [discriminate|].
      split; [|intros (H & _); discriminate].
      intros (params & r & Hin). cbn in Hin. contradiction. }
  split; [discriminate|].
  destruct (add_student_batch_ok inp) eqn:Eb; cbn [negb].
  2:{ split; [reflexivity|].
      split; [|intros (_ & H & _); discriminate].
      intros (params & r & Hin). cbn in Hin. contradiction. }
  split; [discriminate|].
  unfold add_student_batch_ok in Eb. apply andb_true_iff in Eb. destruct Eb as [Hd Hl].
  apply Z.eqb_eq in Hl.
  destruct (py_int_four_digits _ Hd Hl) as (b & Hb).
  rewrite ops_try. unfold int_of, float_of. rewrite Hb.
  rewrite (bind_ok (ret b) _ _ b eq_refl). cbn [ret out final events List.app].
  destruct (py_float (text_input inp "add_student/CGPA*" "")) as [c|] eqn:Ec.
  - rewrite (bind_ok (ret c) _ _ c eq_refl). cbn [ret out final events List.app].
    rewrite ops_then_st.
    rewrite (ops_helper _ _ w (helper_call_execute env INSERT_STUDENT _)).
    split; [|intros _; do 2 eexists; now left].
    intros _. repeat split; auto. discriminate.
  - rewrite (bind_exc (raise _) _ _ _ eq_refl).
    cbn [raise out final events ops].
    split; [|intros (_ & _ & H); congruence].
    intros (params & r & Hin). contradiction.
Qed.

(** ** The helpers and the committed database *)

Section HelperEffects.

Variable env : Env.

(** The rows [query] returns are the rows of the statement, run on the
    committed database. *)
Lemma query_rows sql params w rows :
  out (query env sql params w) = Ok rows ->
  exists d' cur,
    run_statement env (S (tick w)) sql params (db w) = inr (d', cur)
    /\ rows = cur_rows cur.
Proof.
  unfold query, logged, bind, get_conn. simpl.
  destruct (driver_cases env (DConnect (next_conn w))
    (fun _ w1 => inr (next_conn w,
        set_next_conn (set_conns w1 ((next_conn w, db w1) :: conns w1)) (S (next_conn w)))) w)
    as [(msg & -> & _)|(a & w2 & -> & _ & Hact)]; simpl; [discriminate|].
  injection Hact as <- <-.
  unfold try_finally, conn_close, bind, cursor_execute, fetchall. simpl.
  match goal with |- context [driver env ?c ?a ?w] =>
    destruct (driver_cases env c a w) as [(msg & -> & _)|(a1 & w3 & -> & _ & Hact)]
  end; simpl; [discriminate|].
  wsimpl. rewrite view_of_head in Hact.
  destruct (run_statement env _ sql params _) as [|[d' cur]] eqn:R; [discriminate|].
  injection Hact as <- <-.
  match goal with |- context [driver env ?c ?a ?w] =>
    destruct (driver_cases env c a w) as [(msg & -> & _)|(a2 & w4 & -> & _ & Hact)]
  end; simpl; [discriminate|].
  injection Hact as <- <-. intros E. injection E as <-. eauto.
Qed.

(** [call_proc]: either the procedure ran on the database and was
    committed, or [call_proc] raised and the database is what it was. *)
Lemma call_proc_db name args w :
  let r := call_proc env name args w in
  (out r = Ok tt /\ db (final r) = stored_procedure env (S (tick w)) name args (db w))
  \/ (exists msg, out r = Exc (MySQLError msg) /\ db (final r) = db w).
Proof.
  cbv zeta. unfold call_proc, logged, bind, get_conn. simpl.
  destruct (driver_cases env (DConnect (next_conn w))
    (fun _ w1 => inr (next_conn w,
        set_next_conn (set_conns w1 ((next_conn w, db w1) :: conns w1)) (S (next_conn w)))) w)
    as [(msg & -> & _)|(a & w2 & -> & _ & Hact)]; simpl.
  { right. now exists msg. }
  injection Hact as <- <-.
  unfold try_finally, conn_close, bind, callproc, commit. simpl.
  match goal with |- context [driver env ?c ?a ?w] =>
    destruct (driver_cases env c a w) as [(msg & -> & _)|(a1 & w3 & -> & _ & Hact)]
  end; simpl.
  { right. now exists msg. }
  wsimpl. rewrite view_of_head in Hact.
  injection Hact as <- <-.
  match goal with |- context [driver env ?c ?a ?w] =>
    destruct (driver_cases env c a w) as [(msg & -> & _)|(a2 & w4 & -> & _ & Hact)]
  end; simpl.
  { right. now exists msg. }
  wsimpl. unfold set_view in Hact. cbn [map fst] in Hact.
  rewrite Nat.eqb_refl, view_of_head in Hact.
  injection Hact as <- <-. wsimpl. left. auto.
Qed.

End HelperEffects.

(** X1.  [query] commits nothing, whatever its statement: the database is
    afterwards what it was, and the rows returned are those of the statement
    run on it. [execute] and [call_proc] are all or nothing: either the
    statement (the procedure) ran on the database, was committed and the
    helper returned (for [execute], the statement's [rowcount]), or the
    helper raised a [mysql.connector.Error] and the database is what it was
    before the call. *)
Theorem helpers_commit_or_change_nothing :
  forall env sql params w,
    let q := query env sql params w in
    let e := execute env sql params w in
    let p := call_proc env sql params w in
    (db (final q) = db w
     /\ forall rows,
          out q = Ok rows ->
          exists d' cur,
            run_statement env (S (tick w)) sql params (db w) = inr (d', cur)
            /\ rows = cur_rows cur)
    /\ ((exists cur,
            run_statement env (S (tick w)) sql params (db w) = inr (db (final e), cur)
            /\ out e = Ok (cur_rowcount cur))
        \/ (exists msg, out e = Exc (MySQLError msg) /\ db (final e) = db w))
    /\ ((out p = Ok tt
         /\ db (final p) = stored_procedure env (S (tick w)) sql params (db w))
        \/ (exists msg, out p = Exc (MySQLError msg) /\ db (final p) = db w)).
Proof.
  intros env sql params w. cbv zeta. split; [split|split].
  - apply query_keeps_db.
  - intros rows. apply query_rows.
  - apply execute_db.
  - apply call_proc_db.
Qed.

(** ** Properties that hold of every statement alike *)

(** A property that the three helpers keep whatever they are called on,
    and that does not look at the page calls, holds of every page and of
    the whole script. *)
Section Uniform.

Context {P : World -> option string -> World -> list event -> Prop}
        `{TraceProp P} `{Blind P}.
Variable env : Env.
Variable inp : Inputs.
Hypothesis P_query : forall sql params, always P (query env sql params).
Hypothesis P_execute : forall sql params, always P (execute env sql params).
Hypothesis P_call_proc : forall name args, always P (call_proc env name args).
Hypothesis P_page : forall w f arg, P w None w [EvPage f arg].

Ltac uniform_atom :=
  idtac;
  lazymatch goal with
  | |- always _ (query _ _ _) => apply P_query
  | |- always _ (execute _ _ _) => apply P_execute
  | |- always _ (call_proc _ _ _) => apply P_call_proc
  | |- always _ (try_except_Error _ _) => apply always_try; [|intros ?]
  end.

Lemma uniform_call_page f arg : always P (call_page env inp f arg).
Proof.
  unfold call_page. apply always_bind.
  - intros w. apply P_page.
  - intros _. destruct f, arg; walk uniform_atom.
Qed.

Lemma uniform_main : always P (main env inp).
Proof.
  unfold main. apply always_bind; [apply always_get_session|]. intros session.
  destruct session as [[|kv auth]|].
  - walk uniform_atom.
  - walk uniform_atom; apply uniform_call_page.
  - walk uniform_atom.
Qed.

End Uniform.

#[local] Instance connections_kept_TraceProp : TraceProp connections_kept.
Proof.
  split; unfold connections_kept.
  - intros w Hw. auto.
  - intros w w1 w2 _ a b Ha Hb Hw. destruct (Ha Hw) as [E1 F1].
    destruct (Hb F1) as [E2 F2]. split; [congruence|exact F2].
  - intros w u Hw. auto.
  - intros w a Hw. split; [reflexivity|exact Hw].
Qed.

#[local] Instance connections_kept_Blind : Blind connections_kept.
Proof. intros w o o' w' evs Hp. exact Hp. Qed.

Lemma connections_kept_helper env {A} op (body : nat -> M A) :
  (forall c, uses_only c (body c)) ->
  always connections_kept
    (logged op (conn <- get_conn env ;; try_finally (body conn) (conn_close conn))).
Proof.
  intros Hb w Hw. destruct (helper_own_connection env op body w Hb Hw) as (_ & Hc & Hf).
  split; assumption.
Qed.

(** X2.  No run of the script leaves a connection open, however it ends: on
    a normal end, on [st.rerun()], on an uncaught database error of a query
    or on any other exception, the connections open afterwards are those
    that were open before. *)
Theorem main_leaves_no_connection_open :
  forall env inp w,
    fresh_ids w ->
    conns (final (main env inp w)) = conns w /\ fresh_ids (final (main env inp w)).
Proof.
  intros env inp w Hw.
  assert (Hm : always connections_kept (main env inp)).
  { apply uniform_main.
    - intros sql params. apply connections_kept_helper. intros c.
      apply uses_only_bind; [apply uses_only_cursor_execute|].
      intros cur. apply uses_only_fetchall.
    - intros sql params. apply connections_kept_helper. intros c.
      apply uses_only_bind; [apply uses_only_cursor_execute|].
      intros cur. apply uses_only_bind; [apply uses_only_commit|].
      intros _. apply uses_only_ret.
    - intros name args. apply connections_kept_helper. intros c.
      apply uses_only_bind; [apply uses_only_callproc|].
      intros _. apply uses_only_commit.
    - intros w0 f arg Hw0. auto. }
  exact (Hm w Hw).
Qed.

(** ** Sessions *)

Section Keeps.

Context {R : World -> World -> Prop} `{Frame R}.
Variable env : Env.
Variable inp : Inputs.

Lemma keeps_ret {A} (a : A) : keeps R (ret a).
Proof. intros w. apply frame_refl. Qed.

Lemma keeps_raise {A} (e : exn) : keeps R (@raise A e).
Proof. intros w. apply frame_refl. Qed.

Lemma keeps_bind {A B} (m : M A) (f : A -> M B) :
  keeps R m -> (forall a, keeps R (f a)) -> keeps R (bind m f).
Proof.
  intros Hm Hf w. unfold bind. specialize (Hm w).
  destruct (out (m w)) as [a|e]; cbn [final]; auto.
  eapply frame_trans; [exact Hm|apply Hf].
Qed.

Lemma keeps_when (c : bool) (body : M unit) :
  (c = true -> keeps R body) -> keeps R (when c body).
Proof. intros Hb. destruct c; simpl; auto. apply keeps_ret. Qed.

Lemma keeps_for_each {A} (xs : list A) (body : A -> M unit) :
  (forall x, In x xs -> keeps R (body x)) -> keeps R (for_each xs body).
Proof.
  induction xs as [|x xs IH]; intros Hb; simpl.
  - apply keeps_ret.
  - apply keeps_bind; [apply Hb; now left|].
    intros _. apply IH. intros y Hy. apply Hb. now right.
Qed.

Lemma keeps_try body handler :
  keeps R body -> (forall msg, keeps R (handler msg)) ->
  keeps R (try_except_Error body handler).
Proof.
  intros Hb Hh w. unfold try_except_Error. specialize (Hb w).
  destruct (out (body w)) as [a|e]; auto.
  destruct e; auto. cbn [final]. eapply frame_trans; [exact Hb|apply Hh].
Qed.

Lemma keeps_st u : keeps R (st u).
Proof. intros w. apply frame_refl. Qed.

Lemma keeps_button label key disabled : keeps R (button inp label key disabled).
Proof. intros w. apply frame_refl. Qed.

Lemma keeps_form_submit_button form label : keeps R (form_submit_button inp form label).
Proof. intros w. apply frame_refl. Qed.

Lemma keeps_getitem {V} (d : dict V) k : keeps R (getitem d k).
Proof.
  unfold getitem. destruct k as [s|]; [destruct (dict_get d s)|];
    first [apply keeps_ret | apply keeps_raise].
Qed.

Lemma keeps_int_of s : keeps R (int_of s).
Proof. unfold int_of. destruct (py_int s); [apply keeps_ret|apply keeps_raise]. Qed.

Lemma keeps_float_of s : keeps R (float_of s).
Proof. unfold float_of. destruct (py_float s); [apply keeps_ret|apply keeps_raise]. Qed.

Lemma keeps_index_of options v : keeps R (index_of options v).
Proof.
  unfold index_of. destruct (index_from options v 0); [apply keeps_ret|apply keeps_raise].
Qed.

Lemma keeps_first_row rows : keeps R (first_row rows).
Proof. destruct rows; [apply keeps_raise|apply keeps_ret]. Qed.

Lemma keeps_lt_zero v : keeps R (lt_zero v).
Proof. destruct v; simpl; first [apply keeps_ret | apply keeps_raise]. Qed.

End Keeps.

(** One step through a page for [keeps]; [atom] settles the helper calls. *)
Ltac keeps_step atom :=
  first
    [ atom
    | lazymatch goal with
      | |- keeps _ (bind _ _) => apply keeps_bind; [|intros ?]
      | |- keeps _ (ret _) => apply keeps_ret
      | |- keeps _ (raise _) => apply keeps_raise
      | |- keeps _ (when _ _) => apply keeps_when; intros ?
      | |- keeps _ (for_each _ _) => apply keeps_for_each; intros ? ?
      | |- keeps _ (st _) => apply keeps_st
      | |- keeps _ st_rerun => apply keeps_raise
      | |- keeps _ (button _ _ _ _) => apply keeps_button
      | |- keeps _ (form_submit_button _ _ _) => apply keeps_form_submit_button
      | |- keeps _ (getitem _ _) => apply keeps_getitem
      | |- keeps _ (int_of _) => apply keeps_int_of
      | |- keeps _ (float_of _) => apply keeps_float_of
      | |- keeps _ (index_of _ _) => apply keeps_index_of
      | |- keeps _ (first_row _) => apply keeps_first_row
      | |- keeps _ (lt_zero _) => apply keeps_lt_zero
      | |- keeps _ (show_mysql_error _) => apply keeps_st
      | |- keeps _ (try_except_Error _ _) => apply keeps_try; [|intros ?]
      | |- keeps _ (update_status _ _ _) => unfold update_status
      | |- keeps _ (withdraw _ _) => unfold withdraw
      | |- keeps _ (delete_application _ _) => unfold delete_application
      | |- keeps _ (save_contact_info _ _ _ _) => unfold save_contact_info
      | |- keeps _ (apply_for _ _ _) => unfold apply_for
      | |- keeps _ (match ?x with _ => _ end) => destruct x
      | |- keeps _ (if ?c then _ else _) => destruct c
      | |- keeps _ _ => first [progress cbv zeta | progress autounfold with portal]
      end ].

#[local] Instance same_session_Frame : Frame same_session.
Proof. split; unfold same_session; congruence. Qed.

Lemma same_session_helper {A} op (m : M A) : helper_call op m -> keeps same_session m.
Proof. intros Hm w. apply (Hm w). Qed.

Ltac same_session_atom :=
  idtac;
  lazymatch goal with
  | |- keeps _ (query _ _ _) => eapply same_session_helper; apply helper_call_query
  | |- keeps _ (execute _ _ _) => eapply same_session_helper; apply helper_call_execute
  | |- keeps _ (call_proc _ _ _) => eapply same_session_helper; apply helper_call_call_proc
  end.

Lemma same_session_call_page env inp f arg : keeps same_session (call_page env inp f arg).
Proof.
  unfold call_page. apply keeps_bind; [intros w; reflexivity|].
  intros _. destruct f, arg; repeat keeps_step same_session_atom.
Qed.

Lemma logout_not_clicked inp w :
  clicked inp "sidebar/Logout" = false ->
  logout inp w = mkRes (Ok tt) w [EvUi (StSidebarButton "Logout")].
Proof.
  intros Hc. unfold logout, sidebar_button, bind, st, emit, when.
  cbn [out final events ret List.app].
  change (fstr ["sidebar/"; "Logout"]) with "sidebar/Logout". rewrite Hc. reflexivity.
Qed.

Lemma logout_clicked inp w :
  clicked inp "sidebar/Logout" = true ->
  logout inp w
  = mkRes (Exc RerunException) (set_session_auth w None) [EvUi (StSidebarButton "Logout")].
Proof.
  intros Hc. unfold logout, sidebar_button, bind, st, emit, when.
  cbn [out final events ret List.app].
  change (fstr ["sidebar/"; "Logout"]) with "sidebar/Logout". rewrite Hc. reflexivity.
Qed.

Lemma bind_get_session {B} (f : option row -> M B) w :
  bind get_session f w
  = mkRes (out (f (session_auth w) w)) (final (f (session_auth w) w))
          (events (f (session_auth w) w)).
Proof. reflexivity. Qed.

Lemma st_then {B} u (m : M B) w :
  bind (st u) (fun _ => m) w = mkRes (out (m w)) (final (m w)) (EvUi u :: events (m w)).
Proof. reflexivity. Qed.

Lemma st_then_out {B} u (m : M B) w : out (bind (st u) (fun _ => m) w) = out (m w).
Proof. reflexivity. Qed.

Lemma st_then_final {B} u (m : M B) w : final (bind (st u) (fun _ => m) w) = final (m w).
Proof. reflexivity. Qed.

Lemma st_then_events {B} u (m : M B) w :
  events (bind (st u) (fun _ => m) w) = EvUi u :: events (m w).
Proof. reflexivity. Qed.

Lemma ret_then_out {A B} (a : A) (f : A -> M B) w : out (bind (ret a) f w) = out (f a w).
Proof. reflexivity. Qed.

Lemma ret_then_events {A B} (a : A) (f : A -> M B) w :
  events (bind (ret a) f w) = events (f a w).
Proof. reflexivity. Qed.

Ltac peel :=
  repeat (progress rewrite ?st_then_out, ?st_then_events, ?ret_then_out, ?ret_then_events).

Lemma logout_clicked_then {B} inp (k : unit -> M B) w :
  clicked inp "sidebar/Logout" = true ->
  bind (logout inp) k w
  = mkRes (Exc RerunException) (set_session_auth w None) [EvUi (StSidebarButton "Logout")].
Proof.
  intros Hc. rewrite (bind_exc _ _ _ RerunException); rewrite (logout_clicked inp w Hc);
    reflexivity.
Qed.

(** What [main] goes on with for the session [auth]. *)
Lemma main_logged_in env inp w kv auth :
  session_auth w = Some (kv :: auth) ->
  exists body : M unit,
    final (main env inp w) = final (body w)
    /\ out (main env inp w) = out (body w)
    /\ events (main env inp w) = events (body w)
    /\ body
       = (let auth := kv :: auth in
          let role := col auth "role" in
          st (StSidebarTitle "🎓 Placement Portal") ;;
          st (StSidebarWrite (fstr ["Logged in as **"; py_str (col auth "username"); "** (";
                                    py_str role; ")"])) ;;
          st (StSidebarCaption (fstr ["DB: "; DB_USER; "@"; DB_HOST; "/"; DB_NAME])) ;;
          if py_eq_str role "ADMIN" then
            let page_name := selectbox inp "sidebar/Navigate" (dict_keys PAGES_ADMIN) in
            st StSidebarDivider ;;
            logout inp ;;
            f <- getitem PAGES_ADMIN page_name ;;
            call_page env inp f None
          else if py_eq_str role "STUDENT" then
            if negb (py_truthy (col auth "student_id")) then
              st (StError NOT_LINKED) ;;
              logout inp
            else
              let page_name := selectbox inp "sidebar/Navigate" (dict_keys PAGES_STUDENT) in
              st StSidebarDivider ;;
              logout inp ;;
              if existsb (sel_is page_name) ["My Dashboard"; "My Profile"; "Opportunities"] then
                f <- getitem PAGES_STUDENT page_name ;;
                call_page env inp f (Some (col auth "student_id"))
              else
                f <- getitem PAGES_STUDENT page_name ;;
                call_page env inp f None
          else
            st (StError "Unknown role.") ;;
            logout inp).
Proof.
  intros Hs. eexists. split; [|split; [|split; [|reflexivity]]];
    unfold main; rewrite bind_get_session, Hs; reflexivity.
Qed.

(** A run for a logged-in user in which [Logout] is not pressed ends with
    the session it began with. *)
Lemma session_kept_logged_in env inp w auth :
  session_auth w = Some auth -> auth <> [] ->
  clicked inp "sidebar/Logout" = false ->
  session_auth (final (main env inp w)) = session_auth w.
Proof.
  intros Hs Hne Hc. destruct auth as [|kv auth]; [congruence|].
  destruct (main_logged_in env inp w kv auth Hs) as (body & -> & _ & _ & ->).
  assert (Hl : keeps same_session (logout inp)).
  { intros w0. rewrite logout_not_clicked by assumption. reflexivity. }
  match goal with |- session_auth (final (?b w)) = _ =>
    enough (K : keeps same_session b) by exact (K w)
  end.
  cbv zeta.
  repeat keeps_step ltac:(idtac; lazymatch goal with
                          | |- keeps _ (logout _) => exact Hl
                          | |- keeps _ (call_page _ _ _ _) => apply same_session_call_page
                          end).
Qed.

(** X3.  No page function changes [st.session_state.auth]; and a run for a
    logged-in user in which [Logout] is not pressed ends, however it ends,
    with the session it began with. *)
Theorem pages_keep_the_session :
  forall env inp w,
    (forall f arg, session_auth (final (call_page env inp f arg w)) = session_auth w)
    /\ (forall auth,
           session_auth w = Some auth -> auth <> [] ->
           clicked inp "sidebar/Logout" = false ->
           session_auth (final (main env inp w)) = Some auth).
Proof.
  intros env inp w. split.
  - intros f arg. apply same_session_call_page.
  - intros auth Hs Hne Hc. rewrite <- Hs. now apply session_kept_logged_in with (auth := auth).
Qed.

#[local] Instance db_kept_TraceProp : TraceProp db_kept.
Proof.
  split; unfold db_kept; auto.
  intros w w1 w2 _ a b Ha Hb. congruence.
Qed.

#[local] Instance db_kept_Blind : Blind db_kept.
Proof. intros w o o' w' evs Hp. exact Hp. Qed.

Lemma main_logged_out env inp w :
  session_auth w = None \/ session_auth w = Some [] ->
  main env inp w = login_ui env inp w.
Proof.
  intros Hs. unfold main. rewrite bind_get_session.
  destruct Hs as [Hs|Hs]; rewrite Hs; destruct (login_ui env inp w); reflexivity.
Qed.

Lemma login_form_calls_no_page env inp w f arg :
  session_auth w = None \/ session_auth w = Some [] ->
  ~ In (EvPage f arg) (events (main env inp w)).
Proof.
  intros Hs. rewrite (main_logged_out env inp w Hs).
  pose proof (calls_only_TraceProp (fun _ _ => False)) as HP.
  assert (Ha : always (each (calls_only (fun _ _ => False))) (login_ui env inp))
    by walk calls_only_atom.
  intros Hin. specialize (Ha w). unfold each in Ha.
  rewrite Forall_forall in Ha. exact (Ha _ Hin).
Qed.

(** X4.  With [Logout] pressed, a run for a logged-in user of any role
    clears the session and ends with [st.rerun()] before any page function
    is called and before any database helper is called; and the run that
    follows, whatever is typed or pressed in it, calls no page function: it
    shows the login form. *)
Theorem logout_ends_the_session_before_any_page :
  forall env inp w auth,
    session_auth w = Some auth -> auth <> [] ->
    clicked inp "sidebar/Logout" = true ->
    let r := main env inp w in
    session_auth (final r) = None
    /\ out r = Exc RerunException
    /\ ops (events r) = []
    /\ (forall f arg, ~ In (EvPage f arg) (events r))
    /\ db (final r) = db w
    /\ conns (final r) = conns w
    /\ (forall inp' f arg, ~ In (EvPage f arg) (events (main env inp' (final r)))).
Proof.
  intros env inp w auth Hs Hne Hc. cbv zeta.
  assert (Hnone : session_auth (final (main env inp w)) = None
                  /\ out (main env inp w) = Exc RerunException
                  /\ ops (events (main env inp w)) = []
                  /\ (forall f arg, ~ In (EvPage f arg) (events (main env inp w)))
                  /\ db (final (main env inp w)) = db w
                  /\ conns (final (main env inp w)) = conns w).
  { destruct auth as [|kv auth]; [congruence|].
    destruct (main_logged_in env inp w kv auth Hs) as (body & -> & -> & -> & ->).
    cbv zeta. rewrite !st_then. cbn [out final events].
    destruct (py_eq_str (col (kv :: auth) "role") "ADMIN");
      [|destruct (py_eq_str (col (kv :: auth) "role") "STUDENT");
        [destruct (negb (py_truthy (col (kv :: auth) "student_id")))|]];
      rewrite ?st_then; cbn [out final events];
      first [rewrite !(logout_clicked_then inp _ _ Hc) | rewrite !(logout_clicked inp _ Hc)];
      cbn [out final events session_auth set_session_auth db conns ops];
      (repeat split; try reflexivity);
      intros f arg Hin;
      repeat (destruct Hin as [Hin|Hin]; [discriminate|]); exact Hin. }
  destruct Hnone as (H1 & H2 & H3 & H4 & H5 & H6).
  repeat (split; [assumption|]).
  intros inp' f arg. apply login_form_calls_no_page. now left.
Qed.

(** [authenticate] is its one query; it leaves the session alone, and
    the record it returns has the four keys of the session record. *)
Lemma authenticate_run env username password w :
  let a := authenticate env username password w in
  session_auth (final a) = session_auth w
  /\ (exists res, ops (events a) = [(OpQuery SELECT_USER [VStr username], res)])
  /\ (forall u, out a = Ok (Some u) ->
                dict_keys u = ["user_id"; "username"; "role"; "student_id"]).
Proof.
  cbv zeta. unfold authenticate, bind.
  destruct (helper_call_query env SELECT_USER [VStr username] w) as (_ & _ & Hsess).
  pose proof (ops_helper _ _ w (helper_call_query env SELECT_USER [VStr username])) as Hops.
  destruct (query env SELECT_USER [VStr username] w) as [o w' evs].
  cbn [out final events] in *.
  destruct o as [[|u rows]|e]; cbn [ret out final events].
  - rewrite app_nil_r. repeat split; eauto. intros u E. discriminate.
  - destruct (py_eq_str _ _); cbn [ret out final events]; rewrite app_nil_r;
      repeat split; eauto; intros u' E; [|discriminate].
    injection E as <-. reflexivity.
  - repeat split; eauto. intros u E. discriminate.
Qed.

(** The login form with [Login] pressed, by what [authenticate] does. *)
Lemma login_ui_submitted env inp w :
  clicked inp "login_form/Login" = true ->
  let a := authenticate env (text_input inp "login_form/Username" "")
             (text_input inp "login_form/Password" "") w in
  let form := [EvUi (StTitle "🔐 Placement Portal — Login");
               EvUi (StFormSubmitButton "login_form" "Login")] in
  login_ui env inp w
  = match out a with
    | Ok (Some u) =>
        mkRes (Exc RerunException) (set_session_auth (final a) (Some u))
              (form ++ events a ++ [EvUi (welcome u)])
    | Ok None =>
        mkRes (Ok tt) (final a) (form ++ events a ++ [EvUi (StError "Invalid credentials.")])
    | Exc e => mkRes (Exc e) (final a) (form ++ events a)
    end.
Proof.
  intros Hc. cbv zeta. unfold login_ui. cbv zeta.
  unfold bind at 1. cbn [st emit out final events].
  rewrite (bind_ok _ _ _ _ (form_submit_button_out inp _ _ _)).
  rewrite form_submit_button_events, form_submit_button_final.
  change (fstr ["login_form"; "/"; "Login"]) with "login_form/Login".
  rewrite Hc. cbn [when out final events List.app].
  unfold bind.
  destruct (authenticate env _ _ w) as [o w' evs]. cbn [out final events].
  destruct o as [[u|]|e];
    cbn [st st_rerun set_session raise emit out final events List.app];
    rewrite ?app_nil_r; reflexivity.
Qed.

Lemma login_ui_idle env inp w :
  clicked inp "login_form/Login" = false ->
  login_ui env inp w
  = mkRes (Ok tt) w [EvUi (StTitle "🔐 Placement Portal — Login");
                     EvUi (StFormSubmitButton "login_form" "Login")].
Proof.
  intros Hc. unfold login_ui. cbv zeta.
  unfold bind, st, emit, form_submit_button. cbn [out final events ret List.app].
  change (fstr ["login_form"; "/"; "Login"]) with "login_form/Login".
  rewrite Hc. reflexivity.
Qed.

(** X5.  Without a session (none yet, or an empty one) a run shows the login
    form and nothing else: no page function is called, the committed
    database is not changed, and the only helper call there can be is the
    lookup of the typed username, made when [Login] is pressed; when it is
    not pressed the run does nothing at all to the world. *)
Theorem logged_out_run_reaches_no_page :
  forall env inp w,
    session_auth w = None \/ session_auth w = Some [] ->
    let r := main env inp w in
    (forall f arg, ~ In (EvPage f arg) (events r))
    /\ db (final r) = db w
    /\ (clicked inp "login_form/Login" = true ->
        exists res, ops (events r) = [(login_lookup inp, res)])
    /\ (clicked inp "login_form/Login" = false ->
        ops (events r) = [] /\ final r = w /\ out r = Ok tt).
Proof.
  intros env inp w Hs. cbv zeta. rewrite (main_logged_out env inp w Hs).
  split; [|split; [|split]].
  - intros f arg Hin. apply (login_form_calls_no_page env inp w f arg Hs).
    now rewrite (main_logged_out env inp w Hs).
  - assert (Ha : always db_kept (login_ui env inp)).
    { walk ltac:(idtac; lazymatch goal with
                 | |- always _ (query _ _ _) => intros w0; apply query_keeps_db
                 end). }
    exact (Ha w).
  - intros Hc. rewrite (login_ui_submitted env inp w Hc). cbv zeta.
    destruct (authenticate_run env (text_input inp "login_form/Username" "")
                (text_input inp "login_form/Password" "") w) as (_ & (res & Hops) & _).
    exists res.
    destruct (out (authenticate env _ _ w)) as [[u|]|e]; cbn [events];
      rewrite ?ops_app, Hops; reflexivity.
  - intros Hc. rewrite (login_ui_idle env inp w Hc). auto.
Qed.

(** X6.  With [Login] pressed and no session: the session is set exactly
    when [authenticate] returns a record, to that record (which carries the
    four keys [user_id], [username], [role], [student_id] and no password
    hash), and the run then ends with [st.rerun()] after the welcome
    message; when [authenticate] returns [None] the session is left as it
    was and [Invalid credentials.] is shown; when its query raises, the
    error ends the run and the session is left as it was. *)
Theorem login_sets_session_when_authenticated :
  forall env inp w,
    session_auth w = None \/ session_auth w = Some [] ->
    clicked inp "login_form/Login" = true ->
    let a := authenticate env (text_input inp "login_form/Username" "")
               (text_input inp "login_form/Password" "") w in
    let r := main env inp w in
    match out a with
    | Ok (Some u) =>
        session_auth (final r) = Some u
        /\ out r = Exc RerunException
        /\ dict_keys u = ["user_id"; "username"; "role"; "student_id"]
        /\ In (EvUi (welcome u)) (events r)
    | Ok None =>
        session_auth (final r) = session_auth w
        /\ out r = Ok tt
        /\ In (EvUi (StError "Invalid credentials.")) (events r)
    | Exc e =>
        session_auth (final r) = session_auth w /\ out r = Exc e
    end.
Proof.
  intros env inp w Hs Hc. cbv zeta. rewrite (main_logged_out env inp w Hs).
  rewrite (login_ui_submitted env inp w Hc). cbv zeta.
  destruct (authenticate_run env (text_input inp "login_form/Username" "")
              (text_input inp "login_form/Password" "") w) as (Hsess & _ & Hkeys).
  destruct (out (authenticate env _ _ w)) as [[u|]|e]; cbn [out final events session_auth
    set_session_auth].
  - repeat split; auto.
    apply in_or_app. right. apply in_or_app. right. now left.
  - repeat split; auto.
    apply in_or_app. right. apply in_or_app. right. now left.
  - auto.
Qed.

(** ** What the pages write *)

Lemma ops_in_events evs op res : In (op, res) (ops evs) <-> In (EvOp op res) evs.
Proof.
  induction evs as [|e evs IH]; simpl; [tauto|].
  destruct e as [c r|op' r|u|f arg]; simpl; rewrite IH;
    try (split; [now right|intros [E|E]; [discriminate|exact E]]).
  split; intros [E|E]; auto; left; congruence.
Qed.

(** A helper call, for a property of each event that holds of the calls
    into the driver. *)
Lemma each_op phi {A} op (m : M A) :
  helper_call op m ->
  (forall c r, phi (EvDriver c r)) ->
  (forall r, phi (EvOp op r)) ->
  always (each phi) m.
Proof.
  intros Hm Hd Ho. apply (each_helper _ _ _ Hm); auto.
  intros [c r| | |] He; simpl in He; try contradiction. apply Hd.
Qed.

Lemma writes_within_TraceProp allowed : TraceProp (each (writes_within allowed)).
Proof. apply each_TraceProp. intros u. exact I. Qed.

Ltac in_list := simpl; repeat first [left; reflexivity | right].

Ltac writes_within_atom :=
  idtac;
  lazymatch goal with
  | |- always _ (query _ _ _) =>
      eapply each_op; [apply helper_call_query|intros; exact I|intros; exact I]
  | |- always _ (execute _ _ _) =>
      eapply each_op; [apply helper_call_execute|intros; exact I|intros; in_list]
  | |- always _ (call_proc _ _ _) =>
      eapply each_op; [apply helper_call_call_proc|intros; exact I|intros; in_list]
  | |- always _ (try_except_Error _ _) => apply always_try; [|intros ?]
  end.

Lemma writes_within_call_page env inp f arg :
  always (each (writes_within (page_writes f))) (call_page env inp f arg).
Proof.
  pose proof (writes_within_TraceProp (page_writes f)) as HP.
  unfold call_page. apply always_bind.
  - intros w. repeat constructor.
  - intros _. destruct f, arg; walk writes_within_atom.
Qed.

Ltac db_kept_atom :=
  idtac;
  lazymatch goal with
  | |- always _ (query _ _ _) => intros ?; apply query_keeps_db
  end.

(** X7.  Each page function passes to [execute] and [call_proc] only the
    statements and procedures listed for it in [page_writes]: the Students
    page writes to [student] only, the Users page to [users] only,
    [application_audit] is written by the Applications page only, and the
    Reports page and the student's dashboard write nothing: they leave the
    committed database as it was. *)
Theorem pages_write_only_their_statements :
  forall env inp f arg w op res wr,
    let r := call_page env inp f arg w in
    (In (EvOp op res) (events r) -> write_of op = Some wr -> In wr (page_writes f))
    /\ (page_writes f = [] -> db (final r) = db w).
Proof.
  intros env inp f arg w op res wr. cbv zeta. split.
  - intros Hin Hwr. pose proof (writes_within_call_page env inp f arg w) as Ha.
    unfold each in Ha. rewrite Forall_forall in Ha. specialize (Ha _ Hin).
    simpl in Ha. now rewrite Hwr in Ha.
  - intros Hnone.
    assert (Ha : always db_kept (call_page env inp f arg)).
    { unfold call_page. apply always_bind; [intros w0; reflexivity|]. intros _.
      destruct f; try discriminate Hnone; destruct arg; walk db_kept_atom. }
    exact (Ha w).
Qed.

Lemma own_write_TraceProp sid : TraceProp (each (own_write sid)).
Proof. apply each_TraceProp. intros u. exact I. Qed.

Ltac own_write_atom :=
  idtac;
  lazymatch goal with
  | |- always _ (query _ _ _) =>
      eapply each_op; [apply helper_call_query|intros; exact I|intros; exact I]
  | |- always _ (execute _ _ _) =>
      eapply each_op; [apply helper_call_execute|intros; exact I
                      |intros; simpl; split; [reflexivity|eauto]]
  | |- always _ (call_proc _ _ _) =>
      eapply each_op; [apply helper_call_call_proc|intros; exact I
                      |intros; simpl; split; [reflexivity|eauto]]
  | |- always _ (try_except_Error _ _) => apply always_try; [|intros ?]
  end.

Lemma own_write_call_page env inp sid f arg :
  In f (map snd PAGES_STUDENT) ->
  arg = Some sid \/ arg = None ->
  always (each (own_write sid)) (call_page env inp f arg).
Proof.
  intros Hf Harg. pose proof (own_write_TraceProp sid) as HP.
  unfold call_page. apply always_bind.
  - intros w. repeat constructor.
  - intros _.
    destruct f; simpl in Hf;
      try (exfalso; repeat (destruct Hf as [Hf|Hf]; [discriminate|]); exact Hf);
      destruct Harg as [-> | ->]; walk own_write_atom.
Qed.

(** X8.  Whatever a user logged in with role [STUDENT] does, every write of
    the run is for the session's own [student_id]: it is either the UPDATE
    of [email] and [phone] where [student_id] is the session's, or the call
    [sp_create_application(student_id, _, 0)] with the session's
    [student_id]. *)
Theorem student_writes_only_for_own_id :
  forall env inp w auth,
    session_auth w = Some auth -> auth <> [] ->
    col auth "role" = VStr "STUDENT" ->
    Forall (own_write (col auth "student_id")) (events (main env inp w)).
Proof.
  intros env inp w auth Hs Hne Hrole. destruct auth as [|kv auth]; [congruence|].
  destruct (main_logged_in env inp w kv auth Hs) as (body & _ & _ & -> & ->).
  pose proof (own_write_TraceProp (col (kv :: auth) "student_id")) as HP.
  match goal with |- Forall _ (events (?b w)) =>
    enough (Ha : always (each (own_write (col (kv :: auth) "student_id"))) b) by exact (Ha w)
  end.
  cbv zeta. rewrite Hrole. cbn [py_eq_str String.eqb Ascii.eqb Bool.eqb].
  do 3 (apply always_bind; [apply always_st|intros _]).
  destruct (negb (py_truthy (col (kv :: auth) "student_id"))).
  { apply always_bind; [apply always_st|intros _]. apply always_logout. }
  do 2 (apply always_bind; [first [apply always_st | apply always_logout]|intros _]).
  destruct (existsb _ _); apply always_bind_getitem; intros s f _ Hget;
    apply own_write_call_page; auto; eapply dict_get_in_values; eauto.
Qed.

Lemma own_query_TraceProp sid : TraceProp (each (own_query sid)).
Proof. apply each_TraceProp. intros u. exact I. Qed.

Ltac own_query_atom :=
  idtac;
  lazymatch goal with
  | |- always _ (query _ _ _) =>
      eapply each_op; [apply helper_call_query|intros; exact I|intros; simpl; auto]
  | |- always _ (execute _ _ _) =>
      eapply each_op; [apply helper_call_execute|intros; exact I|intros; exact I]
  | |- always _ (call_proc _ _ _) =>
      eapply each_op; [apply helper_call_call_proc|intros; exact I|intros; exact I]
  | |- always _ (try_except_Error _ _) => apply always_try; [|intros ?]
  end.

(** X9.  The three pages made for one student (dashboard, profile,
    opportunities), called for the student [sid], ask the database about no
    other student: each of their queries has no parameter at all or [sid] as
    its only parameter. *)
Theorem student_pages_query_for_own_id :
  forall env inp sid w f,
    In f [Page_student_dashboard; Page_student_profile; Page_opportunities_student] ->
    Forall (own_query sid) (events (call_page env inp f (Some sid) w)).
Proof.
  intros env inp sid w f Hf. pose proof (own_query_TraceProp sid) as HP.
  enough (Ha : always (each (own_query sid)) (call_page env inp f (Some sid))) by exact (Ha w).
  unfold call_page. apply always_bind; [intros w0; repeat constructor|]. intros _.
  simpl in Hf. destruct Hf as [<-|[<-|[<-|[]]]]; walk own_query_atom.
Qed.

(** *** A run in which nothing is pressed *)

Section Idle.

Context {P : World -> option string -> World -> list event -> Prop} `{TraceProp P}.
Variable inp : Inputs.
Hypothesis nothing_pressed : forall key, clicked inp key = false.

Lemma idle_button {B} label key disabled (f : bool -> M B) :
  always P (f false) -> always P (bind (button inp label key disabled) f).
Proof.
  intros Hf w. rewrite (bind_ok _ _ _ _ (button_out inp label key disabled w)).
  rewrite button_final, button_events, nothing_pressed, andb_false_r.
  cbn [out final events]. eapply tp_seq; [apply tp_ui|apply Hf].
Qed.

Lemma idle_form_submit_button {B} form label (f : bool -> M B) :
  always P (f false) -> always P (bind (form_submit_button inp form label) f).
Proof.
  intros Hf w. rewrite (bind_ok _ _ _ _ (form_submit_button_out inp form label w)).
  rewrite form_submit_button_final, form_submit_button_events, nothing_pressed.
  cbn [out final events]. eapply tp_seq; [apply tp_ui|apply Hf].
Qed.

Lemma idle_logout : always P (logout inp).
Proof.
  intros w. rewrite (logout_not_clicked inp w (nothing_pressed _)).
  cbn [out final events mysql_of]. apply tp_ui.
Qed.

End Idle.

Ltac idle_atom Hno query_atom :=
  idtac;
  lazymatch goal with
  | |- always _ (query _ _ _) => query_atom
  | |- always _ (bind (button _ _ _ _) _) => apply (idle_button _ Hno); cbv beta
  | |- always _ (bind (form_submit_button _ _ _) _) =>
      apply (idle_form_submit_button _ Hno); cbv beta
  | |- always _ (logout _) => apply (idle_logout _ Hno)
  | |- always _ (when false _) => apply always_ret
  end.

Lemma reads_only_TraceProp : TraceProp (each reads_only).
Proof. apply each_TraceProp. intros u. exact I. Qed.

Ltac reads_only_query :=
  eapply each_op; [apply helper_call_query|intros; exact I|intros; reflexivity].

Lemma idle_run env inp {P} `{TraceProp P} :
  (forall key, clicked inp key = false) ->
  (forall sql params, always P (query env sql params)) ->
  (forall w f arg, P w None w [EvPage f arg]) ->
  always P (main env inp).
Proof.
  intros Hno Hq Hp.
  assert (Hpage : forall f arg, always P (call_page env inp f arg)).
  { intros f arg. unfold call_page. apply always_bind; [intros w; apply Hp|].
    intros _. destruct f, arg; walk ltac:(idle_atom Hno ltac:(apply Hq)). }
  unfold main. apply always_bind; [apply always_get_session|]. intros session.
  destruct session as [[|kv auth]|].
  - walk ltac:(idle_atom Hno ltac:(apply Hq)).
  - walk ltac:(idle_atom Hno ltac:(apply Hq)); apply Hpage.
  - walk ltac:(idle_atom Hno ltac:(apply Hq)).
Qed.

(** X10.  A run in which no button is pressed and no form is submitted only
    reads: it calls neither [execute] nor [call_proc], and it leaves the
    committed database and the session as they were, whoever is logged in
    and whatever page is shown. *)
Theorem rendering_alone_writes_nothing :
  forall env inp w,
    (forall key, clicked inp key = false) ->
    let r := main env inp w in
    (forall op res, In (op, res) (ops (events r)) -> is_write op = false)
    /\ db (final r) = db w
    /\ session_auth (final r) = session_auth w.
Proof.
  intros env inp w Hno. cbv zeta. split; [|split].
  - pose proof reads_only_TraceProp as HP.
    assert (Ha : always (each reads_only) (main env inp)).
    { apply idle_run; auto.
      - intros sql params. reads_only_query.
      - intros w0 f arg. repeat constructor. }
    intros op res Hin. apply ops_in_events in Hin.
    specialize (Ha w). unfold each in Ha. rewrite Forall_forall in Ha.
    exact (Ha _ Hin).
  - pose proof db_kept_TraceProp as HP.
    assert (Ha : always db_kept (main env inp)).
    { apply idle_run; auto.
      - intros sql params w0. apply query_keeps_db.
      - intros w0 f arg. reflexivity. }
    exact (Ha w).
  - destruct (session_auth w) as [[|kv auth]|] eqn:Hs.
    + rewrite (main_logged_out env inp w (or_intror Hs)).
      now rewrite (login_ui_idle env inp w (Hno _)).
    + rewrite <- Hs. apply session_kept_logged_in with (auth := kv :: auth); auto.
      discriminate.
    + rewrite (main_logged_out env inp w (or_introl Hs)).
      now rewrite (login_ui_idle env inp w (Hno _)).
Qed.

(** ** Choices and forms *)

Lemma buttons_write_block {A} op (m : M A) u w :
  helper_call op m ->
  buttons [EvUi u] = [] ->
  buttons (events (try_except_Error (m ;; st u ;; st_rerun) show_mysql_error w)) = [].
Proof.
  intros Hm Hu. pose proof (buttons_helper op m w Hm) as Hb.
  destruct (Hm w) as (_ & Herr & _).
  unfold try_except_Error, bind.
  destruct (m w) as [o w' evs]. cbn [out final events] in *.
  destruct o as [a|e].
  - cbn [st st_rerun raise emit out final events]. rewrite !buttons_app, Hb, Hu. reflexivity.
  - destruct (Herr e eq_refl) as (msg & ->).
    cbn [show_mysql_error st emit out final events]. rewrite buttons_app, Hb. reflexivity.
Qed.

(** X11.  On the student's Opportunities page the row of an opportunity with
    [d] days left shows one button, keyed by the opportunity: [Applied]
    (disabled) when the student has applied already, else [Expired]
    (disabled) when [d < 0], else [Apply]; and [sp_create_application] is
    called, once, exactly when the button is enabled and pressed: never for
    an opportunity that is past its deadline or that the student has applied
    to. *)
Theorem apply_offered_when_open_and_not_applied :
  forall env inp sid my_cgpa applied_set r d w,
    col r "days_left" = sql_int d ->
    let res := opportunity_student_row env inp sid my_cgpa applied_set r w in
    let already := existsb (value_eqb (col r "opportunity_id")) applied_set in
    let expired := is_past d in
    let key := fstr ["apply_"; py_str (col r "opportunity_id")] in
    buttons (events res)
    = [StButton (if already then "Applied" else if expired then "Expired" else "Apply")
         key (expired || already)]
    /\ proc_calls (events res)
       = (if negb (expired || already) && clicked inp key
          then [OpCallProc "sp_create_application" [sid; col r "opportunity_id"; VInt 0]]
          else []).
Proof.
  intros env inp sid my_cgpa applied_set r d w Hd. cbv zeta.
  unfold opportunity_student_row. peel. cbn [buttons proc_calls].
  assert (Hb : out (deadline_badge r w) = Ok tt) by now rewrite (deadline_badge_run r d w Hd).
  rewrite (bind_ok _ _ _ _ Hb), (deadline_badge_run r d w Hd).
  cbn [out final events List.app buttons proc_calls].
  assert (He : out (is_expired r w) = Ok (is_past d)) by now rewrite (is_expired_run r d w Hd).
  rewrite (bind_ok _ _ _ _ He), (is_expired_run r d w Hd).
  cbn [out final events List.app]. cbv zeta.
  rewrite (bind_ok _ _ _ _ (button_out inp _ _ _ _)), button_events, button_final.
  cbn [events List.app buttons proc_calls].
  split.
  - f_equal.
    + f_equal. destruct (existsb _ applied_set), (is_past d); reflexivity.
    + destruct (negb _ && _); cbn [when]; [|reflexivity].
      unfold apply_for. eapply buttons_write_block; [apply helper_call_call_proc|reflexivity].
  - destruct (negb _ && _); cbn [when]; [|reflexivity]. apply apply_for_one_call.
Qed.

(** *** What a select box hands to the statement *)








(** X13.  A listed application whose status is none of the six (or a listed
    interview whose result is none of the four) ends its page: the
    [.index(...)] of the select box raises [ValueError], which nothing
    catches, before any button of the row is drawn and with no helper called
    for the row. *)
Theorem unlisted_status_ends_the_page :
  forall env inp r w,
    (index_from STATUSES (col r "status") 0 = None ->
     let res := application_row env inp r w in
     (exists what, out res = Exc (ValueError what))
     /\ buttons (events res) = [] /\ ops (events res) = [])
    /\ (index_from RESULTS (col r "result") 0 = None ->
        let res := interview_row env inp r w in
        (exists what, out res = Exc (ValueError what))
        /\ buttons (events res) = [] /\ ops (events res) = []).
Proof.
  intros env inp r w. split; intros Hi; cbv zeta.
  - unfold application_row.
    destruct (py_truthy (col r "remarks")); cbn [when]; peel; cbn [buttons ops];
      unfold index_of; rewrite Hi;
      rewrite (bind_exc (raise _) _ _ _ eq_refl); cbn [raise out final events];
      repeat split; eexists; reflexivity.
  - unfold interview_row. peel. cbn [buttons ops].
    unfold index_of. rewrite Hi.
    rewrite (bind_exc (raise _) _ _ _ eq_refl). cbn [raise out final events].
    repeat split. eexists. reflexivity.
Qed.

(** *** Forms whose select box lists rows of the database *)

Lemma dict_fold_inv {A V} (label : A -> string) (val : A -> V) xs d k v :
  dict_get (fold_left (fun d x => dict_set d (label x) (val x)) xs d) k = Some v ->
  (exists x, In x xs /\ label x = k /\ val x = v) \/ dict_get d k = Some v.
Proof.
  revert d. induction xs as [|x xs IH]; intros d Hget; simpl in *; auto.
  destruct (IH _ Hget) as [(y & Hy & Hl & Hv)|Hd].
  - left. exists y. auto.
  - destruct (dict_get_set_inv _ _ _ _ _ Hd) as [[Hl Hv]|Hd']; auto.
    left. exists x. auto.
Qed.

Lemma dict_fold_nonempty {A V} (label : A -> string) (val : A -> V) xs d :
  d <> [] -> dict_keys (fold_left (fun d x => dict_set d (label x) (val x)) xs d) <> [].
Proof.
  revert d. induction xs as [|x xs IH]; intros d Hd; simpl.
  - destruct d; [congruence|discriminate].
  - apply IH. intros E. apply (dict_keys_set_nonempty d (label x) (val x)). now rewrite E.
Qed.

(** A select box over the keys of a dictionary that holds an entry of
    its own besides those of the rows [xs]: what it returns is a key, and
    the value under it is that entry's or comes from a row. *)
Lemma selectbox_fold {A} inp key (label : A -> string) (val : A -> value) xs k0 v0 :
  let d := fold_left (fun d x => dict_set d (label x) (val x)) xs [(k0, v0)] in
  exists s v,
    selectbox inp key (dict_keys d) = Some s
    /\ dict_get d s = Some v
    /\ (v = v0 \/ exists x, In x xs /\ v = val x).
Proof.
  cbv zeta.
  set (d := fold_left (fun d x => dict_set d (label x) (val x)) xs [(k0, v0)]).
  destruct (selectbox_at_in inp key (dict_keys d) 0) as (s & Hs & Hin).
  { apply dict_fold_nonempty. discriminate. }
  destruct (dict_get_in_keys d s Hin) as (v & Hv).
  exists s, v. split; [exact Hs|]. split; [exact Hv|].
  destruct (dict_fold_inv _ _ _ _ _ _ Hv) as [(x & Hx & _ & <-)|Hd]; eauto.
  simpl in Hd. destruct (String.eqb k0 s); [|discriminate].
  injection Hd as <-. now left.
Qed.

(** X14.  The three forms whose select box lists rows only (an application
    to schedule, the office of an opportunity, the opportunity of an
    assessment): submitted when there is no such row, the select box has
    returned [None], the look-up of the chosen row in the form's dictionary
    raises [KeyError], which the form's [except Error] does not catch: the
    run ends with it, and nothing is written. *)
Theorem forms_without_a_row_to_choose_raise :
  forall env inp w,
    (clicked inp "schedule_interview/Schedule" = true ->
     out (query env LIST_APPLICATIONS [] w) = Ok [] ->
     let res := schedule_interview env inp w in
     out res = Exc (KeyError "None")
     /\ ops (events res) = [(OpQuery LIST_APPLICATIONS [], Returned)])
    /\ (clicked inp "add_opp/Create" = true ->
        out (query env LIST_OFFICES [] w) = Ok [] ->
        let res := add_opportunity env inp w in
        out res = Exc (KeyError "None")
        /\ ops (events res) = [(OpQuery LIST_OFFICES [], Returned)])
    /\ (clicked inp "add_assessment/Create" = true ->
        out (query env LIST_OPPORTUNITIES [] w) = Ok [] ->
        let res := add_assessment env inp w in
        out res = Exc (KeyError "None")
        /\ ops (events res) = [(OpQuery LIST_OPPORTUNITIES [], Returned)]).
Proof.
  intros env inp w. split; [|split]; intros Hc Hq; cbv zeta.
  - pose proof (ops_helper _ _ w (helper_call_query env LIST_APPLICATIONS [])) as Hops.
    rewrite Hq in Hops. cbn [result_of] in Hops.
    unfold schedule_interview.
    change "SELECT a.application_id, s.first_name, s.last_name, o.title, o.company FROM application a JOIN student s ON s.student_id=a.student_id JOIN opportunity o ON o.opportunity_id=a.opportunity_id ORDER BY a.application_id DESC"
      with LIST_APPLICATIONS.
    rewrite (bind_ok _ _ _ _ Hq). cbv zeta. cbn [out final events].
    rewrite (bind_ok _ _ _ _ (form_submit_button_out inp _ _ _)).
    rewrite form_submit_button_events, form_submit_button_final.
    change (fstr ["schedule_interview"; "/"; "Schedule"]) with "schedule_interview/Schedule".
    rewrite Hc. cbn [when out final events dict_of fold_left dict_keys map selectbox
      selectbox_at getitem].
    rewrite try_passed; rewrite (bind_exc (raise _) _ _ _ eq_refl); [|reflexivity].
    cbn [raise out final events]. rewrite !ops_app, Hops. split; reflexivity.
  - pose proof (ops_helper _ _ w (helper_call_query env LIST_OFFICES [])) as Hops.
    rewrite Hq in Hops. cbn [result_of] in Hops.
    unfold add_opportunity.
    change "SELECT office_id, name FROM placement_office ORDER BY office_id"
      with LIST_OFFICES.
    rewrite (bind_ok _ _ _ _ Hq). cbv zeta. cbn [out final events].
    rewrite (bind_ok _ _ _ _ (form_submit_button_out inp _ _ _)).
    rewrite form_submit_button_events, form_submit_button_final.
    change (fstr ["add_opp"; "/"; "Create"]) with "add_opp/Create".
    rewrite Hc. cbn [when out final events dict_of fold_left dict_keys map selectbox
      selectbox_at getitem].
    rewrite try_passed; rewrite (bind_exc (raise _) _ _ _ eq_refl); [|reflexivity].
    cbn [raise out final events]. rewrite !ops_app, Hops. split; reflexivity.
  - pose proof (ops_helper _ _ w (helper_call_query env LIST_OPPORTUNITIES [])) as Hops.
    rewrite Hq in Hops. cbn [result_of] in Hops.
    unfold add_assessment.
    change "SELECT opportunity_id, title, company FROM opportunity ORDER BY opportunity_id DESC"
      with LIST_OPPORTUNITIES.
    rewrite (bind_ok _ _ _ _ Hq). cbv zeta. cbn [out final events].
    rewrite (bind_ok _ _ _ _ (form_submit_button_out inp _ _ _)).
    rewrite form_submit_button_events, form_submit_button_final.
    change (fstr ["add_assessment"; "/"; "Create"]) with "add_assessment/Create".
    rewrite Hc. cbn [when out final events dict_of fold_left dict_keys map selectbox
      selectbox_at getitem].
    rewrite try_passed; rewrite (bind_exc (raise _) _ _ _ eq_refl); [|reflexivity].
    cbn [raise out final events]. rewrite !ops_app, Hops. split; reflexivity.
Qed.

(** The submitted [Create App User] form: the listing query, then the
    INSERT, whose end is the end of the form. *)
Lemma create_user_run env inp w students :
  clicked inp "add_user/Create" = true ->
  out (query env LIST_STUDENTS [] w) = Ok students ->
  exists role link,
    In role ["ADMIN"; "STUDENT"]
    /\ (link = VNone \/ exists s, In s students /\ link = col s "student_id")
    /\ let e := execute env INSERT_USER (new_user_params env inp role link)
                  (final (query env LIST_STUDENTS [] w)) in
       ops (events (create_user env inp w))
       = [(OpQuery LIST_STUDENTS [], Returned);
          (OpExecute INSERT_USER (new_user_params env inp role link), result_of (out e))]
       /\ final (create_user env inp w) = final e.
Proof.
  intros Hc Hq.
  pose proof (ops_helper _ _ w (helper_call_query env LIST_STUDENTS [])) as Hops.
  rewrite Hq in Hops. cbn [result_of] in Hops.
  destruct (selectbox_at_in inp "add_user/Role*" ["ADMIN"; "STUDENT"] 0 ltac:(discriminate))
    as (role & Hrole & Hrin).
  destruct (selectbox_fold inp "add_user/Link to Student (for STUDENT)"
              student_link_label (fun s => col s "student_id") students "-- none --" VNone)
    as (s & link & Hsel & Hget & Hlink).
  exists role, link. split; [exact Hrin|]. split; [exact Hlink|]. cbv zeta.
  unfold create_user. cbv zeta.
  change "SELECT student_id, CONCAT(first_name,' ',last_name,' (',roll_no,')') AS nm FROM student ORDER BY student_id"
    with LIST_STUDENTS.
  change "INSERT INTO users(username, password_hash, role, student_id) VALUES (%s,%s,%s,%s)"
    with INSERT_USER.
  rewrite (bind_ok _ _ _ _ Hq). cbn [out final events].
  rewrite (bind_ok _ _ _ _ (form_submit_button_out inp _ _ _)).
  rewrite form_submit_button_events, form_submit_button_final.
  change (fstr ["add_user"; "/"; "Create"]) with "add_user/Create".
  rewrite Hc. cbn [when out final events].
  rewrite Hsel. unfold selectbox. rewrite Hrole. unfold getitem. rewrite Hget.
  fold (new_user_params env inp role link).
  set (w1 := final (query env LIST_STUDENTS [] w)).
  rewrite !ops_app, Hops. cbn [ops List.app]. rewrite ops_try.
  rewrite (bind_ok (ret link) _ _ link eq_refl). cbn [ret out final events List.app].
  fold (new_user_params env inp role link).
  rewrite ops_then_st.
  rewrite (ops_helper _ _ _ (helper_call_execute env INSERT_USER _)).
  split; [reflexivity|].
  destruct (helper_call_execute env INSERT_USER (new_user_params env inp role link) w1)
    as (_ & Herr & _).
  unfold try_except_Error, bind, new_user_params in *.
  cbn [ret out final events opt_str] in *.
  match goal with
  | |- context [execute env INSERT_USER ?p w1] =>
      destruct (execute env INSERT_USER p w1) as [o w2 evs]
  end.
  cbn [out final events] in *.
  destruct o as [n|e]; cbn [st emit out final events]; [reflexivity|].
  destruct (Herr e eq_refl) as (msg & ->). reflexivity.
Qed.

(** X15.  The dictionary of [Create App User] holds a [none] entry of its
    own, so the look-up of what the select box returned always succeeds:
    once the form is submitted, with the listing query answered, it issues
    its INSERT, and exactly that. The INSERT carries the typed username, the
    SHA-256 hex digest of the typed password (the password itself is passed
    to nothing but the digest), one of the two roles, and [None] or the
    [student_id] of a listed student. *)
Theorem create_user_stores_the_digest :
  forall env inp w students,
    clicked inp "add_user/Create" = true ->
    out (query env LIST_STUDENTS [] w) = Ok students ->
    let username := text_input inp "add_user/Username*" "" in
    let pwd := text_input inp "add_user/Password*" "" in
    exists role link res,
      ops (events (create_user env inp w))
      = [(OpQuery LIST_STUDENTS [], Returned);
         (OpExecute INSERT_USER
            [VStr username; VStr (sha256_hex env pwd); VStr role; link], res)]
      /\ In role ["ADMIN"; "STUDENT"]
      /\ (link = VNone \/ exists s, In s students /\ link = col s "student_id").
Proof.
  intros env inp w students Hc Hq. cbv zeta.
  destruct (create_user_run env inp w students Hc Hq) as (role & link & Hr & Hl & Hops & _).
  exists role, link. eexists. split; [exact Hops|]. split; assumption.
Qed.

(** ** Text and numbers *)

Lemma digit_val_range c : is_digit c = true -> 0 <= digit_val c <= 9.
Proof.
  unfold is_digit, digit_val. intros H. apply andb_true_iff in H. destruct H as [H1 H2].
  apply Nat.leb_le in H1, H2. lia.
Qed.

Lemma lstrip_plain c cs : is_space c = false -> lstrip (c :: cs) = c :: cs.
Proof. intros H. simpl. now rewrite H. Qed.

(** [strip] leaves a text alone that neither begins nor ends with white
    space. *)
Lemma strip_plain c cs z :
  is_space c = false -> is_space z = false -> strip (c :: cs ++ [z]) = c :: cs ++ [z].
Proof.
  intros Hc Hz. unfold strip. rewrite lstrip_plain by assumption.
  cbn [rev]. rewrite rev_app_distr. cbn [rev List.app].
  rewrite lstrip_plain by assumption.
  cbn [rev]. rewrite rev_app_distr, rev_involutive. reflexivity.
Qed.

Lemma strip_single c : is_space c = false -> strip [c] = [c].
Proof. intros Hc. unfold strip. simpl. rewrite Hc. simpl. now rewrite Hc. Qed.

Lemma strip_digits cs : forallb is_digit cs = true -> strip cs = cs.
Proof.
  intros H. destruct cs as [|c cs]; [reflexivity|].
  simpl in H. apply andb_true_iff in H. destruct H as [Hc Hcs].
  destruct (digit_is_plain c Hc) as (Sc & _).
  destruct (exists_last (l := c :: cs) ltac:(discriminate)) as (l & z & E).
  destruct l as [|c' l].
  - simpl in E. injection E as -> ->. now apply strip_single.
  - simpl in E. injection E as <- ->.
    rewrite forallb_app in Hcs. apply andb_true_iff in Hcs. destruct Hcs as [_ Hz].
    simpl in Hz. rewrite andb_true_r in Hz.
    destruct (digit_is_plain z Hz) as (Sz & _). now apply strip_plain.
Qed.

Lemma digitpart_more_digits cs :
  forallb is_digit cs = true -> digitpart_more cs = (cs, []).
Proof.
  induction cs as [|c cs IH]; simpl; intros H; [reflexivity|].
  apply andb_true_iff in H. destruct H as [Hc Hcs]. now rewrite Hc, IH.
Qed.

Lemma digitpart_digits c cs :
  forallb is_digit (c :: cs) = true -> digitpart (c :: cs) = Some (c :: cs, []).
Proof.
  simpl. intros H. apply andb_true_iff in H. destruct H as [Hc Hcs].
  now rewrite Hc, digitpart_more_digits.
Qed.

Lemma digits_val_bound cs acc :
  forallb is_digit cs = true -> 0 <= acc ->
  let r := fold_left (fun a c => 10 * a + digit_val c) cs acc in
  acc * 10 ^ Z.of_nat (List.length cs) <= r < (acc + 1) * 10 ^ Z.of_nat (List.length cs).
Proof.
  revert acc. induction cs as [|c cs IH]; intros acc H Hacc; cbv zeta.
  - simpl. lia.
  - simpl in H. apply andb_true_iff in H. destruct H as [Hc Hcs].
    pose proof (digit_val_range c Hc) as Hr.
    cbn [fold_left List.length]. rewrite Nat2Z.inj_succ, Z.pow_succ_r by lia.
    specialize (IH (10 * acc + digit_val c) Hcs ltac:(lia)). cbv zeta in IH.
    assert (0 < 10 ^ Z.of_nat (List.length cs)) by (apply Z.pow_pos_nonneg; lia).
    nia.
Qed.

(** [int()] of a text of digits is the number they write. *)
Lemma py_int_digits s :
  isdigit s = true ->
  py_int s = Some (digits_val (list_ascii_of_string s))
  /\ 0 <= digits_val (list_ascii_of_string s) < 10 ^ py_len s.
Proof.
  unfold isdigit, py_int, py_len. intros H.
  destruct (list_ascii_of_string s) as [|c cs] eqn:E; [discriminate|].
  rewrite strip_digits by assumption.
  pose proof H as H'. simpl in H'. apply andb_true_iff in H'. destruct H' as [Hc _].
  destruct (digit_is_plain c Hc) as (_ & Mc & Pc).
  unfold split_sign. rewrite Mc, Pc. rewrite digitpart_digits by assumption.
  split; [reflexivity|].
  pose proof (digits_val_bound (c :: cs) 0 H ltac:(lia)) as Hb. cbv zeta in Hb.
  unfold digits_val.
  assert (El : String.length s = List.length (c :: cs)).
  { rewrite <- E. clear. induction s; simpl; auto. }
  rewrite El. lia.
Qed.

(** X16.  For ASCII text: a Batch that passes the check of the [Add Student]
    form (all digits, four characters) is read by [int()], which then does
    not raise, as a year from 0 to 9999. *)
Theorem validated_batch_reads_as_a_year :
  forall s,
    all_ascii s = true ->
    isdigit s = true -> py_len s = 4 ->
    exists n, py_int s = Some n /\ 0 <= n <= 9999.
Proof.
  intros s _ Hd Hl. destruct (py_int_digits s Hd) as (Hi & Hb).
  rewrite Hl in Hb. exists (digits_val (list_ascii_of_string s)).
  split; [exact Hi|]. change (10 ^ 4) with 10000 in Hb. lia.
Qed.

(** *** The Add Student form on well-formed input *)


(** *** [int(str(n))] *)

Lemma uint_val_of_lu d a :
  Z.of_N (DecimalPos.Unsigned.of_lu (Decimal.revapp d a))
  = uint_val d (Z.of_N (DecimalPos.Unsigned.of_lu a)).
Proof.
  revert a. induction d; intros a; cbn [Decimal.revapp uint_val]; auto;
    rewrite IHd; f_equal; rewrite DecimalPos.Unsigned.of_lu_eqn;
    cbn [DecimalPos.Unsigned.hd DecimalPos.Unsigned.tl]; lia.
Qed.

Lemma uint_val_to_uint p : uint_val (Pos.to_uint p) 0 = Z.pos p.
Proof.
  change 0 with (Z.of_N (DecimalPos.Unsigned.of_lu Decimal.Nil)).
  rewrite <- uint_val_of_lu.
  change (Decimal.revapp (Pos.to_uint p) Decimal.Nil) with (Decimal.rev (Pos.to_uint p)).
  rewrite <- DecimalPos.Unsigned.of_uint_alt, DecimalPos.Unsigned.of_to. reflexivity.
Qed.

Lemma digits_of_uint d acc :
  fold_left (fun a c => 10 * a + digit_val c)
    (list_ascii_of_string (NilEmpty.string_of_uint d)) acc
  = uint_val d acc
  /\ forallb is_digit (list_ascii_of_string (NilEmpty.string_of_uint d)) = true.
Proof.
  revert acc. induction d; intros acc;
    cbn [NilEmpty.string_of_uint list_ascii_of_string fold_left forallb uint_val];
    [split; reflexivity|..];
    match goal with
    | |- fold_left _ _ ?x = _ /\ _ => destruct (IHd x) as [Hv Hd]
    end;
    (split; [rewrite Hv; f_equal; vm_compute digit_val; lia|rewrite Hd; reflexivity]).
Qed.

Lemma string_of_uint_nonnil d :
  d <> Decimal.Nil -> NilZero.string_of_uint d = NilEmpty.string_of_uint d.
Proof. destruct d; auto. congruence. Qed.

(** [int(str(n)) == n] *)
Lemma py_int_str n : py_int (str_of_Z n) = Some n.
Proof.
  assert (Hpos : forall p,
             let cs := list_ascii_of_string (NilEmpty.string_of_uint (Pos.to_uint p)) in
             forallb is_digit cs = true /\ digits_val cs = Z.pos p /\ cs <> []).
  { intros p. cbv zeta. destruct (digits_of_uint (Pos.to_uint p) 0) as [Hv Hd].
    split; [exact Hd|]. split.
    - unfold digits_val. rewrite Hv. apply uint_val_to_uint.
    - pose proof (DecimalPos.Unsigned.to_uint_nonnil p) as Hn.
      destruct (Pos.to_uint p); try congruence; discriminate. }
  unfold str_of_Z. destruct n as [|p|p]; [reflexivity| |]; cbn [Z.to_int NilZero.string_of_int].
  - rewrite string_of_uint_nonnil by apply DecimalPos.Unsigned.to_uint_nonnil.
    destruct (Hpos p) as (Hd & Hv & Hne).
    assert (Hi : isdigit (NilEmpty.string_of_uint (Pos.to_uint p)) = true).
    { unfold isdigit. destruct (list_ascii_of_string _); [congruence|exact Hd]. }
    destruct (py_int_digits _ Hi) as (-> & _). now rewrite Hv.
  - rewrite string_of_uint_nonnil by apply DecimalPos.Unsigned.to_uint_nonnil.
    destruct (Hpos p) as (Hd & Hv & Hne).
    unfold py_int. cbn [list_ascii_of_string].
    destruct (list_ascii_of_string (NilEmpty.string_of_uint (Pos.to_uint p)))
      as [|c cs] eqn:E; [congruence|].
    destruct (exists_last (l := c :: cs) ltac:(discriminate)) as (l & z & El).
    assert (Hz : is_digit z = true).
    { rewrite El, forallb_app in Hd. apply andb_true_iff in Hd. destruct Hd as [_ Hd].
      simpl in Hd. now rewrite andb_true_r in Hd. }
    destruct (digit_is_plain z Hz) as (Sz & _).
    rewrite El. rewrite (strip_plain "-"%char l z eq_refl Sz).
    cbn [split_sign Ascii.eqb Bool.eqb]. rewrite <- El.
    rewrite digitpart_digits by assumption. now rewrite Hv.
Qed.

(** *** The edit form of a student *)

Ltac edit_form_pressed inp row Hc :=
  unfold edit_student; cbv zeta;
  fold (edit_form row); fold (edit_batch inp row); fold (edit_cgpa inp row);
  change "UPDATE student SET roll_no=%s, first_name=%s, last_name=%s, email=%s, phone=%s, department=%s, batch=%s, cgpa=%s WHERE student_id=%s"
    with UPDATE_STUDENT;
  rewrite (bind_ok _ _ _ _ (form_submit_button_out inp _ _ _));
  rewrite form_submit_button_events, form_submit_button_final;
  rewrite Hc; cbn [when out final events List.app ops];
  unfold int_of, float_of.

(** With the Batch and the CGPA read, the submitted edit form issues its
    UPDATE first. *)
Lemma edit_student_updates env inp row w b c :
  clicked inp (fstr [edit_form row; "/"; "Update"]) = true ->
  py_int (edit_batch inp row) = Some b ->
  py_float (edit_cgpa inp row) = Some c ->
  exists r rest,
    ops (events (edit_student env inp row w))
    = (OpExecute UPDATE_STUDENT (edit_params inp row b c), r) :: rest.
Proof.
  intros Hc Hb Hf. edit_form_pressed inp row Hc. rewrite Hb, Hf.
  set (body := (b0 <- ret b ;; _)).
  assert (Hbody : exists r,
             ops (events (body w)) = [(OpExecute UPDATE_STUDENT (edit_params inp row b c), r)]).
  { subst body. rewrite (bind_ok (ret b) _ _ b eq_refl). cbn [ret out final events List.app].
    rewrite (bind_ok (ret c) _ _ c eq_refl). cbn [ret out final events List.app].
    pose proof (ops_helper _ _ w
                  (helper_call_execute env UPDATE_STUDENT (edit_params inp row b c))) as Ho.
    unfold bind. unfold edit_params in *.
    destruct (execute env UPDATE_STUDENT _ w) as [o w' evs]. cbn [out final events] in *.
    destruct o as [n|e]; cbn [st st_rerun raise emit out final events];
      rewrite ?ops_app, Ho; eexists; reflexivity. }
  destruct Hbody as (r & Hbody). exists r.
  unfold bind at 1. rewrite <- (ops_try body w) in Hbody.
  destruct (out (try_except_Error body show_mysql_error w)); cbn [events];
    rewrite ?ops_app, Hbody; eexists; reflexivity.
Qed.


(** X19.  The fields of the edit form are opened on the row's own values,
    the Batch as [str(row['batch'])]; [int()] reads that text back as the
    same number. So with nothing typed into the form of a row whose batch is
    the integer [n] and whose CGPA [float()] reads as [c], [Update] writes
    the row's own values back: the UPDATE carries the row's eight columns,
    the batch as [n]. *)
Theorem untouched_edit_form_writes_the_row_back :
  forall env inp row w n c,
    (forall key, typed inp key = None) ->
    clicked inp (fstr [edit_form row; "/"; "Update"]) = true ->
    col row "batch" = VInt n ->
    py_float (py_str (col row "cgpa")) = Some c ->
    py_int (py_str (VInt n)) = Some n
    /\ exists r rest,
         ops (events (edit_student env inp row w))
         = (OpExecute UPDATE_STUDENT
              [col row "roll_no"; col row "first_name"; col row "last_name";
               col row "email"; col row "phone"; col row "department";
               VInt n; c; col row "student_id"], r) :: rest.
Proof.
  intros env inp row w n c Hno Hc Hb Hf.
  split; [apply py_int_str|].
  assert (Ep : edit_params inp row n c
               = [col row "roll_no"; col row "first_name"; col row "last_name";
                  col row "email"; col row "phone"; col row "department";
                  VInt n; c; col row "student_id"]).
  { unfold edit_params, text_input_value. now rewrite !Hno. }
  rewrite <- Ep.
  apply edit_student_updates; [exact Hc| |].
  - unfold edit_batch, text_input. rewrite Hno, Hb. apply py_int_str.
  - unfold edit_cgpa, text_input. now rewrite Hno.
Qed.

(** ** A created user logs in *)








(** ** The Applications page and the tables *)

Lemma status_only_refl r : status_only r r.
Proof. intros k _. reflexivity. Qed.

Lemma applications_frame_refl d : applications_frame d d.
Proof.
  split; [|split; [|split]]; auto.
  - intros r Hr. exists r. split; [exact Hr|apply status_only_refl].
  - exists []. split; [now rewrite app_nil_r|constructor].
Qed.

Lemma applications_frame_trans a b c :
  applications_frame a b -> applications_frame b c -> applications_frame a c.
Proof.
  intros (A1 & (x & L1 & F1) & U1 & S1) (A2 & (y & L2 & F2) & U2 & S2).
  split; [|split; [|split]]; try congruence.
  - intros r'' Hr''. destruct (A2 _ Hr'') as (r' & Hr' & K2).
    destruct (A1 _ Hr') as (r & Hr & K1). exists r. split; [exact Hr|].
    intros k Hk. now rewrite K2, K1.
  - exists (x ++ y). split; [now rewrite L2, L1, app_assoc|now apply Forall_app].
Qed.

#[local] Instance applications_kept_TraceProp : TraceProp applications_kept.
Proof.
  split; unfold applications_kept.
  - intros w. apply applications_frame_refl.
  - intros w w1 w2 _ a b. apply applications_frame_trans.
  - intros w u. apply applications_frame_refl.
  - intros w a. apply applications_frame_refl.
Qed.

#[local] Instance applications_kept_Blind : Blind applications_kept.
Proof. intros w o o' w' evs Hp. exact Hp. Qed.

(** An [execute] keeps a relation on databases that its statement keeps. *)
Lemma execute_keeps env sql params (F : Db -> Db -> Prop) w :
  (forall d, F d d) ->
  (forall t d d' cur, run_statement env t sql params d = inr (d', cur) -> F d d') ->
  F (db w) (db (final (execute env sql params w))).
Proof.
  intros Hrefl Hrun.
  destruct (execute_db env sql params w) as [(cur & Hr & _)|(msg & _ & ->)]; eauto.
Qed.

Lemma sql_update_status_only t key id v r' :
  In r' (sql_update t key id (fun r => set_col r "status" v)) ->
  exists r, In r t /\ status_only r r'.
Proof.
  unfold sql_update. intros Hin. apply in_map_iff in Hin. destruct Hin as (r & <- & Hr).
  exists r. split; [exact Hr|]. destruct (sql_eq (col r key) id).
  - intros k Hk. apply col_set_col_other. congruence.
  - apply status_only_refl.
Qed.

Lemma applications_frame_update d t' :
  (forall r', In r' t' -> exists r, In r (application d) /\ status_only r r') ->
  applications_frame d (set_application d t').
Proof.
  intros Ht. split; [exact Ht|]. split; [|split]; auto.
  exists []. split; [now rewrite app_nil_r|constructor].
Qed.

Lemma applications_frame_audit d a :
  page_audit_row a ->
  applications_frame d (set_application_audit d (application_audit d ++ [a])).
Proof.
  intros Ha. split; [|split; [|split]]; auto.
  - intros r Hr. exists r. split; [exact Hr|apply status_only_refl].
  - exists [a]. split; [reflexivity|]. constructor; [exact Ha|constructor].
Qed.

Ltac applications_kept_atom :=
  idtac;
  lazymatch goal with
  | |- always _ (query _ _ _) =>
      let w := fresh "w" in
      intros w; unfold applications_kept; rewrite query_keeps_db;
      apply applications_frame_refl
  | |- always _ (execute _ _ _) =>
      let w := fresh "w" in
      let E := fresh "E" in
      intros w; unfold applications_kept;
      apply execute_keeps; [apply applications_frame_refl|];
      intros ? ? ? ? E;
      first [ rewrite run_statement_update_status in E
            | rewrite run_statement_update_withdrawn in E
            | rewrite run_statement_insert_audit_status in E
            | rewrite run_statement_insert_audit_withdraw in E
            | rewrite run_statement_delete_application in E ];
      injection E as <- _;
      first [ apply applications_frame_update; intros ? ?;
              first [ eapply sql_update_status_only; eassumption
                    | eexists; split; [eapply sql_delete_incl; eassumption
                                      |apply status_only_refl] ]
            | apply applications_frame_audit;
              first [left; do 2 eexists; reflexivity | right; eexists; reflexivity] ]
  | |- always _ (try_except_Error _ _) => apply always_try; [|intros ?]
  end.

(** X21.  Whatever is pressed on the admin's Applications page, its
    statements, each doing what its SQL text says (what the triggers of
    the schema add is not in the sources), leave [users] and [student] as
    they were; every application afterwards is one that was there before,
    changed in its [status] at most (applications may be deleted); and
    [application_audit] is only appended to: the audit rows that were
    there are still there, in place, and each row added is a
    [STATUS_CHANGE] or a [WITHDRAW] row of the page. *)
Theorem applications_page_changes_status_only :
  forall env inp w,
    let d := db w in
    let d' := db (final (page_applications_admin env inp w)) in
    (forall r', In r' (application d') -> exists r, In r (application d) /\ status_only r r')
    /\ (exists added,
           application_audit d' = application_audit d ++ added
           /\ Forall page_audit_row added)
    /\ users d' = users d
    /\ student d' = student d.
Proof.
  intros env inp w. cbv zeta.
  assert (Ha : always applications_kept (page_applications_admin env inp))
    by walk applications_kept_atom.
  exact (Ha w).
Qed.

(** ** The two workflows, together *)

(** C5.  Submitting the [Schedule Interview] form with an application
    selected makes exactly one stored-procedure call,
    [sp_schedule_interview] on the selected application's id, the combined
    date and time, the mode, the venue and the panel.  Pressing [Apply]
    makes exactly one, [sp_create_application(student_id, opportunity_id, 0)].
    And no run of the script issues a statement that starts with
    [INSERT INTO interview] or [INSERT INTO application]. *)
Theorem workflows_call_stored_procedures :
  forall env inp w,
    (clicked inp "schedule_interview/Schedule" = true ->
     forall apps,
       out (query env LIST_APPLICATIONS [] w) = Ok apps ->
       apps <> [] ->
       exists app,
         In app apps
         /\ selectbox inp "schedule_interview/Application*"
              (dict_keys (dict_of application_label (fun a => col a "application_id") apps))
            = Some (application_label app)
         /\ proc_calls (events (schedule_interview env inp w))
            = [schedule_call inp (col app "application_id")])
    /\ (forall student_id r,
           proc_calls (events (apply_for env student_id r w))
           = [OpCallProc "sp_create_application"
                [student_id; col r "opportunity_id"; VInt 0]])
    /\ Forall no_direct_insert (events (main env inp w)).
Proof.
  intros env inp w. split; [|split].
  - intros Hclick apps Hq Hne. now apply schedule_interview_one_call.
  - intros student_id r. apply apply_for_one_call.
  - apply (no_direct_insert_main env inp w).
Qed.

(** ** Examples *)

(** C4 as stated fails: the UPDATE of the status returned and was
    committed, the audit INSERT raised, and [application_audit] has no row
    for the change. *)
Lemma status_changed_without_audit_row :
  In (OpExecute UPDATE_STATUS [VStr "OFFERED"; VInt 3], Returned) (ops (events audit_lost_run))
  /\ map (fun a => col a "status") (application (db (final audit_lost_run))) = [VStr "OFFERED"]
  /\ application_audit (db (final audit_lost_run)) = []
  /\ ~ (forall env inp w aid new_status,
           let res := page_applications_admin env inp w in
           In (OpExecute UPDATE_STATUS [new_status; aid], Returned) (ops (events res)) ->
           exists details,
             In (audit_row aid "STATUS_CHANGE" details)
                (application_audit (db (final res)))).
Proof.
  assert (H1 : In (OpExecute UPDATE_STATUS [VStr "OFFERED"; VInt 3], Returned)
                  (ops (events audit_lost_run))).
  { vm_compute. right. now left. }
  assert (H3 : application_audit (db (final audit_lost_run)) = []) by (vm_compute; reflexivity).
  split; [exact H1|]. split; [vm_compute; reflexivity|]. split; [exact H3|].
  intros Hclaim.
  destruct (Hclaim _ _ _ _ _ H1) as (details & Hin).
  fold audit_lost_run in Hin. rewrite H3 in Hin. exact Hin.
Qed.

(** C7 as stated fails: the listing query of the Students page raises, no
    message is put on the page, and the run ends with the error. *)
Lemma query_error_is_not_shown :
  out server_down_run = Exc (MySQLError "2003: Can't connect to MySQL server")
  /\ existsb is_st_error (events server_down_run) = false
  /\ surfaced every_op (events server_down_run) = false
  /\ ~ (forall env inp w, surfaced every_op (events (main env inp w)) = true).
Proof.
  assert (H3 : surfaced every_op (events server_down_run) = false) by (vm_compute; reflexivity).
  split; [vm_compute; reflexivity|]. split; [vm_compute; reflexivity|]. split; [exact H3|].
  intros Hclaim. unfold server_down_run in H3. rewrite Hclaim in H3. discriminate.
Qed.

(** C6: every required field is filled and the batch is four digits, yet
    no INSERT is issued and no message is shown: [float("abc")] raises a
    [ValueError], which the [except Error] of the form does not catch. *)
Lemma add_student_cgpa_not_a_number :
  let res := add_student (example_env no_faults []) cgpa_not_a_number (example_world None) in
  isdigit "2027" && (py_len "2027" =? 4) = true
  /\ out res = Exc (ValueError "could not convert string to float: abc")
  /\ ops (events res) = []
  /\ events res = [EvUi (StFormSubmitButton "add_student" "Create")].
Proof. vm_compute. repeat split; reflexivity. Qed.

(** *** Witnesses *)

Lemma authenticate_iff_hash_matches_witness :
  db_up (example_env no_faults []) (example_world None) 3
  /\ unique_username example_db "admin"
  /\ out (authenticate (example_env no_faults []) "admin" "adminpass" (example_world None))
     = Ok (Some (user_record admin_user)).
Proof.
  assert (Hup : db_up (example_env no_faults []) (example_world None) 3).
  { intros i _. reflexivity. }
  assert (Huniq : unique_username example_db "admin").
  { intros u1 u2 H1 H2 N1 N2. simpl in H1, H2.
    destruct H1 as [<-|[<-|[]]]; destruct H2 as [<-|[<-|[]]];
      try reflexivity; discriminate. }
  split; [exact Hup|]. split; [exact Huniq|].
  apply (proj1 (authenticate_iff_hash_matches
                  (example_env no_faults []) (example_world None) "admin" "adminpass"
                  Hup Huniq)).
  exists admin_user. repeat split. now left.
Defined.

Lemma pages_reached_by_role_witness :
  session_auth (example_world (Some admin_session)) = Some admin_session
  /\ admin_session <> []
  /\ reaches (example_env no_faults []) (example_world (Some admin_session)) Page_reports None.
Proof.
  split; [reflexivity|]. split; [discriminate|].
  apply (proj1 (proj2 (proj2 (pages_reached_by_role
                  (example_env no_faults []) (example_world (Some admin_session))
                  admin_session eq_refl
                  ltac:(discriminate)))) eq_refl Page_reports None).
  split; [|reflexivity]. simpl. tauto.
Defined.

Lemma deadline_badge_by_days_left_witness :
  col overdue_opportunity "days_left" = sql_int (Some (-2))
  /\ markdowns (events (opportunity_admin_row (example_env no_faults []) (example_inputs [] [] [])
                          overdue_opportunity (example_world None)))
     = ["---"; expired_badge].
Proof.
  split; [reflexivity|].
  apply (deadline_badge_by_days_left
           (example_env no_faults []) (example_inputs [] [] []) overdue_opportunity
           (Some (-2)) VNone VNone [] (example_world None) eq_refl).
Defined.

Lemma connection_per_operation_witness :
  fresh_ids (example_world None)
  /\ conns (final (execute (example_env no_faults []) UPDATE_WITHDRAWN [VInt 3]
                     (example_world None))) = [].
Proof.
  assert (Hf : fresh_ids (example_world None)) by constructor.
  split; [exact Hf|].
  apply (connection_per_operation (example_env no_faults []) (example_world None)
           UPDATE_WITHDRAWN [VInt 3] Hf).
Defined.

Lemma workflows_call_stored_procedures_witness :
  clicked schedule_inputs "schedule_interview/Schedule" = true
  /\ List.length (proc_calls (events (schedule_interview schedule_env schedule_inputs
                                        (example_world None)))) = 1%nat.
Proof.
  split; [reflexivity|].
  destruct (proj1 (workflows_call_stored_procedures schedule_env schedule_inputs
                     (example_world None))
              eq_refl _ eq_refl ltac:(discriminate)) as (app & _ & _ & ->).
  reflexivity.
Defined.

Lemma delete_offered_unless_admin_witness :
  listing_agrees [admin_user; student_user] example_db
  /\ In admin_user
        (users (db (final (for_each [admin_user; student_user]
                             (user_row (example_env no_faults [])
                                (example_inputs [] [] ["delusr_1"; "delusr_2"]))
                             (example_world None))))).
Proof.
  assert (Hag : listing_agrees [admin_user; student_user] example_db).
  { intros u r Hu Hr Hid. simpl in Hu, Hr.
    destruct Hu as [<-|[<-|[]]]; destruct Hr as [<-|[<-|[]]];
      try reflexivity; discriminate. }
  split; [exact Hag|].
  apply (proj2 (proj2 (proj2 (delete_offered_unless_admin
                  (example_env no_faults []) (example_inputs [] [] ["delusr_1"; "delusr_2"])
                  [admin_user; student_user] admin_user (example_world None)))) Hag).
  - now left.
  - reflexivity.
Defined.

(** ** Further examples *)

Lemma helpers_commit_or_change_nothing_witness :
  exists d' cur,
    run_statement quiet_env 1 SELECT_USER [VStr "admin"] example_db = inr (d', cur)
    /\ [project user_columns admin_user] = cur_rows cur.
Proof.
  apply (proj2 (proj1 (helpers_commit_or_change_nothing quiet_env SELECT_USER [VStr "admin"]
                         (example_world None)))).
  vm_compute. reflexivity.
Defined.

Lemma main_leaves_no_connection_open_witness :
  fresh_ids (example_world (Some admin_session))
  /\ conns (final (main quiet_env nothing_pressed_inputs (example_world (Some admin_session))))
     = [].
Proof.
  assert (Hf : fresh_ids (example_world (Some admin_session))) by constructor.
  split; [exact Hf|].
  apply (proj1 (main_leaves_no_connection_open quiet_env nothing_pressed_inputs
                  (example_world (Some admin_session)) Hf)).
Defined.

Lemma pages_keep_the_session_witness :
  session_auth (final (main quiet_env nothing_pressed_inputs
                         (example_world (Some admin_session))))
  = Some admin_session.
Proof.
  apply (proj2 (pages_keep_the_session quiet_env nothing_pressed_inputs
                  (example_world (Some admin_session)))
           admin_session eq_refl ltac:(discriminate) eq_refl).
Defined.

Lemma logout_ends_the_session_before_any_page_witness :
  clicked logout_inputs "sidebar/Logout" = true
  /\ session_auth (final (main quiet_env logout_inputs (example_world (Some student_session))))
     = None.
Proof.
  split; [reflexivity|].
  apply (logout_ends_the_session_before_any_page quiet_env logout_inputs
           (example_world (Some student_session)) student_session
           eq_refl ltac:(discriminate) eq_refl).
Defined.

Lemma logged_out_run_reaches_no_page_witness :
  session_auth (example_world None) = None
  /\ db (final (main quiet_env login_inputs (example_world None))) = example_db.
Proof.
  split; [reflexivity|].
  apply (logged_out_run_reaches_no_page quiet_env login_inputs (example_world None)
           (or_introl eq_refl)).
Defined.

Lemma login_sets_session_when_authenticated_witness :
  clicked login_inputs "login_form/Login" = true
  /\ session_auth (final (main quiet_env login_inputs (example_world None)))
     = Some admin_session.
Proof.
  split; [reflexivity|].
  apply (login_sets_session_when_authenticated quiet_env login_inputs (example_world None)
           (or_introl eq_refl) eq_refl).
Defined.

Lemma pages_write_only_their_statements_witness :
  page_writes Page_reports = []
  /\ db (final (call_page quiet_env nothing_pressed_inputs Page_reports None
                  (example_world None))) = example_db.
Proof.
  split; [reflexivity|].
  apply (proj2 (pages_write_only_their_statements quiet_env nothing_pressed_inputs
                  Page_reports None (example_world None)
                  (OpQuery "" []) Returned (Execute "")) eq_refl).
Defined.

Lemma student_writes_only_for_own_id_witness :
  col student_session "role" = VStr "STUDENT"
  /\ Forall (own_write (VInt 7))
       (events (main quiet_env apply_inputs (example_world (Some student_session)))).
Proof.
  split; [reflexivity|].
  apply (student_writes_only_for_own_id quiet_env apply_inputs
           (example_world (Some student_session)) student_session
           eq_refl ltac:(discriminate) eq_refl).
Defined.

Lemma student_pages_query_for_own_id_witness :
  In Page_student_dashboard
     [Page_student_dashboard; Page_student_profile; Page_opportunities_student]
  /\ Forall (own_query (VInt 7))
       (events (call_page quiet_env nothing_pressed_inputs Page_student_dashboard
                  (Some (VInt 7)) (example_world None))).
Proof.
  assert (Hin : In Page_student_dashboard
                  [Page_student_dashboard; Page_student_profile; Page_opportunities_student])
    by now left.
  split; [exact Hin|].
  apply (student_pages_query_for_own_id quiet_env nothing_pressed_inputs (VInt 7)
           (example_world None) Page_student_dashboard Hin).
Defined.

Lemma rendering_alone_writes_nothing_witness :
  (forall key, clicked nothing_pressed_inputs key = false)
  /\ db (final (main quiet_env nothing_pressed_inputs (example_world (Some admin_session))))
     = example_db.
Proof.
  assert (Hno : forall key, clicked nothing_pressed_inputs key = false)
    by (intros key; reflexivity).
  split; [exact Hno|].
  apply (rendering_alone_writes_nothing quiet_env nothing_pressed_inputs
           (example_world (Some admin_session)) Hno).
Defined.

Lemma apply_offered_when_open_and_not_applied_witness :
  col overdue_opportunity "days_left" = sql_int (Some (-2))
  /\ buttons (events (opportunity_student_row quiet_env apply_inputs (VInt 7) (VFloat "8.5") []
                        overdue_opportunity (example_world None)))
     = [StButton "Expired" "apply_5" true].
Proof.
  split; [reflexivity|].
  apply (apply_offered_when_open_and_not_applied quiet_env apply_inputs (VInt 7)
           (VFloat "8.5") [] overdue_opportunity (Some (-2)) (example_world None) eq_refl).
Defined.


Lemma unlisted_status_ends_the_page_witness :
  index_from STATUSES (col odd_application "status") 0 = None
  /\ ops (events (application_row quiet_env nothing_pressed_inputs odd_application
                     (example_world None))) = [].
Proof.
  split; [reflexivity|].
  apply (proj1 (unlisted_status_ends_the_page quiet_env nothing_pressed_inputs odd_application
                  (example_world None)) eq_refl).
Defined.

Lemma forms_without_a_row_to_choose_raise_witness :
  out (query quiet_env LIST_APPLICATIONS [] (example_world None)) = Ok []
  /\ out (schedule_interview quiet_env schedule_inputs (example_world None))
     = Exc (KeyError "None").
Proof.
  split; [reflexivity|].
  apply (proj1 (forms_without_a_row_to_choose_raise quiet_env schedule_inputs
                  (example_world None)) eq_refl eq_refl).
Defined.

Lemma create_user_stores_the_digest_witness :
  exists role link res,
    ops (events (create_user quiet_env new_user_inputs (example_world None)))
    = [(OpQuery LIST_STUDENTS [], Returned);
       (OpExecute INSERT_USER [VStr "asha"; VStr "digest(s3cret)"; VStr role; link], res)]
    /\ In role ["ADMIN"; "STUDENT"]
    /\ (link = VNone \/ exists s, In s (@nil row) /\ link = col s "student_id").
Proof.
  exact (create_user_stores_the_digest quiet_env new_user_inputs (example_world None) []
           eq_refl eq_refl).
Defined.


Lemma validated_batch_reads_as_a_year_witness :
  exists n, py_int "2027" = Some n /\ 0 <= n <= 9999.
Proof.
  exact (validated_batch_reads_as_a_year "2027" eq_refl eq_refl eq_refl).
Defined.


Lemma untouched_edit_form_writes_the_row_back_witness :
  py_float (py_str (col listed_student "cgpa")) = Some (VFloat "8.50")
  /\ py_int (py_str (VInt 2027)) = Some 2027.
Proof.
  split; [reflexivity|].
  apply (untouched_edit_form_writes_the_row_back quiet_env untouched_inputs listed_student
           (example_world None) 2027 (VFloat "8.50") (fun _ => eq_refl) eq_refl eq_refl
           eq_refl).
Defined.


Lemma applications_page_changes_status_only_witness :
  application_audit (db (final audit_lost_run)) = []
  /\ users (db (final audit_lost_run)) = users example_db.
Proof.
  split; [vm_compute; reflexivity|].
  apply (applications_page_changes_status_only
           (example_env (fault_at 6 "2013: Lost connection to MySQL server")
              [(LIST_ALL_APPLICATIONS, [listed_application])])
           (example_inputs [] [("stsel_3", 3%nat)] ["upst_3"])
           (example_world (Some admin_session))).
Defined.
